(** * Tokyo barrier-free toilet map: the CSV batch scripts, embedded and verified

    A shallow embedding of the scripts under [scripts/]:

    - [csv_transformer.py] and [csv_transformer_builtin.py] (schema transformer),
    - [csv_to_pin_format.py] (pin formatter),
    - [split_csv_by_ward.py] (ward splitter),
    - [split_tama_data.py] (region splitter),
    - [create_lightweight_csv.py] (lightweight / priority extractor).

    Python [str] values are Rocq strings holding the UTF-8 bytes of the text.
    UTF-8 is self-synchronising, so substring search, prefix and suffix tests
    on the bytes of well-formed text agree with the same tests on code points.
    A [csv.DictReader] row is an association list from column name to cell.
    Python exceptions are the [Raise] results of a small error monad. *)

From Stdlib Require Import String Ascii List ZArith NArith Bool Lia Floats.
From Stdlib Require Import Sorting.Sorted Sorting.Permutation.
Import ListNotations.

Set Warnings "-inexact-float".

Open Scope string_scope.
Open Scope list_scope.

(* ================================================================== *)
(** * Python builtins used by the scripts *)
(* ================================================================== *)

Module Py.

(** ** Exceptions and results *)

Inductive exn : Type :=
| KeyError (key : string)
| ValueError (msg : string)
| TypeError (msg : string)
| FileNotFoundError (path : string).

Inductive result (A : Type) : Type :=
| Ok (a : A)
| Raise (e : exn).

Arguments Ok {A} a.
Arguments Raise {A} e.

Definition bind {A B : Type} (c : result A) (k : A -> result B) : result B :=
  match c with
  | Ok a => k a
  | Raise e => Raise e
  end.

Notation "x <- c ;; k" := (bind c (fun x => k))
  (at level 61, c at next level, right associativity).

(** ** Strings *)

(** [sub in s] on [str]. *)
Fixpoint py_in (sub s : string) : bool :=
  String.prefix sub s ||
  match s with
  | EmptyString => false
  | String _ s' => py_in sub s'
  end.

(** [s.endswith(suffix)]. *)
Fixpoint endswith (s suffix : string) : bool :=
  String.eqb s suffix ||
  match s with
  | EmptyString => false
  | String _ s' => endswith s' suffix
  end.

(** [sep.join(parts)]. *)
Fixpoint join (sep : string) (parts : list string) : string :=
  match parts with
  | [] => ""
  | [p] => p
  | p :: rest => p ++ sep ++ join sep rest
  end.

Fixpoint string_rev (s : string) : string :=
  match s with
  | EmptyString => EmptyString
  | String c s' => string_rev s' ++ String c EmptyString
  end.

Fixpoint drop (n : nat) (s : string) : string :=
  match n, s with
  | O, _ => s
  | S n', String _ s' => drop n' s'
  | S _, EmptyString => EmptyString
  end.

Definition bytes (l : list nat) : string :=
  string_of_list_ascii (map ascii_of_nat l).

(** The code points for which [str.isspace] holds, in UTF-8: U+0009..U+000D,
    U+001C..U+001F, U+0020, U+0085, U+00A0, U+1680, U+2000..U+200A, U+2028,
    U+2029, U+202F, U+205F and U+3000 (the ideographic space). *)
Definition whitespace : list string :=
  map bytes
    ([[9]; [10]; [11]; [12]; [13]; [28]; [29]; [30]; [31]; [32];
      [194; 133]; [194; 160]; [225; 154; 128]]
     ++ map (fun b => [226; 128; b]) (seq 128 11)
     ++ [[226; 128; 168]; [226; 128; 169]; [226; 128; 175];
         [226; 129; 159]; [227; 128; 128]])%nat.

(** Length in bytes of the white-space character that starts [s], [0] when
    [s] does not start with one. *)
Definition ws_len (ws : list string) (s : string) : nat :=
  match find (fun w => String.prefix w s) ws with
  | Some w => String.length w
  | None => O
  end.

Fixpoint lstrip_with (ws : list string) (fuel : nat) (s : string) : string :=
  match fuel with
  | O => s
  | S fuel' =>
      match ws_len ws s with
      | O => s
      | n => lstrip_with ws fuel' (drop n s)
      end
  end.

Definition lstrip (s : string) : string :=
  lstrip_with whitespace (String.length s) s.

Definition rstrip (s : string) : string :=
  string_rev
    (lstrip_with (map string_rev whitespace) (String.length s) (string_rev s)).

(** [s.strip()]. *)
Definition strip (s : string) : string := rstrip (lstrip s).

(** Truth value of a [str]: non-empty. *)
Definition truthy (s : string) : bool :=
  match s with
  | EmptyString => false
  | String _ _ => true
  end.

(** ** Dictionaries read by [csv.DictReader] *)

Definition Row : Type := list (string * string).

(** [row.get(key)]: [None] when the key is absent. *)
Fixpoint get (row : Row) (key : string) : option string :=
  match row with
  | [] => None
  | (k, v) :: rest => if String.eqb k key then Some v else get rest key
  end.

(** [row.get(key, default)]. *)
Definition get_default (row : Row) (key default : string) : string :=
  match get row key with
  | Some v => v
  | None => default
  end.

(** [row[key]], which raises [KeyError] on an absent key. *)
Definition item (row : Row) (key : string) : result string :=
  match get row key with
  | Some v => Ok v
  | None => Raise (KeyError key)
  end.

(** [row.keys()]. *)
Definition keys (row : Row) : list string := map fst row.

(** [d[k] = v] on a dict or on the columns of a frame: an existing key keeps
    its place, a new one goes last. *)
Fixpoint dict_set {V : Type} (d : list (string * V)) (k : string) (v : V)
  : list (string * V) :=
  match d with
  | [] => [(k, v)]
  | (k', v') :: rest =>
      if String.eqb k' k then (k', v) :: rest else (k', v') :: dict_set rest k v
  end.

(** [groups[key].append(row)] on a [defaultdict(list)]: keys stay in the
    order of their first use. *)
Fixpoint group_append (groups : list (string * list Row)) (key : string)
  (row : Row) : list (string * list Row) :=
  match groups with
  | [] => [(key, [row])]
  | (k, rows) :: rest =>
      if String.eqb k key then (k, rows ++ [row]) :: rest
      else (k, rows) :: group_append rest key row
  end.

(** ** Code points

    A [str] is held as the UTF-8 bytes of its text.  The tables of decimal
    digits and of unprintable code points are those of Unicode 14.0, the
    database of Python 3.11. *)

Definition continuation (c : ascii) : option N :=
  let b := N_of_ascii c in
  if (128 <=? b)%N && (b <? 192)%N then Some (b - 128)%N else None.

(** The code point that starts [s], with the rest of [s]; [None] for the
    empty string and for bytes that are not UTF-8. *)
Definition decode (s : string) : option (N * string) :=
  match s with
  | EmptyString => None
  | String a rest =>
      let b := N_of_ascii a in
      if b <? 128 then Some (b, rest)
      else if b <? 192 then None
      else if b <? 224 then
        match rest with
        | String c1 r1 =>
            match continuation c1 with
            | Some x1 => Some ((b - 192) * 64 + x1, r1)
            | None => None
            end
        | EmptyString => None
        end
      else if b <? 240 then
        match rest with
        | String c1 (String c2 r2) =>
            match continuation c1, continuation c2 with
            | Some x1, Some x2 => Some (((b - 224) * 64 + x1) * 64 + x2, r2)
            | _, _ => None
            end
        | _ => None
        end
      else if b <? 248 then
        match rest with
        | String c1 (String c2 (String c3 r3)) =>
            match continuation c1, continuation c2, continuation c3 with
            | Some x1, Some x2, Some x3 =>
                Some ((((b - 240) * 64 + x1) * 64 + x2) * 64 + x3, r3)
            | _, _, _ => None
            end
        | _ => None
        end
      else None
  end%N.

(** The code points of the digits 0 of the decimal digits (category Nd);
    the digits 1 to 9 of each follow it. *)
Definition decimal_zeros : list N :=
  [ 0x30; 0x660; 0x6F0; 0x7C0; 0x966; 0x9E6; 0xA66; 0xAE6; 0xB66; 0xBE6;
    0xC66; 0xCE6; 0xD66; 0xDE6; 0xE50; 0xED0; 0xF20; 0x1040; 0x1090;
    0x17E0; 0x1810; 0x1946; 0x19D0; 0x1A80; 0x1A90; 0x1B50; 0x1BB0; 0x1C40;
    0x1C50; 0xA620; 0xA8D0; 0xA900; 0xA9D0; 0xA9F0; 0xAA50; 0xABF0; 0xFF10;
    0x104A0; 0x10D30; 0x11066; 0x110F0; 0x11136; 0x111D0; 0x112F0; 0x11450;
    0x114D0; 0x11650; 0x116C0; 0x11730; 0x118E0; 0x11950; 0x11C50; 0x11D50;
    0x11DA0; 0x16A60; 0x16AC0; 0x16B50; 0x1D7CE; 0x1D7D8; 0x1D7E2; 0x1D7EC;
    0x1D7F6; 0x1E140; 0x1E2F0; 0x1E950; 0x1FBF0 ]%N.

(** [unicodedata.decimal(ch)], [None] for a code point that is no decimal
    digit. *)
Definition decimal (cp : N) : option N :=
  match find (fun z => (z <=? cp) && (cp <? z + 10))%N decimal_zeros with
  | Some z => Some (cp - z)%N
  | None => None
  end.

(** The code points beyond ASCII for which [str.isspace] holds. *)
Definition wide_spaces : list N :=
  [ 0x85; 0xA0; 0x1680; 0x2000; 0x2001; 0x2002; 0x2003; 0x2004; 0x2005;
    0x2006; 0x2007; 0x2008; 0x2009; 0x200A; 0x2028; 0x2029; 0x202F; 0x205F;
    0x3000 ]%N.

(** The ranges, ends included, of the code points from U+0080 on for which
    [str.isprintable] fails. *)
Definition unprintable : list (N * N) :=
  [ (0x80, 0xA0); (0xAD, 0xAD); (0x378, 0x379); (0x380, 0x383);
    (0x38B, 0x38B); (0x38D, 0x38D); (0x3A2, 0x3A2); (0x530, 0x530);
    (0x557, 0x558); (0x58B, 0x58C); (0x590, 0x590); (0x5C8, 0x5CF);
    (0x5EB, 0x5EE); (0x5F5, 0x605); (0x61C, 0x61C); (0x6DD, 0x6DD);
    (0x70E, 0x70F); (0x74B, 0x74C); (0x7B2, 0x7BF); (0x7FB, 0x7FC);
    (0x82E, 0x82F); (0x83F, 0x83F); (0x85C, 0x85D); (0x85F, 0x85F);
    (0x86B, 0x86F); (0x88F, 0x897); (0x8E2, 0x8E2); (0x984, 0x984);
    (0x98D, 0x98E); (0x991, 0x992); (0x9A9, 0x9A9); (0x9B1, 0x9B1);
    (0x9B3, 0x9B5); (0x9BA, 0x9BB); (0x9C5, 0x9C6); (0x9C9, 0x9CA);
    (0x9CF, 0x9D6); (0x9D8, 0x9DB); (0x9DE, 0x9DE); (0x9E4, 0x9E5);
    (0x9FF, 0xA00); (0xA04, 0xA04); (0xA0B, 0xA0E); (0xA11, 0xA12);
    (0xA29, 0xA29); (0xA31, 0xA31); (0xA34, 0xA34); (0xA37, 0xA37);
    (0xA3A, 0xA3B); (0xA3D, 0xA3D); (0xA43, 0xA46); (0xA49, 0xA4A);
    (0xA4E, 0xA50); (0xA52, 0xA58); (0xA5D, 0xA5D); (0xA5F, 0xA65);
    (0xA77, 0xA80); (0xA84, 0xA84); (0xA8E, 0xA8E); (0xA92, 0xA92);
    (0xAA9, 0xAA9); (0xAB1, 0xAB1); (0xAB4, 0xAB4); (0xABA, 0xABB);
    (0xAC6, 0xAC6); (0xACA, 0xACA); (0xACE, 0xACF); (0xAD1, 0xADF);
    (0xAE4, 0xAE5); (0xAF2, 0xAF8); (0xB00, 0xB00); (0xB04, 0xB04);
    (0xB0D, 0xB0E); (0xB11, 0xB12); (0xB29, 0xB29); (0xB31, 0xB31);
    (0xB34, 0xB34); (0xB3A, 0xB3B); (0xB45, 0xB46); (0xB49, 0xB4A);
    (0xB4E, 0xB54); (0xB58, 0xB5B); (0xB5E, 0xB5E); (0xB64, 0xB65);
    (0xB78, 0xB81); (0xB84, 0xB84); (0xB8B, 0xB8D); (0xB91, 0xB91);
    (0xB96, 0xB98); (0xB9B, 0xB9B); (0xB9D, 0xB9D); (0xBA0, 0xBA2);
    (0xBA5, 0xBA7); (0xBAB, 0xBAD); (0xBBA, 0xBBD); (0xBC3, 0xBC5);
    (0xBC9, 0xBC9); (0xBCE, 0xBCF); (0xBD1, 0xBD6); (0xBD8, 0xBE5);
    (0xBFB, 0xBFF); (0xC0D, 0xC0D); (0xC11, 0xC11); (0xC29, 0xC29);
    (0xC3A, 0xC3B); (0xC45, 0xC45); (0xC49, 0xC49); (0xC4E, 0xC54);
    (0xC57, 0xC57); (0xC5B, 0xC5C); (0xC5E, 0xC5F); (0xC64, 0xC65);
    (0xC70, 0xC76); (0xC8D, 0xC8D); (0xC91, 0xC91); (0xCA9, 0xCA9);
    (0xCB4, 0xCB4); (0xCBA, 0xCBB); (0xCC5, 0xCC5); (0xCC9, 0xCC9);
    (0xCCE, 0xCD4); (0xCD7, 0xCDC); (0xCDF, 0xCDF); (0xCE4, 0xCE5);
    (0xCF0, 0xCF0); (0xCF3, 0xCFF); (0xD0D, 0xD0D); (0xD11, 0xD11);
    (0xD45, 0xD45); (0xD49, 0xD49); (0xD50, 0xD53); (0xD64, 0xD65);
    (0xD80, 0xD80); (0xD84, 0xD84); (0xD97, 0xD99); (0xDB2, 0xDB2);
    (0xDBC, 0xDBC); (0xDBE, 0xDBF); (0xDC7, 0xDC9); (0xDCB, 0xDCE);
    (0xDD5, 0xDD5); (0xDD7, 0xDD7); (0xDE0, 0xDE5); (0xDF0, 0xDF1);
    (0xDF5, 0xE00); (0xE3B, 0xE3E); (0xE5C, 0xE80); (0xE83, 0xE83);
    (0xE85, 0xE85); (0xE8B, 0xE8B); (0xEA4, 0xEA4); (0xEA6, 0xEA6);
    (0xEBE, 0xEBF); (0xEC5, 0xEC5); (0xEC7, 0xEC7); (0xECE, 0xECF);
    (0xEDA, 0xEDB); (0xEE0, 0xEFF); (0xF48, 0xF48); (0xF6D, 0xF70);
    (0xF98, 0xF98); (0xFBD, 0xFBD); (0xFCD, 0xFCD); (0xFDB, 0xFFF);
    (0x10C6, 0x10C6); (0x10C8, 0x10CC); (0x10CE, 0x10CF); (0x1249, 0x1249);
    (0x124E, 0x124F); (0x1257, 0x1257); (0x1259, 0x1259); (0x125E, 0x125F);
    (0x1289, 0x1289); (0x128E, 0x128F); (0x12B1, 0x12B1); (0x12B6, 0x12B7);
    (0x12BF, 0x12BF); (0x12C1, 0x12C1); (0x12C6, 0x12C7); (0x12D7, 0x12D7);
    (0x1311, 0x1311); (0x1316, 0x1317); (0x135B, 0x135C); (0x137D, 0x137F);
    (0x139A, 0x139F); (0x13F6, 0x13F7); (0x13FE, 0x13FF); (0x1680, 0x1680);
    (0x169D, 0x169F); (0x16F9, 0x16FF); (0x1716, 0x171E); (0x1737, 0x173F);
    (0x1754, 0x175F); (0x176D, 0x176D); (0x1771, 0x1771); (0x1774, 0x177F);
    (0x17DE, 0x17DF); (0x17EA, 0x17EF); (0x17FA, 0x17FF); (0x180E, 0x180E);
    (0x181A, 0x181F); (0x1879, 0x187F); (0x18AB, 0x18AF); (0x18F6, 0x18FF);
    (0x191F, 0x191F); (0x192C, 0x192F); (0x193C, 0x193F); (0x1941, 0x1943);
    (0x196E, 0x196F); (0x1975, 0x197F); (0x19AC, 0x19AF); (0x19CA, 0x19CF);
    (0x19DB, 0x19DD); (0x1A1C, 0x1A1D); (0x1A5F, 0x1A5F); (0x1A7D, 0x1A7E);
    (0x1A8A, 0x1A8F); (0x1A9A, 0x1A9F); (0x1AAE, 0x1AAF); (0x1ACF, 0x1AFF);
    (0x1B4D, 0x1B4F); (0x1B7F, 0x1B7F); (0x1BF4, 0x1BFB); (0x1C38, 0x1C3A);
    (0x1C4A, 0x1C4C); (0x1C89, 0x1C8F); (0x1CBB, 0x1CBC); (0x1CC8, 0x1CCF);
    (0x1CFB, 0x1CFF); (0x1F16, 0x1F17); (0x1F1E, 0x1F1F); (0x1F46, 0x1F47);
    (0x1F4E, 0x1F4F); (0x1F58, 0x1F58); (0x1F5A, 0x1F5A); (0x1F5C, 0x1F5C);
    (0x1F5E, 0x1F5E); (0x1F7E, 0x1F7F); (0x1FB5, 0x1FB5); (0x1FC5, 0x1FC5);
    (0x1FD4, 0x1FD5); (0x1FDC, 0x1FDC); (0x1FF0, 0x1FF1); (0x1FF5, 0x1FF5);
    (0x1FFF, 0x200F); (0x2028, 0x202F); (0x205F, 0x206F); (0x2072, 0x2073);
    (0x208F, 0x208F); (0x209D, 0x209F); (0x20C1, 0x20CF); (0x20F1, 0x20FF);
    (0x218C, 0x218F); (0x2427, 0x243F); (0x244B, 0x245F); (0x2B74, 0x2B75);
    (0x2B96, 0x2B96); (0x2CF4, 0x2CF8); (0x2D26, 0x2D26); (0x2D28, 0x2D2C);
    (0x2D2E, 0x2D2F); (0x2D68, 0x2D6E); (0x2D71, 0x2D7E); (0x2D97, 0x2D9F);
    (0x2DA7, 0x2DA7); (0x2DAF, 0x2DAF); (0x2DB7, 0x2DB7); (0x2DBF, 0x2DBF);
    (0x2DC7, 0x2DC7); (0x2DCF, 0x2DCF); (0x2DD7, 0x2DD7); (0x2DDF, 0x2DDF);
    (0x2E5E, 0x2E7F); (0x2E9A, 0x2E9A); (0x2EF4, 0x2EFF); (0x2FD6, 0x2FEF);
    (0x2FFC, 0x3000); (0x3040, 0x3040); (0x3097, 0x3098); (0x3100, 0x3104);
    (0x3130, 0x3130); (0x318F, 0x318F); (0x31E4, 0x31EF); (0x321F, 0x321F);
    (0xA48D, 0xA48F); (0xA4C7, 0xA4CF); (0xA62C, 0xA63F); (0xA6F8, 0xA6FF);
    (0xA7CB, 0xA7CF); (0xA7D2, 0xA7D2); (0xA7D4, 0xA7D4); (0xA7DA, 0xA7F1);
    (0xA82D, 0xA82F); (0xA83A, 0xA83F); (0xA878, 0xA87F); (0xA8C6, 0xA8CD);
    (0xA8DA, 0xA8DF); (0xA954, 0xA95E); (0xA97D, 0xA97F); (0xA9CE, 0xA9CE);
    (0xA9DA, 0xA9DD); (0xA9FF, 0xA9FF); (0xAA37, 0xAA3F); (0xAA4E, 0xAA4F);
    (0xAA5A, 0xAA5B); (0xAAC3, 0xAADA); (0xAAF7, 0xAB00); (0xAB07, 0xAB08);
    (0xAB0F, 0xAB10); (0xAB17, 0xAB1F); (0xAB27, 0xAB27); (0xAB2F, 0xAB2F);
    (0xAB6C, 0xAB6F); (0xABEE, 0xABEF); (0xABFA, 0xABFF); (0xD7A4, 0xD7AF);
    (0xD7C7, 0xD7CA); (0xD7FC, 0xF8FF); (0xFA6E, 0xFA6F); (0xFADA, 0xFAFF);
    (0xFB07, 0xFB12); (0xFB18, 0xFB1C); (0xFB37, 0xFB37); (0xFB3D, 0xFB3D);
    (0xFB3F, 0xFB3F); (0xFB42, 0xFB42); (0xFB45, 0xFB45); (0xFBC3, 0xFBD2);
    (0xFD90, 0xFD91); (0xFDC8, 0xFDCE); (0xFDD0, 0xFDEF); (0xFE1A, 0xFE1F);
    (0xFE53, 0xFE53); (0xFE67, 0xFE67); (0xFE6C, 0xFE6F); (0xFE75, 0xFE75);
    (0xFEFD, 0xFF00); (0xFFBF, 0xFFC1); (0xFFC8, 0xFFC9); (0xFFD0, 0xFFD1);
    (0xFFD8, 0xFFD9); (0xFFDD, 0xFFDF); (0xFFE7, 0xFFE7); (0xFFEF, 0xFFFB);
    (0xFFFE, 0xFFFF); (0x1000C, 0x1000C); (0x10027, 0x10027);
    (0x1003B, 0x1003B); (0x1003E, 0x1003E); (0x1004E, 0x1004F);
    (0x1005E, 0x1007F); (0x100FB, 0x100FF); (0x10103, 0x10106);
    (0x10134, 0x10136); (0x1018F, 0x1018F); (0x1019D, 0x1019F);
    (0x101A1, 0x101CF); (0x101FE, 0x1027F); (0x1029D, 0x1029F);
    (0x102D1, 0x102DF); (0x102FC, 0x102FF); (0x10324, 0x1032C);
    (0x1034B, 0x1034F); (0x1037B, 0x1037F); (0x1039E, 0x1039E);
    (0x103C4, 0x103C7); (0x103D6, 0x103FF); (0x1049E, 0x1049F);
    (0x104AA, 0x104AF); (0x104D4, 0x104D7); (0x104FC, 0x104FF);
    (0x10528, 0x1052F); (0x10564, 0x1056E); (0x1057B, 0x1057B);
    (0x1058B, 0x1058B); (0x10593, 0x10593); (0x10596, 0x10596);
    (0x105A2, 0x105A2); (0x105B2, 0x105B2); (0x105BA, 0x105BA);
    (0x105BD, 0x105FF); (0x10737, 0x1073F); (0x10756, 0x1075F);
    (0x10768, 0x1077F); (0x10786, 0x10786); (0x107B1, 0x107B1);
    (0x107BB, 0x107FF); (0x10806, 0x10807); (0x10809, 0x10809);
    (0x10836, 0x10836); (0x10839, 0x1083B); (0x1083D, 0x1083E);
    (0x10856, 0x10856); (0x1089F, 0x108A6); (0x108B0, 0x108DF);
    (0x108F3, 0x108F3); (0x108F6, 0x108FA); (0x1091C, 0x1091E);
    (0x1093A, 0x1093E); (0x10940, 0x1097F); (0x109B8, 0x109BB);
    (0x109D0, 0x109D1); (0x10A04, 0x10A04); (0x10A07, 0x10A0B);
    (0x10A14, 0x10A14); (0x10A18, 0x10A18); (0x10A36, 0x10A37);
    (0x10A3B, 0x10A3E); (0x10A49, 0x10A4F); (0x10A59, 0x10A5F);
    (0x10AA0, 0x10ABF); (0x10AE7, 0x10AEA); (0x10AF7, 0x10AFF);
    (0x10B36, 0x10B38); (0x10B56, 0x10B57); (0x10B73, 0x10B77);
    (0x10B92, 0x10B98); (0x10B9D, 0x10BA8); (0x10BB0, 0x10BFF);
    (0x10C49, 0x10C7F); (0x10CB3, 0x10CBF); (0x10CF3, 0x10CF9);
    (0x10D28, 0x10D2F); (0x10D3A, 0x10E5F); (0x10E7F, 0x10E7F);
    (0x10EAA, 0x10EAA); (0x10EAE, 0x10EAF); (0x10EB2, 0x10EFF);
    (0x10F28, 0x10F2F); (0x10F5A, 0x10F6F); (0x10F8A, 0x10FAF);
    (0x10FCC, 0x10FDF); (0x10FF7, 0x10FFF); (0x1104E, 0x11051);
    (0x11076, 0x1107E); (0x110BD, 0x110BD); (0x110C3, 0x110CF);
    (0x110E9, 0x110EF); (0x110FA, 0x110FF); (0x11135, 0x11135);
    (0x11148, 0x1114F); (0x11177, 0x1117F); (0x111E0, 0x111E0);
    (0x111F5, 0x111FF); (0x11212, 0x11212); (0x1123F, 0x1127F);
    (0x11287, 0x11287); (0x11289, 0x11289); (0x1128E, 0x1128E);
    (0x1129E, 0x1129E); (0x112AA, 0x112AF); (0x112EB, 0x112EF);
    (0x112FA, 0x112FF); (0x11304, 0x11304); (0x1130D, 0x1130E);
    (0x11311, 0x11312); (0x11329, 0x11329); (0x11331, 0x11331);
    (0x11334, 0x11334); (0x1133A, 0x1133A); (0x11345, 0x11346);
    (0x11349, 0x1134A); (0x1134E, 0x1134F); (0x11351, 0x11356);
    (0x11358, 0x1135C); (0x11364, 0x11365); (0x1136D, 0x1136F);
    (0x11375, 0x113FF); (0x1145C, 0x1145C); (0x11462, 0x1147F);
    (0x114C8, 0x114CF); (0x114DA, 0x1157F); (0x115B6, 0x115B7);
    (0x115DE, 0x115FF); (0x11645, 0x1164F); (0x1165A, 0x1165F);
    (0x1166D, 0x1167F); (0x116BA, 0x116BF); (0x116CA, 0x116FF);
    (0x1171B, 0x1171C); (0x1172C, 0x1172F); (0x11747, 0x117FF);
    (0x1183C, 0x1189F); (0x118F3, 0x118FE); (0x11907, 0x11908);
    (0x1190A, 0x1190B); (0x11914, 0x11914); (0x11917, 0x11917);
    (0x11936, 0x11936); (0x11939, 0x1193A); (0x11947, 0x1194F);
    (0x1195A, 0x1199F); (0x119A8, 0x119A9); (0x119D8, 0x119D9);
    (0x119E5, 0x119FF); (0x11A48, 0x11A4F); (0x11AA3, 0x11AAF);
    (0x11AF9, 0x11BFF); (0x11C09, 0x11C09); (0x11C37, 0x11C37);
    (0x11C46, 0x11C4F); (0x11C6D, 0x11C6F); (0x11C90, 0x11C91);
    (0x11CA8, 0x11CA8); (0x11CB7, 0x11CFF); (0x11D07, 0x11D07);
    (0x11D0A, 0x11D0A); (0x11D37, 0x11D39); (0x11D3B, 0x11D3B);
    (0x11D3E, 0x11D3E); (0x11D48, 0x11D4F); (0x11D5A, 0x11D5F);
    (0x11D66, 0x11D66); (0x11D69, 0x11D69); (0x11D8F, 0x11D8F);
    (0x11D92, 0x11D92); (0x11D99, 0x11D9F); (0x11DAA, 0x11EDF);
    (0x11EF9, 0x11FAF); (0x11FB1, 0x11FBF); (0x11FF2, 0x11FFE);
    (0x1239A, 0x123FF); (0x1246F, 0x1246F); (0x12475, 0x1247F);
    (0x12544, 0x12F8F); (0x12FF3, 0x12FFF); (0x1342F, 0x143FF);
    (0x14647, 0x167FF); (0x16A39, 0x16A3F); (0x16A5F, 0x16A5F);
    (0x16A6A, 0x16A6D); (0x16ABF, 0x16ABF); (0x16ACA, 0x16ACF);
    (0x16AEE, 0x16AEF); (0x16AF6, 0x16AFF); (0x16B46, 0x16B4F);
    (0x16B5A, 0x16B5A); (0x16B62, 0x16B62); (0x16B78, 0x16B7C);
    (0x16B90, 0x16E3F); (0x16E9B, 0x16EFF); (0x16F4B, 0x16F4E);
    (0x16F88, 0x16F8E); (0x16FA0, 0x16FDF); (0x16FE5, 0x16FEF);
    (0x16FF2, 0x16FFF); (0x187F8, 0x187FF); (0x18CD6, 0x18CFF);
    (0x18D09, 0x1AFEF); (0x1AFF4, 0x1AFF4); (0x1AFFC, 0x1AFFC);
    (0x1AFFF, 0x1AFFF); (0x1B123, 0x1B14F); (0x1B153, 0x1B163);
    (0x1B168, 0x1B16F); (0x1B2FC, 0x1BBFF); (0x1BC6B, 0x1BC6F);
    (0x1BC7D, 0x1BC7F); (0x1BC89, 0x1BC8F); (0x1BC9A, 0x1BC9B);
    (0x1BCA0, 0x1CEFF); (0x1CF2E, 0x1CF2F); (0x1CF47, 0x1CF4F);
    (0x1CFC4, 0x1CFFF); (0x1D0F6, 0x1D0FF); (0x1D127, 0x1D128);
    (0x1D173, 0x1D17A); (0x1D1EB, 0x1D1FF); (0x1D246, 0x1D2DF);
    (0x1D2F4, 0x1D2FF); (0x1D357, 0x1D35F); (0x1D379, 0x1D3FF);
    (0x1D455, 0x1D455); (0x1D49D, 0x1D49D); (0x1D4A0, 0x1D4A1);
    (0x1D4A3, 0x1D4A4); (0x1D4A7, 0x1D4A8); (0x1D4AD, 0x1D4AD);
    (0x1D4BA, 0x1D4BA); (0x1D4BC, 0x1D4BC); (0x1D4C4, 0x1D4C4);
    (0x1D506, 0x1D506); (0x1D50B, 0x1D50C); (0x1D515, 0x1D515);
    (0x1D51D, 0x1D51D); (0x1D53A, 0x1D53A); (0x1D53F, 0x1D53F);
    (0x1D545, 0x1D545); (0x1D547, 0x1D549); (0x1D551, 0x1D551);
    (0x1D6A6, 0x1D6A7); (0x1D7CC, 0x1D7CD); (0x1DA8C, 0x1DA9A);
    (0x1DAA0, 0x1DAA0); (0x1DAB0, 0x1DEFF); (0x1DF1F, 0x1DFFF);
    (0x1E007, 0x1E007); (0x1E019, 0x1E01A); (0x1E022, 0x1E022);
    (0x1E025, 0x1E025); (0x1E02B, 0x1E0FF); (0x1E12D, 0x1E12F);
    (0x1E13E, 0x1E13F); (0x1E14A, 0x1E14D); (0x1E150, 0x1E28F);
    (0x1E2AF, 0x1E2BF); (0x1E2FA, 0x1E2FE); (0x1E300, 0x1E7DF);
    (0x1E7E7, 0x1E7E7); (0x1E7EC, 0x1E7EC); (0x1E7EF, 0x1E7EF);
    (0x1E7FF, 0x1E7FF); (0x1E8C5, 0x1E8C6); (0x1E8D7, 0x1E8FF);
    (0x1E94C, 0x1E94F); (0x1E95A, 0x1E95D); (0x1E960, 0x1EC70);
    (0x1ECB5, 0x1ED00); (0x1ED3E, 0x1EDFF); (0x1EE04, 0x1EE04);
    (0x1EE20, 0x1EE20); (0x1EE23, 0x1EE23); (0x1EE25, 0x1EE26);
    (0x1EE28, 0x1EE28); (0x1EE33, 0x1EE33); (0x1EE38, 0x1EE38);
    (0x1EE3A, 0x1EE3A); (0x1EE3C, 0x1EE41); (0x1EE43, 0x1EE46);
    (0x1EE48, 0x1EE48); (0x1EE4A, 0x1EE4A); (0x1EE4C, 0x1EE4C);
    (0x1EE50, 0x1EE50); (0x1EE53, 0x1EE53); (0x1EE55, 0x1EE56);
    (0x1EE58, 0x1EE58); (0x1EE5A, 0x1EE5A); (0x1EE5C, 0x1EE5C);
    (0x1EE5E, 0x1EE5E); (0x1EE60, 0x1EE60); (0x1EE63, 0x1EE63);
    (0x1EE65, 0x1EE66); (0x1EE6B, 0x1EE6B); (0x1EE73, 0x1EE73);
    (0x1EE78, 0x1EE78); (0x1EE7D, 0x1EE7D); (0x1EE7F, 0x1EE7F);
    (0x1EE8A, 0x1EE8A); (0x1EE9C, 0x1EEA0); (0x1EEA4, 0x1EEA4);
    (0x1EEAA, 0x1EEAA); (0x1EEBC, 0x1EEEF); (0x1EEF2, 0x1EFFF);
    (0x1F02C, 0x1F02F); (0x1F094, 0x1F09F); (0x1F0AF, 0x1F0B0);
    (0x1F0C0, 0x1F0C0); (0x1F0D0, 0x1F0D0); (0x1F0F6, 0x1F0FF);
    (0x1F1AE, 0x1F1E5); (0x1F203, 0x1F20F); (0x1F23C, 0x1F23F);
    (0x1F249, 0x1F24F); (0x1F252, 0x1F25F); (0x1F266, 0x1F2FF);
    (0x1F6D8, 0x1F6DC); (0x1F6ED, 0x1F6EF); (0x1F6FD, 0x1F6FF);
    (0x1F774, 0x1F77F); (0x1F7D9, 0x1F7DF); (0x1F7EC, 0x1F7EF);
    (0x1F7F1, 0x1F7FF); (0x1F80C, 0x1F80F); (0x1F848, 0x1F84F);
    (0x1F85A, 0x1F85F); (0x1F888, 0x1F88F); (0x1F8AE, 0x1F8AF);
    (0x1F8B2, 0x1F8FF); (0x1FA54, 0x1FA5F); (0x1FA6E, 0x1FA6F);
    (0x1FA75, 0x1FA77); (0x1FA7D, 0x1FA7F); (0x1FA87, 0x1FA8F);
    (0x1FAAD, 0x1FAAF); (0x1FABB, 0x1FABF); (0x1FAC6, 0x1FACF);
    (0x1FADA, 0x1FADF); (0x1FAE8, 0x1FAEF); (0x1FAF7, 0x1FAFF);
    (0x1FB93, 0x1FB93); (0x1FBCB, 0x1FBEF); (0x1FBFA, 0x1FFFF);
    (0x2A6E0, 0x2A6FF); (0x2B739, 0x2B73F); (0x2B81E, 0x2B81F);
    (0x2CEA2, 0x2CEAF); (0x2EBE1, 0x2F7FF); (0x2FA1E, 0x2FFFF);
    (0x3134B, 0xE00FF); (0xE01F0, 0x10FFFF) ]%N.

Definition printable (cp : N) : bool :=
  negb (existsb (fun r => (fst r <=? cp) && (cp <=? snd r))%N unprintable).

(** ** [repr(str)] *)

Definition hex_digit (n : N) : ascii :=
  ascii_of_N (if (n <? 10)%N then 48 + n else 87 + n)%N.

(** [n] in [width] lower-case hexadecimal digits. *)
Fixpoint hex (width : nat) (n : N) : string :=
  match width with
  | O => EmptyString
  | S w => hex w (n / 16) ++ String (hex_digit (n mod 16)) EmptyString
  end.

Definition backslash : string := bytes [92].
Definition single_quote : string := bytes [39].
Definition double_quote : string := bytes [34].

(** The text that stands for one character between the quotes. *)
Definition repr_char (quote : string) (cp : N) (raw : string) : string :=
  if String.eqb raw quote || String.eqb raw backslash then backslash ++ raw
  else if (cp =? 9)%N then backslash ++ "t"
  else if (cp =? 10)%N then backslash ++ "n"
  else if (cp =? 13)%N then backslash ++ "r"
  else if (cp <? 32)%N || (cp =? 127)%N then backslash ++ "x" ++ hex 2 cp
  else if (cp <? 127)%N then raw
  else if printable cp then raw
  else if (cp <? 256)%N then backslash ++ "x" ++ hex 2 cp
  else if (cp <? 65536)%N then backslash ++ "u" ++ hex 4 cp
  else backslash ++ "U" ++ hex 8 cp.

Fixpoint repr_body (fuel : nat) (quote s : string) : string :=
  match fuel with
  | O => EmptyString
  | S fuel' =>
      match decode s with
      | Some (cp, rest) =>
          let raw := substring 0 (String.length s - String.length rest) s in
          repr_char quote cp raw ++ repr_body fuel' quote rest
      | None => s
      end
  end.

(** [repr(s)]: between double quotes when [s] holds a single quote and no
    double quote, between single quotes otherwise. *)
Definition repr (s : string) : string :=
  let quote :=
    if py_in single_quote s && negb (py_in double_quote s)
    then double_quote else single_quote in
  quote ++ repr_body (String.length s) quote s ++ quote.

(** ** [float(str)]

    A decimal digit of any script counts as the ASCII digit of its value, a
    white-space character beyond ASCII as a space, and any other character
    beyond ASCII has no place in a number.  The space, tab, line feed,
    vertical tab, form feed and carriage return around the literal are
    ignored (not the separators U+001C to U+001F).  The literal follows the
    grammar of the language reference: optional sign, then [inf],
    [infinity], [nan] (any case) or a decimal number with optional fraction
    and exponent, single underscores allowed between digits.  The value is
    the binary64 number nearest to the decimal (ties to even), computed on
    exact integers.  A string outside the grammar raises [ValueError] with
    its [repr] in the message. *)

Definition ascii_of_point (cp : N) : option ascii :=
  if (cp <? 128)%N then Some (ascii_of_N cp)
  else if existsb (N.eqb cp) wide_spaces then Some " "%char
  else
    match decimal cp with
    | Some d => Some (ascii_of_N (48 + d)%N)
    | None => None
    end.

Fixpoint to_ascii (fuel : nat) (s : string) : option string :=
  match s with
  | EmptyString => Some EmptyString
  | String _ _ =>
      match fuel with
      | O => None
      | S fuel' =>
          match decode s with
          | Some (cp, rest) =>
              match ascii_of_point cp, to_ascii fuel' rest with
              | Some c, Some t => Some (String c t)
              | _, _ => None
              end
          | None => None
          end
      end
  end.

Definition float_spaces : list string :=
  map bytes [[9]; [10]; [11]; [12]; [13]; [32]]%nat.

Definition float_strip (s : string) : string :=
  let s' := lstrip_with float_spaces (String.length s) s in
  string_rev
    (lstrip_with (map string_rev float_spaces) (String.length s') (string_rev s')).

Definition is_digit (c : ascii) : bool :=
  (48 <=? nat_of_ascii c)%nat && (nat_of_ascii c <=? 57)%nat.

Definition digit_val (c : ascii) : Z := Z.of_nat (nat_of_ascii c) - 48.

(** The rest of a digit part after a first digit: [(["_"] digit)*].
    Returns the accumulated value, the number of digits read and the rest. *)
Fixpoint digitpart_tail (acc : Z) (n : Z) (s : string) : Z * Z * string :=
  match s with
  | String c s' =>
      if is_digit c then digitpart_tail (10 * acc + digit_val c) (n + 1) s'
      else if Ascii.eqb c "_" then
        match s' with
        | String c2 s'' =>
            if is_digit c2
            then digitpart_tail (10 * acc + digit_val c2) (n + 1) s''
            else (acc, n, s)
        | EmptyString => (acc, n, s)
        end
      else (acc, n, s)
  | EmptyString => (acc, n, s)
  end.

(** [digitpart] continuing a mantissa [acc]: at least one digit. *)
Definition digitpart (acc : Z) (s : string) : option (Z * Z * string) :=
  match s with
  | String c s' =>
      if is_digit c then Some (digitpart_tail (10 * acc + digit_val c) 1 s')
      else None
  | EmptyString => None
  end.

(** [number ::= [digitpart] "." digitpart | digitpart ["."]]: the digits as
    one integer and the count of digits after the point. *)
Definition number (s : string) : option (Z * Z * string) :=
  match digitpart 0 s with
  | Some (m, _, String "." rest) =>
      match digitpart m rest with
      | Some (m', k, rest') => Some (m', k, rest')
      | None => Some (m, 0, rest)
      end
  | Some (m, _, rest) => Some (m, 0, rest)
  | None =>
      match s with
      | String "." rest => digitpart 0 rest
      | _ => None
      end
  end%Z.

Definition signed (s : string) : bool * string :=
  match s with
  | String "-" rest => (true, rest)
  | String "+" rest => (false, rest)
  | _ => (false, s)
  end.

(** [exponent ::= ("e" | "E") [sign] digitpart], absent when [s] is empty. *)
Definition exponent (s : string) : option Z :=
  match s with
  | EmptyString => Some 0%Z
  | String c rest =>
      if Ascii.eqb c "e" || Ascii.eqb c "E" then
        let (neg, rest') := signed rest in
        match digitpart 0 rest' with
        | Some (e, _, EmptyString) => Some (if neg then - e else e)%Z
        | _ => None
        end
      else None
  end.

Definition lower_ascii (c : ascii) : ascii :=
  let n := nat_of_ascii c in
  if (65 <=? n)%nat && (n <=? 90)%nat then ascii_of_nat (n + 32) else c.

Fixpoint lower (s : string) : string :=
  match s with
  | EmptyString => EmptyString
  | String c s' => String (lower_ascii c) (lower s')
  end.

Definition prec : Z := 53.
Definition emax : Z := 1024.

Fixpoint decimal_digits (fuel : nat) (m : Z) : Z :=
  match fuel with
  | O => 0
  | S fuel' => if (m <? 10)%Z then 1 else 1 + decimal_digits fuel' (m / 10)
  end%Z.

(** The binary64 number nearest to [m * 10 ^ e], for [m > 0].  Magnitudes
    beyond the format are cut short before any power is computed: at or above
    [10 ^ 310] the result is an infinity, below [10 ^ -330] a zero. *)
Definition nearest (neg : bool) (m : positive) (e : Z) : spec_float :=
  let d := decimal_digits (S (Z.to_nat (Z.log2 (Zpos m)))) (Zpos m) in
  if (310 <? d + e)%Z then S754_infinity neg
  else if (d + e <? -330)%Z then S754_zero neg
  else if (0 <=? e)%Z
       then binary_normalize prec emax
              ((if neg then -1 else 1) * (Zpos m * 10 ^ e))%Z 0%Z false
       else SFdiv prec emax (S754_finite neg m 0)
              (S754_finite false (Z.to_pos (10 ^ (- e))) 0).

Definition float_of_decimal (neg : bool) (m e : Z) : float :=
  match m with
  | Zpos p => SF2Prim (nearest neg p e)
  | _ => if neg then neg_zero else zero
  end.

(** The value of a literal in ASCII without white space around it. *)
Definition parse_literal (s : string) : option float :=
  let (neg, body) := signed s in
  let name := lower body in
  if String.eqb name "inf" || String.eqb name "infinity"
  then Some (if neg then neg_infinity else infinity)
  else if String.eqb name "nan" then Some nan
  else
    match number body with
    | Some (m, k, rest) =>
        match exponent rest with
        | Some e => Some (float_of_decimal neg m (e - k))
        | None => None
        end
    | None => None
    end.

Definition parse_float (s : string) : option float :=
  match to_ascii (String.length s) s with
  | Some t => parse_literal (float_strip t)
  | None => None
  end.

(** [float(s)]. *)
Definition py_float (s : string) : result float :=
  match parse_float s with
  | Some x => Ok x
  | None =>
      Raise (ValueError ("could not convert string to float: " ++ repr s))
  end.

(** ** Lists *)

(** [l[:n]]: the first [n] elements for [n >= 0], all but the last [-n] for
    a negative [n]. *)
Definition slice_to {A : Type} (l : list A) (n : Z) : list A :=
  if (0 <=? n)%Z then firstn (Z.to_nat n) l
  else firstn (length l - Z.to_nat (- n)) l.

End Py.

(* ================================================================== *)
(** * The [csv] module: readers and writers over parsed rows *)
(* ================================================================== *)

Module Csv.
Import Py.

(** A CSV file as [csv.reader] yields it and [csv.writer] is given it: its
    rows of cells, the header row first.  A blank line is the row [[]].
    Quoting and encoding are the library's concern and left out. *)
Definition File : Type := list (list string).

(** [dict(zip(names, cells))]. *)
Definition dict_zip (names cells : list string) : Row :=
  fold_left (fun d kv => dict_set d (fst kv) (snd kv)) (combine names cells) [].

Definition is_blank (cells : list string) : bool :=
  match cells with
  | [] => true
  | _ :: _ => false
  end.

(** [reader.fieldnames]: the first row, [None] for an empty file. *)
Definition fieldnames (f : File) : option (list string) := hd_error f.

(** [list(csv.DictReader(f))]: blank rows are skipped.  A row shorter or
    longer than the header is cut to the common length ([restval] and
    [restkey] are not modelled). *)
Definition DictReader (f : File) : list Row :=
  match f with
  | [] => []
  | names :: recs =>
      map (dict_zip names) (filter (fun r => negb (is_blank r)) recs)
  end.

(** [DictWriter(fieldnames=names)._dict_to_list(row)]: a key outside the
    field names raises [ValueError]; an absent field is written empty. *)
Definition dict_to_list (names : list string) (row : Row) : result (list string) :=
  if forallb (fun k => existsb (String.eqb k) names) (keys row)
  then Ok (map (fun n => get_default row n "") names)
  else Raise (ValueError "dict contains fields not in fieldnames").

(** [writer.writerows(rows)] appending to the file [f] being written: the
    rows before a failing one stay written. *)
Fixpoint writerows (names : list string) (rows : list Row) (f : File)
  : File * result unit :=
  match rows with
  | [] => (f, Ok tt)
  | row :: rest =>
      match dict_to_list names row with
      | Ok cells => writerows names rest (f ++ [cells])
      | Raise e => (f, Raise e)
      end
  end.

(** [writer.writeheader()] followed by [writer.writerows(rows)] on a file
    just opened for writing. *)
Definition write_table (names : list string) (rows : list Row)
  : File * result unit :=
  writerows names rows [names].

End Csv.

(* ================================================================== *)
(** * [csv_transformer_builtin.py] *)
(* ================================================================== *)

Module CsvTransformerBuiltin.
Import Py Csv.

Definition convert_boolean_value (value : string) : string :=
  if String.eqb value "○" then "TRUE"
  else if String.eqb value "×" then "FALSE"
  else "FALSE".

Definition target_columns : list string :=
  [ "施設名"; "都道府県"; "市区町村・番地"; "トイレ名"; "設置フロア"; "経度"; "緯度";
    "性別の分け"; "戸の形式";
    "車椅子が出入りできる（出入口の有効幅員80cm以上）";
    "車椅子が転回できる（直径150cm以上の円が内接できる）";
    "便座に背もたれがある"; "便座に手すりがある"; "オストメイト用設備がある";
    "オストメイト用設備が温水対応している"; "大型ベッドを備えている";
    "乳幼児用おむつ交換台等を備えている"; "乳幼児用椅子を備えている";
    "月曜日"; "火曜日"; "水曜日"; "木曜日"; "金曜日"; "土曜日"; "日曜日"; "祝日";
    "その他"; "写真データ（トイレの入り口）"; "写真データ（トイレ内）";
    "写真データ（トイレ内（別角度））"; "備考" ].

Definition boolean_columns : list string :=
  [ "車椅子が出入りできる（出入口の有効幅員80cm以上）";
    "車椅子が転回できる（直径150cm以上の円が内接できる）";
    "便座に背もたれがある"; "便座に手すりがある"; "オストメイト用設備がある";
    "オストメイト用設備が温水対応している"; "大型ベッドを備えている";
    "乳幼児用おむつ交換台等を備えている"; "乳幼児用椅子を備えている" ].

(** The body of the loop over [target_columns] for one source row. *)
Definition target_row (row : Row) : Row :=
  map (fun col =>
         let value := get_default row col "" in
         (col, if existsb (String.eqb col) boolean_columns
               then convert_boolean_value value
               else value))
      target_columns.

Definition empty_row : Row := map (fun col => (col, "")) target_columns.

(** The rows handed to the writer after the header, in order: the empty row,
    then the target row of every source row with a non-blank facility name. *)
Definition written_rows (rows : list Row) : list Row :=
  empty_row ::
  map target_row
    (filter (fun row => truthy (strip (get_default row "施設名" ""))) rows).

(** [transform_csv] from the parsed input file to the output file. *)
Definition transform_csv (input : File) : File * result unit :=
  write_table target_columns (written_rows (DictReader input)).

End CsvTransformerBuiltin.

(* ================================================================== *)
(** * [csv_transformer.py] *)
(* ================================================================== *)

Module CsvTransformer.
Import Py Csv.

(** ** The part of pandas the script uses

    A frame is its columns in order, each a series of cells; a cell is a
    string or the missing value [NaN].  [read_csv] turns the default NA
    markers into [NaN].  Columns are read as text: the conversion of a column
    whose cells all look like numbers, and the way such numbers are printed
    back, are outside this model. *)

Inductive cell : Type :=
| NaN
| Str (s : string).

Definition Series : Type := list cell.
Definition DataFrame : Type := list (string * Series).

Definition na_values : list string :=
  [ ""; "#N/A"; "#N/A N/A"; "#NA"; "-1.#IND"; "-1.#QNAN"; "-NaN"; "-nan";
    "1.#IND"; "1.#QNAN"; "<NA>"; "N/A"; "NA"; "NULL"; "NaN"; "None"; "n/a";
    "nan"; "null" ].

Definition parse_cell (s : string) : cell :=
  if existsb (String.eqb s) na_values then NaN else Str s.

Definition blank_char (c : ascii) : bool :=
  Ascii.eqb c " " || Ascii.eqb c "009".

(** A line of spaces and tabs only: one cell, not empty, all blanks. *)
Definition whitespace_line (r : list string) : bool :=
  match r with
  | [c] => truthy c && forallb blank_char (list_ascii_of_string c)
  | _ => false
  end.

(** [pd.read_csv(f)]: blank lines and lines of blanks only are skipped
    ([skip_blank_lines]), a short row is padded with missing values. *)
Definition read_csv (f : File) : result DataFrame :=
  match f with
  | [] => Raise (ValueError "No columns to parse from file")
  | names :: recs =>
      let recs' :=
        filter (fun r => negb (is_blank r || whitespace_line r)) recs in
      Ok (map (fun nj =>
                 (fst nj, map (fun r => parse_cell (nth (snd nj) r "")) recs'))
              (combine names (seq 0 (length names))))
  end.

(** [col in df.columns]. *)
Definition has_column (df : DataFrame) (col : string) : bool :=
  existsb (fun c => String.eqb (fst c) col) df.

(** [df[col]]: the first column of that name, [KeyError] without one. *)
Definition column (df : DataFrame) (col : string) : result Series :=
  match find (fun c => String.eqb (fst c) col) df with
  | Some c => Ok (snd c)
  | None => Raise (KeyError col)
  end.

Definition notna (c : cell) : bool :=
  match c with
  | NaN => false
  | Str _ => true
  end.

(** Elementwise [c != s]; the missing value differs from every string. *)
Definition cell_ne (c : cell) (s : string) : bool :=
  match c with
  | NaN => true
  | Str s' => negb (String.eqb s' s)
  end.

(** [series[mask]]. *)
Fixpoint select {A : Type} (mask : list bool) (l : list A) : list A :=
  match mask, l with
  | m :: mask', x :: l' => if m then x :: select mask' l' else select mask' l'
  | _, _ => []
  end.

Definition nrows (df : DataFrame) : nat :=
  match df with
  | [] => O
  | c :: _ => length (snd c)
  end.

(** [df[col] = series], replacing the column in place or adding it last. *)
Definition set_column (df : DataFrame) (col : string) (s : Series) : DataFrame :=
  dict_set df col s.

Definition fillna (s : string) (df : DataFrame) : DataFrame :=
  map (fun c =>
         (fst c, map (fun x => match x with NaN => Str s | Str _ => x end) (snd c)))
      df.

Definition cell_text (c : cell) : string :=
  match c with
  | NaN => ""
  | Str s => s
  end.

(** [df.to_csv(index=False)]: the header, then the rows. *)
Definition to_csv (df : DataFrame) : File :=
  map fst df ::
  map (fun i => map (fun c => cell_text (nth i (snd c) NaN)) df)
      (seq 0 (nrows df)).

(** ** The script *)

Definition convert_boolean_value (value : string) : string :=
  if String.eqb value "○" then "TRUE"
  else if String.eqb value "×" then "FALSE"
  else "FALSE".

(** [series.apply(convert_boolean_value)]: the missing value equals neither
    symbol and takes the last branch. *)
Definition apply_convert (s : Series) : Series :=
  map (fun c =>
         match c with
         | Str v => Str (convert_boolean_value v)
         | NaN => Str "FALSE"
         end) s.

Definition column_mapping : list (string * string) :=
  [ ("施設名", "facility_name"); ("都道府県", "prefecture");
    ("市区町村・番地", "address"); ("トイレ名", "toilet_name");
    ("設置フロア", "floor"); ("経度", "longitude"); ("緯度", "latitude");
    ("性別の分け", "gender"); ("戸の形式", "door_type");
    ("車椅子が出入りできる（出入口の有効幅員80cm以上）", "wheelchair_accessible");
    ("車椅子が転回できる（直径150cm以上の円が内接できる）", "wheelchair_turnaround");
    ("便座に背もたれがある", "seat_backrest"); ("便座に手すりがある", "seat_handrail");
    ("オストメイト用設備がある", "ostomy_equipment");
    ("オストメイト用設備が温水対応している", "ostomy_hot_water");
    ("大型ベッドを備えている", "large_bed");
    ("乳幼児用おむつ交換台等を備えている", "baby_changing");
    ("乳幼児用椅子を備えている", "baby_chair");
    ("月曜日", "monday"); ("火曜日", "tuesday"); ("水曜日", "wednesday");
    ("木曜日", "thursday"); ("金曜日", "friday"); ("土曜日", "saturday");
    ("日曜日", "sunday"); ("祝日", "holiday"); ("その他", "other");
    ("写真データ（トイレの入り口）", "photo_entrance");
    ("写真データ（トイレ内）", "photo_interior");
    ("写真データ（トイレ内（別角度））", "photo_interior2"); ("備考", "remarks") ].

Definition boolean_columns : list string :=
  [ "wheelchair_accessible"; "wheelchair_turnaround"; "seat_backrest";
    "seat_handrail"; "ostomy_equipment"; "ostomy_hot_water"; "large_bed";
    "baby_changing"; "baby_chair" ].

(** [df[df['施設名'].notna() & (df['施設名'] != '')]]. *)
Definition filter_named (df : DataFrame) : result DataFrame :=
  names <- column df "施設名" ;;
  let mask := map (fun c => notna c && cell_ne c "") names in
  Ok (map (fun c => (fst c, select mask (snd c))) df).

(** The loop over [column_mapping.items()]. *)
Definition map_columns (df : DataFrame) : DataFrame :=
  fold_left
    (fun target st =>
       set_column target (snd st)
         (match find (fun c => String.eqb (fst c) (fst st)) df with
          | Some c => snd c
          | None => repeat (Str "") (nrows df)
          end))
    column_mapping [].

(** The loop over [boolean_columns]. *)
Definition convert_columns (target : DataFrame) : DataFrame :=
  fold_left
    (fun t col =>
       match find (fun c => String.eqb (fst c) col) t with
       | Some c => set_column t col (apply_convert (snd c))
       | None => t
       end)
    boolean_columns target.

(** [pd.concat([empty_row, target_df], ignore_index=True)]. *)
Definition prepend_empty_row (target : DataFrame) : DataFrame :=
  map (fun c => (fst c, Str "" :: snd c)) target.

Definition transform_csv (input : File) : result File :=
  df <- read_csv input ;;
  df' <- filter_named df ;;
  Ok (to_csv (prepend_empty_row (fillna "" (convert_columns (map_columns df'))))).

End CsvTransformer.

(* ================================================================== *)
(** * Files and paths *)
(* ================================================================== *)

Module Os.
Import Py Csv.

(** The files the scripts read and write, by path.  The order of the entries
    stands for the arbitrary order of [os.listdir]. *)
Definition FS : Type := list (string * File).

(** [os.path.join(a, b)]. *)
Definition path_join (a b : string) : string :=
  if String.prefix "/" b then b
  else if negb (truthy a) || endswith a "/" then a ++ b
  else a ++ "/" ++ b.

Fixpoint read_file (fs : FS) (path : string) : option File :=
  match fs with
  | [] => None
  | (p, f) :: rest => if String.eqb p path then Some f else read_file rest path
  end.

(** The file at [path] after [open(path, 'w')] and the writes that build
    [f]: created, or replaced where it is. *)
Fixpoint write_file (fs : FS) (path : string) (f : File) : FS :=
  match fs with
  | [] => [(path, f)]
  | (p, g) :: rest =>
      if String.eqb p path then (p, f) :: rest
      else (p, g) :: write_file rest path f
  end.

(** [os.listdir(dir)]: the names of the files directly under [dir]. *)
Definition listdir (fs : FS) (dir : string) : list string :=
  flat_map
    (fun pf =>
       let p := fst pf in
       let d := (dir ++ "/")%string in
       if String.prefix d p then
         let name := drop (String.length d) p in
         if truthy name && negb (py_in "/" name) then [name] else []
       else [])
    fs.

End Os.

(* ================================================================== *)
(** * [csv_to_pin_format.py] *)
(* ================================================================== *)

Module CsvToPinFormat.
Import Py Csv.

Definition is_TRUE (v : option string) : bool :=
  match v with
  | Some s => String.eqb s "TRUE"
  | None => false
  end.

Definition days : list string :=
  [ "月曜日"; "火曜日"; "水曜日"; "木曜日"; "金曜日"; "土曜日"; "日曜日"; "祝日" ].

(** The loop over [days]: [hours] in the order of the days. *)
Fixpoint collect_hours (row : Row) (ds : list string) (hours : list string)
  : list string :=
  match ds with
  | [] => hours
  | day :: rest =>
      let hour := strip (get_default row day "") in
      collect_hours row rest
        (if truthy hour then hours ++ [(day ++ ": " ++ hour)%string] else hours)
  end.

Definition create_facility_note (row : Row) : string :=
  let features := [] in
  let features :=
    if is_TRUE (get row "車椅子が出入りできる（出入口の有効幅員80cm以上）")
    then features ++ ["車椅子対応"] else features in
  let features :=
    if is_TRUE (get row "オストメイト用設備がある")
    then features ++ ["オストメイト対応"] else features in
  let features :=
    if is_TRUE (get row "大型ベッドを備えている")
    then features ++ ["大型ベッド"] else features in
  let features :=
    if is_TRUE (get row "乳幼児用おむつ交換台等を備えている")
    then features ++ ["おむつ交換台"] else features in
  let features :=
    if is_TRUE (get row "乳幼児用椅子を備えている")
    then features ++ ["乳幼児用椅子"] else features in
  let note_parts := [] in
  let note_parts :=
    match features with
    | [] => note_parts
    | _ :: _ => note_parts ++ [("設備: " ++ join ", " features)%string]
    end in
  let door_type := strip (get_default row "戸の形式" "") in
  let note_parts :=
    if truthy door_type then note_parts ++ [("扉: " ++ door_type)%string]
    else note_parts in
  let hours := collect_hours row days [] in
  let note_parts :=
    match hours with
    | [] => note_parts
    | _ :: _ =>
        note_parts ++ [("営業時間: " ++ join ", " (firstn 3 hours))%string]
    end in
  let special_note := strip (get_default row "備考" "") in
  let note_parts :=
    if truthy special_note
    then note_parts ++ [("備考: " ++ special_note)%string]
    else note_parts in
  join " | " note_parts.

Definition pin_fieldnames : list string :=
  [ "name"; "address"; "floor"; "toilet_name"; "note"; "color"; "lng"; "lat" ].

Definition pin_data (row : Row) : Row :=
  [ ("name", strip (get_default row "施設名" ""));
    ("address",
     strip (strip (get_default row "都道府県" "") ++ " "
            ++ strip (get_default row "市区町村・番地" ""))%string);
    ("floor", strip (get_default row "設置フロア" ""));
    ("toilet_name", strip (get_default row "トイレ名" ""));
    ("note", create_facility_note row);
    ("color", "#00cc00");
    ("lng", strip (get_default row "経度" ""));
    ("lat", strip (get_default row "緯度" "")) ].

Definition transform_to_pin_format (input : File) : File * result unit :=
  write_table pin_fieldnames
    (map pin_data
       (filter (fun row => truthy (strip (get_default row "施設名" "")))
          (DictReader input))).

End CsvToPinFormat.

(* ================================================================== *)
(** * [split_csv_by_ward.py] *)
(* ================================================================== *)

Module SplitCsvByWard.
Import Py Csv Os.

Definition TOKYO_WARDS : list string :=
  [ "千代田区"; "中央区"; "港区"; "新宿区"; "文京区"; "台東区"; "墨田区"; "江東区";
    "品川区"; "目黒区"; "大田区"; "世田谷区"; "渋谷区"; "中野区"; "杉並区"; "豊島区";
    "北区"; "荒川区"; "板橋区"; "練馬区"; "足立区"; "葛飾区"; "江戸川区" ].

(** The loop [for ward in wards: if ward in address: return ward], with the
    value returned after the loop. *)
Fixpoint scan_wards (wards : list string) (address : string) : string :=
  match wards with
  | [] => "その他"
  | ward :: rest =>
      if py_in ward address then ward else scan_wards rest address
  end.

Definition extract_ward_from_address (address : string) : string :=
  scan_wards TOKYO_WARDS address.

(** The reading loop. *)
Fixpoint classify_rows (rows : list Row) (ward_data : list (string * list Row))
  : result (list (string * list Row)) :=
  match rows with
  | [] => Ok ward_data
  | row :: rest =>
      address <- item row "address" ;;
      classify_rows rest
        (group_append ward_data (extract_ward_from_address address) row)
  end.

(** The writing loop over [ward_data.items()]. *)
Fixpoint write_wards (headers : list string) (output_dir : string)
  (ward_data : list (string * list Row)) (fs : FS) : FS * result unit :=
  match ward_data with
  | [] => (fs, Ok tt)
  | (ward, rows) :: rest =>
      if String.eqb ward "その他" then write_wards headers output_dir rest fs
      else
        let output_file := path_join output_dir (ward ++ ".csv")%string in
        let (f, r) := write_table headers rows in
        let fs' := write_file fs output_file f in
        match r with
        | Ok _ => write_wards headers output_dir rest fs'
        | Raise e => (fs', Raise e)
        end
  end.

Definition split_csv_by_ward (input_file output_dir : string) (fs : FS)
  : FS * result unit :=
  match read_file fs input_file with
  | None => (fs, Raise (FileNotFoundError input_file))
  | Some input =>
      match classify_rows (DictReader input) [] with
      | Raise e => (fs, Raise e)
      | Ok ward_data =>
          match fieldnames input with
          | Some headers => write_wards headers output_dir ward_data fs
          | None => (fs, Ok tt)
          end
      end
  end.

Definition main (fs : FS) : FS * result unit :=
  match split_csv_by_ward "data/barrier_free_toilets.csv" "data/wards" fs with
  | (fs', Ok _) =>
      split_csv_by_ward "data/station_barrier_free_toilets.csv"
        "data/station_wards" fs'
  | (fs', Raise e) => (fs', Raise e)
  end.

End SplitCsvByWard.

(* ================================================================== *)
(** * [split_tama_data.py] *)
(* ================================================================== *)

Module SplitTamaData.
Import Py Csv Os.

Definition TAMA_CITIES : list string :=
  [ "八王子市"; "立川市"; "武蔵野市"; "三鷹市"; "青梅市"; "府中市"; "昭島市"; "調布市";
    "町田市"; "小金井市"; "小平市"; "日野市"; "東村山市"; "国分寺市"; "国立市";
    "福生市"; "狛江市"; "東大和市"; "清瀬市"; "東久留米市"; "武蔵村山市"; "多摩市";
    "稲城市"; "羽村市"; "あきる野市"; "西東京市" ].

Definition NISHI_TAMA_GUN : list string :=
  [ "瑞穂町"; "日の出町"; "檜原村"; "奥多摩町" ].

Definition ISLAND_AREAS : list string :=
  [ "大島町"; "利島村"; "新島村"; "神津島村"; "三宅村"; "御蔵島村";
    "八丈町"; "青ヶ島村"; "小笠原村" ].

(** The ward list written out in [extract_area_from_address]. *)
Definition WARDS_23 : list string :=
  [ "千代田区"; "中央区"; "港区"; "新宿区"; "文京区"; "台東区"; "墨田区"; "江東区";
    "品川区"; "目黒区"; "大田区"; "世田谷区"; "渋谷区"; "中野区"; "杉並区"; "豊島区";
    "北区"; "荒川区"; "板橋区"; "練馬区"; "足立区"; "葛飾区"; "江戸川区" ].

(** One loop [for name in names: if name in address: return (category, name)];
    [None] when the loop ends without returning. *)
Fixpoint scan_area (category : string) (names : list string) (address : string)
  : option (string * string) :=
  match names with
  | [] => None
  | name :: rest =>
      if py_in name address then Some (category, name)
      else scan_area category rest address
  end.

Definition extract_area_from_address (address : string) : string * string :=
  match scan_area "23ku" WARDS_23 address with
  | Some r => r
  | None =>
      match scan_area "tama_city" TAMA_CITIES address with
      | Some r => r
      | None =>
          match scan_area "nishi_tama" NISHI_TAMA_GUN address with
          | Some r => r
          | None =>
              match scan_area "island" ISLAND_AREAS address with
              | Some r => r
              | None => ("other", "その他")
              end
          end
      end
  end.

(** The reading loop of [analyze_tama_data]. *)
Fixpoint analyze_rows (rows : list Row) (area_data : list (string * list Row))
  : result (list (string * list Row)) :=
  match rows with
  | [] => Ok area_data
  | row :: rest =>
      address <- item row "address" ;;
      let (area_type, area_name) := extract_area_from_address address in
      analyze_rows rest
        (if negb (String.eqb area_type "23ku")
         then group_append area_data (area_type ++ ":" ++ area_name)%string row
         else area_data)
  end.

(** [area_data, headers] of [analyze_tama_data]; the printed statistics are
    left out. *)
Definition analyze_tama_data (input_file : string) (fs : FS)
  : result (list (string * list Row) * option (list string)) :=
  match read_file fs input_file with
  | None => Raise (FileNotFoundError input_file)
  | Some input =>
      area_data <- analyze_rows (DictReader input) [] ;;
      Ok (area_data, fieldnames input)
  end.

(** [key.split(":", 1)] unpacked into two names. *)
Fixpoint split_colon (key : string) : result (string * string) :=
  match key with
  | EmptyString => Raise (ValueError "not enough values to unpack (expected 2, got 1)")
  | String c rest =>
      if Ascii.eqb c ":" then Ok (EmptyString, rest)
      else
        match split_colon rest with
        | Ok (a, b) => Ok (String c a, b)
        | Raise e => Raise e
        end
  end.

(** [DictWriter(f, fieldnames=headers)] with header and rows; without field
    names [writeheader] fails on the file just created. *)
Definition write_csv (headers : option (list string)) (rows : list Row)
  : File * result unit :=
  match headers with
  | Some names => write_table names rows
  | None => ([], Raise (TypeError "'NoneType' object is not iterable"))
  end.

(** The writing loop of [split_tama_data]. *)
Fixpoint write_areas (headers : option (list string))
  (tama_dir nishi_tama_dir island_dir : string)
  (area_data : list (string * list Row)) (fs : FS) : FS * result unit :=
  match area_data with
  | [] => (fs, Ok tt)
  | (area_key, rows) :: rest =>
      match split_colon area_key with
      | Raise e => (fs, Raise e)
      | Ok (area_type, area_name) =>
          let file := (area_name ++ ".csv")%string in
          let target :=
            if String.eqb area_type "tama_city" then Some (path_join tama_dir file)
            else if String.eqb area_type "nishi_tama"
                 then Some (path_join nishi_tama_dir file)
            else if String.eqb area_type "island"
                 then Some (path_join island_dir file)
            else None in
          match target with
          | None =>
              write_areas headers tama_dir nishi_tama_dir island_dir rest fs
          | Some output_file =>
              let (f, r) := write_csv headers rows in
              let fs' := write_file fs output_file f in
              match r with
              | Ok _ =>
                  write_areas headers tama_dir nishi_tama_dir island_dir rest fs'
              | Raise e => (fs', Raise e)
              end
          end
      end
  end.

Definition split_tama_data (input_file base_output_dir : string) (fs : FS)
  : FS * result unit :=
  match analyze_tama_data input_file fs with
  | Raise e => (fs, Raise e)
  | Ok (area_data, headers) =>
      write_areas headers
        (path_join base_output_dir "tama_cities")
        (path_join base_output_dir "nishi_tama")
        (path_join base_output_dir "islands")
        area_data fs
  end.

Definition major_cities : list string :=
  [ "八王子市"; "立川市"; "武蔵野市"; "三鷹市"; "府中市"; "調布市"; "町田市"; "小金井市" ].

(** The body shared by the three reading loops: open one file, take its
    field names when [headers] is still [None], extend the data. *)
Definition read_into (f : File)
  (st : list Row * option (list string)) : list Row * option (list string) :=
  let (data, headers) := st in
  (data ++ DictReader f,
   match headers with
   | None => fieldnames f
   | Some _ => headers
   end).

(** The loop over [major_cities]. *)
Fixpoint read_major (fs : FS) (tama_dir : string) (cities : list string)
  (st : list Row * option (list string)) : list Row * option (list string) :=
  match cities with
  | [] => st
  | city :: rest =>
      let city_file := path_join tama_dir (city ++ ".csv")%string in
      match read_file fs city_file with
      | Some f => read_major fs tama_dir rest (read_into f st)
      | None => read_major fs tama_dir rest st
      end
  end.

(** The loops over [os.listdir(dir)]. *)
Fixpoint read_listed (fs : FS) (dir : string) (names : list string)
  (st : list Row * option (list string))
  : result (list Row * option (list string)) :=
  match names with
  | [] => Ok st
  | name :: rest =>
      if endswith name ".csv" then
        match read_file fs (path_join dir name) with
        | Some f => read_listed fs dir rest (read_into f st)
        | None => Raise (FileNotFoundError (path_join dir name))
        end
      else read_listed fs dir rest st
  end.

(** Truth value of [headers]: neither [None] nor the empty list. *)
Definition headers_truthy (headers : option (list string)) : bool :=
  match headers with
  | Some (_ :: _) => true
  | _ => false
  end.

(** [if data and headers:] followed by the writing of one integrated file. *)
Definition write_integrated (output_file : string) (data : list Row)
  (headers : option (list string)) (fs : FS) : FS * result unit :=
  match data with
  | [] => (fs, Ok tt)
  | _ :: _ =>
      if headers_truthy headers then
        let (f, r) := write_csv headers data in
        (write_file fs output_file f, r)
      else (fs, Ok tt)
  end.

Definition lightweight_path (base_output_dir name : string) : string :=
  path_join (path_join base_output_dir "lightweight") name.

Definition create_tama_integrated_files (base_output_dir : string) (fs : FS)
  : FS * result unit :=
  let tama_dir := path_join base_output_dir "tama_cities" in
  let nishi_tama_dir := path_join base_output_dir "nishi_tama" in
  let island_dir := path_join base_output_dir "islands" in
  let (integrated_tama_data, headers) :=
    read_major fs tama_dir major_cities ([], None) in
  match write_integrated (lightweight_path base_output_dir "tama_major_cities.csv")
          integrated_tama_data headers fs with
  | (fs1, Raise e) => (fs1, Raise e)
  | (fs1, Ok _) =>
      match read_listed fs1 island_dir (listdir fs1 island_dir) ([], headers) with
      | Raise e => (fs1, Raise e)
      | Ok (island_data, headers2) =>
          match write_integrated
                  (lightweight_path base_output_dir "islands_integrated.csv")
                  island_data headers2 fs1 with
          | (fs2, Raise e) => (fs2, Raise e)
          | (fs2, Ok _) =>
              match read_listed fs2 nishi_tama_dir (listdir fs2 nishi_tama_dir)
                      ([], headers2) with
              | Raise e => (fs2, Raise e)
              | Ok (nishi_tama_data, headers3) =>
                  write_integrated
                    (lightweight_path base_output_dir "nishi_tama_integrated.csv")
                    nishi_tama_data headers3 fs2
              end
          end
      end
  end.

Definition main (fs : FS) : FS * result unit :=
  match split_tama_data "data/barrier_free_toilets.csv" "data" fs with
  | (fs1, Raise e) => (fs1, Raise e)
  | (fs1, Ok _) =>
      match split_tama_data "data/station_barrier_free_toilets.csv" "data" fs1 with
      | (fs2, Raise e) => (fs2, Raise e)
      | (fs2, Ok _) => create_tama_integrated_files "data" fs2
      end
  end.

End SplitTamaData.

(* ================================================================== *)
(** * [create_lightweight_csv.py] *)
(* ================================================================== *)

Module CreateLightweightCsv.
Import Py Csv Os.

Definition YAMANOTE_INNER_WARDS : list string :=
  [ "千代田区"; "中央区"; "港区"; "新宿区"; "文京区"; "台東区"; "墨田区"; "江東区";
    "品川区"; "目黒区"; "渋谷区"; "豊島区" ].

(** [DictWriter(f, fieldnames=headers)] with header and rows; without field
    names [writeheader] fails on the file just created. *)
Definition write_csv (headers : option (list string)) (rows : list Row)
  : File * result unit :=
  match headers with
  | Some names => write_table names rows
  | None => ([], Raise (TypeError "'NoneType' object is not iterable"))
  end.

(** ** [create_lightweight_csv] *)

(** The inner loop over [target_wards], with [ward] as it is after the loop. *)
Fixpoint find_ward (target_wards : list string) (row : Row)
  : result (option string) :=
  match target_wards with
  | [] => Ok None
  | target_ward :: rest =>
      address <- item row "address" ;;
      if py_in target_ward address then Ok (Some target_ward)
      else find_ward rest row
  end.

(** [if ward:]. *)
Definition ward_truthy (ward : option string) : bool :=
  match ward with
  | Some w => truthy w
  | None => false
  end.

Fixpoint extract_rows (target_wards : list string) (rows : list Row)
  (extracted_data : list Row) : result (list Row) :=
  match rows with
  | [] => Ok extracted_data
  | row :: rest =>
      ward <- find_ward target_wards row ;;
      extract_rows target_wards rest
        (if ward_truthy ward then extracted_data ++ [row] else extracted_data)
  end.

Definition create_lightweight_csv (input_file output_file : string)
  (target_wards : list string) (fs : FS) : FS * result nat :=
  match read_file fs input_file with
  | None => (fs, Raise (FileNotFoundError input_file))
  | Some input =>
      match extract_rows target_wards (DictReader input) [] with
      | Raise e => (fs, Raise e)
      | Ok extracted_data =>
          let (f, r) := write_csv (fieldnames input) extracted_data in
          (write_file fs output_file f,
           match r with
           | Ok _ => Ok (length extracted_data)
           | Raise e => Raise e
           end)
      end
  end.

(** ** [create_priority_csv] *)

(** [any(keyword in name for keyword in keywords)]. *)
Definition any_in (keywords : list string) (name : string) : bool :=
  existsb (fun keyword => py_in keyword name) keywords.

(** The loop over [YAMANOTE_INNER_WARDS]: [+50] at the first ward found in
    the address, then [break]. *)
Fixpoint add_ward_score (wards : list string) (row : Row) (priority_score : Z)
  : result Z :=
  match wards with
  | [] => Ok priority_score
  | ward :: rest =>
      address <- item row "address" ;;
      if py_in ward address then Ok (priority_score + 50)%Z
      else add_ward_score rest row priority_score
  end.

Definition priority_score (row : Row) : result Z :=
  let priority_score := 0%Z in
  name <- item row "name" ;;
  let priority_score :=
    if py_in "駅" name || py_in "Station" name
    then (priority_score + 100)%Z else priority_score in
  priority_score <- add_ward_score YAMANOTE_INNER_WARDS row priority_score ;;
  let priority_score :=
    if any_in ["庁舎"; "図書館"; "病院"; "公園"; "文化"] name
    then (priority_score + 30)%Z else priority_score in
  let priority_score :=
    if any_in ["東京"; "新宿"; "渋谷"; "池袋"; "上野"; "品川"] name
    then (priority_score + 20)%Z else priority_score in
  Ok priority_score.

(** The reading loop: [priority_data] as a list of [(score, row)]. *)
Fixpoint score_rows (rows : list Row) (priority_data : list (Z * Row))
  : result (list (Z * Row)) :=
  match rows with
  | [] => Ok priority_data
  | row :: rest =>
      score <- priority_score row ;;
      score_rows rest
        (if (score >? 0)%Z then priority_data ++ [(score, row)]
         else priority_data)
  end.

(** [list.sort(key=lambda x: x[0], reverse=True)].  The sort of the language
    is stable, also with [reverse=True]: it is the one permutation of the
    list that is ordered by decreasing key and keeps elements of equal key in
    their order.  It is computed here by insertion from the right. *)
Fixpoint insert_desc (x : Z * Row) (l : list (Z * Row)) : list (Z * Row) :=
  match l with
  | [] => [x]
  | y :: l' =>
      if (fst y <=? fst x)%Z then x :: y :: l' else y :: insert_desc x l'
  end.

Fixpoint sort_desc (l : list (Z * Row)) : list (Z * Row) :=
  match l with
  | [] => []
  | x :: l' => insert_desc x (sort_desc l')
  end.

(** [[row for score, row in priority_data[:max_items]]] after the sort. *)
Definition select_rows (priority_data : list (Z * Row)) (max_items : Z)
  : list Row :=
  map snd (slice_to (sort_desc priority_data) max_items).

Definition create_priority_csv (input_file output_file : string)
  (max_items : Z) (fs : FS) : FS * result nat :=
  match read_file fs input_file with
  | None => (fs, Raise (FileNotFoundError input_file))
  | Some input =>
      match score_rows (DictReader input) [] with
      | Raise e => (fs, Raise e)
      | Ok priority_data =>
          let selected_data := select_rows priority_data max_items in
          let (f, r) := write_csv (fieldnames input) selected_data in
          (write_file fs output_file f,
           match r with
           | Ok _ => Ok (length selected_data)
           | Raise e => Raise e
           end)
      end
  end.

(** ** The merge of [main] *)

Definition tolerance : float := 0.0001%float.

(** The condition of the duplicate check, left to right: the longitudes are
    read only when the latitudes are closer than the tolerance. *)
Definition close (existing_row row : Row) : result bool :=
  elat <- item existing_row "lat" ;;
  elat <- py_float elat ;;
  rlat <- item row "lat" ;;
  rlat <- py_float rlat ;;
  if PrimFloat.ltb (PrimFloat.abs (elat - rlat)) tolerance then
    elng <- item existing_row "lng" ;;
    elng <- py_float elng ;;
    rlng <- item row "lng" ;;
    rlng <- py_float rlng ;;
    Ok (PrimFloat.ltb (PrimFloat.abs (elng - rlng)) tolerance)
  else Ok false.

(** The loop over [target_list] with its [break]: [is_duplicate] after it. *)
Fixpoint is_duplicate (target_list : list Row) (row : Row) : result bool :=
  match target_list with
  | [] => Ok false
  | existing_row :: rest =>
      c <- close existing_row row ;;
      if c then Ok true else is_duplicate rest row
  end.

(** The loop over the rows of one file. *)
Fixpoint merge_rows (target_list : list Row) (rows : list Row)
  : result (list Row) :=
  match rows with
  | [] => Ok target_list
  | row :: rest =>
      d <- is_duplicate target_list row ;;
      merge_rows (if d then target_list else target_list ++ [row]) rest
  end.

(** The loop over the four files: the first and third go to
    [integrated_public], the second and fourth to [integrated_station]. *)
Fixpoint merge_files (fs : FS) (files : list (string * bool))
  (integrated_public integrated_station : list Row)
  : result (list Row * list Row) :=
  match files with
  | [] => Ok (integrated_public, integrated_station)
  | (file_path, to_public) :: rest =>
      match read_file fs file_path with
      | None => Raise (FileNotFoundError file_path)
      | Some f =>
          if to_public then
            p <- merge_rows integrated_public (DictReader f) ;;
            merge_files fs rest p integrated_station
          else
            s <- merge_rows integrated_station (DictReader f) ;;
            merge_files fs rest integrated_public s
      end
  end.

Definition merge_inputs : list (string * bool) :=
  [ ("data/lightweight/yamanote_inner_public.csv", true);
    ("data/lightweight/yamanote_inner_station.csv", false);
    ("data/lightweight/priority_public.csv", true);
    ("data/lightweight/priority_station.csv", false) ].

(** One [with open(path, 'w')] block of the output: the file is created
    empty, and written only [if integrated:]. *)
Definition write_integrated (path : string) (integrated : list Row) (fs : FS)
  : FS * result unit :=
  match integrated with
  | [] => (write_file fs path [], Ok tt)
  | first :: _ =>
      let (f, r) := write_table (keys first) integrated in
      (write_file fs path f, r)
  end.

Definition integrated_public_path : string :=
  "data/lightweight/integrated_public.csv".
Definition integrated_station_path : string :=
  "data/lightweight/integrated_station.csv".

(** The output stage of [main]. *)
Definition write_outputs (integrated_public integrated_station : list Row)
  (fs : FS) : FS * result unit :=
  match write_integrated integrated_public_path integrated_public fs with
  | (fs1, Raise e) => (fs1, Raise e)
  | (fs1, Ok _) =>
      write_integrated integrated_station_path integrated_station fs1
  end.

(** Part 3 of [main]: merge, then output. *)
Definition integrate (fs : FS) : FS * result unit :=
  match merge_files fs merge_inputs [] [] with
  | Raise e => (fs, Raise e)
  | Ok (integrated_public, integrated_station) =>
      write_outputs integrated_public integrated_station fs
  end.

Definition main (fs : FS) : FS * result unit :=
  match create_lightweight_csv "data/barrier_free_toilets.csv"
          "data/lightweight/yamanote_inner_public.csv" YAMANOTE_INNER_WARDS fs with
  | (fs1, Raise e) => (fs1, Raise e)
  | (fs1, Ok _) =>
  match create_lightweight_csv "data/station_barrier_free_toilets.csv"
          "data/lightweight/yamanote_inner_station.csv" YAMANOTE_INNER_WARDS fs1 with
  | (fs2, Raise e) => (fs2, Raise e)
  | (fs2, Ok _) =>
  match create_priority_csv "data/barrier_free_toilets.csv"
          "data/lightweight/priority_public.csv" 1000 fs2 with
  | (fs3, Raise e) => (fs3, Raise e)
  | (fs3, Ok _) =>
  match create_priority_csv "data/station_barrier_free_toilets.csv"
          "data/lightweight/priority_station.csv" 500 fs3 with
  | (fs4, Raise e) => (fs4, Raise e)
  | (fs4, Ok _) => integrate fs4
  end end end end.

End CreateLightweightCsv.

(* ================================================================== *)
(** * Specification-side definitions *)
(* ================================================================== *)

Module Spec.
Import Py Csv Os.

(** Writing a list of files in order, each with the outcome of building it,
    and stopping after the first one whose writing fails. *)
Fixpoint write_all (files : list (string * (File * result unit))) (fs : FS)
  : FS * result unit :=
  match files with
  | [] => (fs, Ok tt)
  | (path, (f, r)) :: rest =>
      let fs' := write_file fs path f in
      match r with
      | Ok _ => write_all rest fs'
      | Raise e => (fs', Raise e)
      end
  end.

(** The address of a row is classified as [key] by [classify]. *)
Definition classified {K : Type} (classify : string -> K) (key : K) (row : Row)
  : Prop :=
  exists address, get row "address" = Some address /\ classify address = key.

(** The files the ward splitter writes for the groups [ward_data]. *)
Definition ward_files (headers : list string) (output_dir : string)
  (ward_data : list (string * list Row)) : list (string * (File * result unit)) :=
  map (fun g => (path_join output_dir (fst g ++ ".csv")%string,
                 write_table headers (snd g)))
      (filter (fun g => negb (String.eqb (fst g) "その他")) ward_data).

(** The files the region splitter writes for the groups [area_data], by the
    category that starts the key of each group. *)
Definition area_files (headers : option (list string))
  (tama_dir nishi_tama_dir island_dir : string)
  (area_data : list (string * list Row)) : list (string * (File * result unit)) :=
  flat_map
    (fun g =>
       let key := fst g in
       let file n := (drop n key ++ ".csv")%string in
       let out := SplitTamaData.write_csv headers (snd g) in
       if String.prefix "tama_city:" key then [(path_join tama_dir (file 10), out)]
       else if String.prefix "nishi_tama:" key
            then [(path_join nishi_tama_dir (file 11), out)]
       else if String.prefix "island:" key then [(path_join island_dir (file 7), out)]
       else [])
    area_data.

(** The files [create_tama_integrated_files] opens in its first loop. *)
Definition major_files (fs : FS) (tama_dir : string) : list File :=
  flat_map
    (fun city =>
       match read_file fs (path_join tama_dir (city ++ ".csv")%string) with
       | Some f => [f]
       | None => []
       end)
    SplitTamaData.major_cities.

(** The files it opens in a loop over [os.listdir(dir)]. *)
Definition listed_files (fs : FS) (dir : string) : list File :=
  flat_map
    (fun name =>
       match read_file fs (path_join dir name) with
       | Some f => [f]
       | None => []
       end)
    (filter (fun name => endswith name ".csv") (listdir fs dir)).

(** The rows of several files, one file after the other. *)
Definition rows_of (files : list File) : list Row := flat_map DictReader files.

(** The field names of the first file that has a header row. *)
Definition first_fieldnames (files : list File) : option (list string) :=
  hd_error
    (flat_map (fun f => match fieldnames f with Some h => [h] | None => [] end)
       files).

(** The integrated file written for the rows of [files], if any. *)
Definition integrated (path : string) (files : list File)
  (headers : option (list string)) : list (string * (File * result unit)) :=
  match rows_of files with
  | [] => []
  | _ :: _ =>
      if SplitTamaData.headers_truthy headers
      then [(path, SplitTamaData.write_csv headers (rows_of files))]
      else []
  end.

(** A header row followed by one row of cells per dict, in order. *)
Definition table (headers : list string) (rows : list Row) : File :=
  headers :: map (fun row => map (fun n => get_default row n "") headers) rows.

(** [headers] after reading more files: kept once set. *)
Definition or_else (h h' : option (list string)) : option (list string) :=
  match h with
  | Some _ => h
  | None => h'
  end.

(** The directory [dir] reads the same in [fs'] as in [fs]. *)
Definition same_dir (dir : string) (fs fs' : FS) : Prop :=
  listdir fs' dir = listdir fs dir
  /\ forall name, read_file fs' (dir ++ "/" ++ name) = read_file fs (dir ++ "/" ++ name).

(** Every key of the row is one of the field names. *)
Definition fields_known (names : list string) (row : Row) : Prop :=
  forallb (fun k => existsb (String.eqb k) names) (keys row) = true.

End Spec.

(** ** Groups of the region splitter *)

Module SplitterSpec.
Import Py Csv Os SplitTamaData Spec.

(** Keys of [area_data]: a category other than the wards', a colon, a name. *)
Definition area_key (key : string) : Prop :=
  exists category name,
    key = (category ++ ":" ++ name)%string /\
    In category ["tama_city"; "nishi_tama"; "island"; "other"].

Definition area_group (g : string * list Row) : Prop :=
  area_key (fst g) /\
  Forall (fun row =>
            exists category name,
              fst g = (category ++ ":" ++ name)%string /\
              classified extract_area_from_address (category, name) row)
         (snd g).

End SplitterSpec.

(** ** Scores and their order *)

Module PrioritySpec.
Import Py Csv Os CreateLightweightCsv.

(** Decreasing order of score. *)
Definition by_score_desc (a b : Z * Row) : Prop := (fst b <= fst a)%Z.

(** The entries of one score, in the order of the list. *)
Definition of_score (score : Z) (l : list (Z * Row)) : list (Z * Row) :=
  filter (fun x => (fst x =? score)%Z) l.

(** The score as the sum of the four rules. *)
Definition rule_sum (name address : string) : Z :=
  (if any_in ["駅"; "Station"] name then 100 else 0)
  + (if any_in YAMANOTE_INNER_WARDS address then 50 else 0)
  + (if any_in ["庁舎"; "図書館"; "病院"; "公園"; "文化"] name then 30 else 0)
  + (if any_in ["東京"; "新宿"; "渋谷"; "池袋"; "上野"; "品川"] name then 20 else 0).

(** The qualifying rows with their scores, in input order. *)
Definition qualifying (rows : list Row) : list (Z * Row) :=
  flat_map
    (fun row =>
       match priority_score row with
       | Ok score => if (score >? 0)%Z then [(score, row)] else []
       | Raise _ => []
       end)
    rows.

End PrioritySpec.

(** ** The merge and its outputs *)

Module MergeSpec.
Import Py Csv Os CreateLightweightCsv Spec.

(** The parsed latitude and longitude of a row, when both fields are there
    and both are float literals. *)
Definition coords (row : Row) : option (float * float) :=
  match get row "lat", get row "lng" with
  | Some lat, Some lng =>
      match parse_float lat, parse_float lng with
      | Some x, Some y => Some (x, y)
      | _, _ => None
      end
  | _, _ => None
  end.

Definition has_coords (row : Row) : bool :=
  match coords row with
  | Some _ => true
  | None => false
  end.

(** [abs(a - b) < 0.0001] on binary64 numbers. *)
Definition within (a b : float) : bool :=
  PrimFloat.ltb (PrimFloat.abs (a - b)) tolerance.

(** Both coordinates of [row] are within the tolerance of those of
    [existing_row]. *)
Definition near (existing_row row : Row) : bool :=
  match coords existing_row, coords row with
  | Some (elat, elng), Some (rlat, rlng) => within elat rlat && within elng rlng
  | _, _ => false
  end.

(** The merge as the specification words it: a candidate is dropped when a
    row of the accumulating list is near it, and appended otherwise. *)
Definition dedup_step (acc : list Row) (row : Row) : list Row :=
  if existsb (fun existing_row => near existing_row row) acc then acc
  else acc ++ [row].

Definition dedup (acc rows : list Row) : list Row := fold_left dedup_step rows acc.

Definition float_error (s : string) : exn :=
  ValueError ("could not convert string to float: " ++ repr s).

(** What one [with open(path, 'w')] block of the output leaves in the file: nothing
    for an empty list, otherwise the keys of the first row as header and
    then every row. *)
Definition integrated_content (integrated : list Row) : File :=
  match integrated with
  | [] => []
  | first :: _ => table (keys first) integrated
  end.

(** Every row has only keys of the first row: the writer accepts them all. *)
Definition uniform (integrated : list Row) : Prop :=
  match integrated with
  | [] => True
  | first :: _ => Forall (fields_known (keys first)) integrated
  end.

(** The four files that parts 1 and 2 of [main] write. *)
Definition intermediate : list string :=
  [ "data/lightweight/yamanote_inner_public.csv";
    "data/lightweight/yamanote_inner_station.csv";
    "data/lightweight/priority_public.csv";
    "data/lightweight/priority_station.csv" ].

End MergeSpec.

(** ** The note of a pin *)

Module NoteSpec.
Import Py Csv Os CsvToPinFormat.

(** The five feature columns with their labels, in the order of the code. *)
Definition feature_labels : list (string * string) :=
  [ ("車椅子が出入りできる（出入口の有効幅員80cm以上）", "車椅子対応");
    ("オストメイト用設備がある", "オストメイト対応");
    ("大型ベッドを備えている", "大型ベッド");
    ("乳幼児用おむつ交換台等を備えている", "おむつ交換台");
    ("乳幼児用椅子を備えている", "乳幼児用椅子") ].

Definition features_of (row : Row) : list string :=
  map snd (filter (fun cl => is_TRUE (get row (fst cl))) feature_labels).

(** A section: nothing without data, otherwise the prefix and the data. *)
Definition section (prefix data : string) : list string :=
  if truthy data then [(prefix ++ data)%string] else [].

(** The note as the specification words it, the values taken as they are. *)
Definition spec_note (row : Row) : string :=
  let hours :=
    flat_map
      (fun day =>
         let hour := get_default row day "" in
         if truthy hour then [(day ++ ": " ++ hour)%string] else [])
      days in
  join " | "
    (section "設備: " (join ", " (features_of row))
     ++ section "扉: " (get_default row "戸の形式" "")
     ++ section "営業時間: " (join ", " (firstn 3 hours))
     ++ section "備考: " (get_default row "備考" "")).

(** The entries of the days that have hours, the hours trimmed. *)
Definition hours_of (row : Row) : list string :=
  flat_map
    (fun day =>
       let hour := strip (get_default row day "") in
       if truthy hour then [(day ++ ": " ++ hour)%string] else [])
    days.

(** The sections of the note with every value trimmed first. *)
Definition note_sections (row : Row) : list string :=
  section "設備: " (join ", " (features_of row))
  ++ section "扉: " (strip (get_default row "戸の形式" ""))
  ++ section "営業時間: " (join ", " (firstn 3 (hours_of row)))
  ++ section "備考: " (strip (get_default row "備考" "")).

End NoteSpec.

(** ** The outputs of the two transformers *)

Module TransformerSpec.
Import Py Csv Os CsvTransformer.















End TransformerSpec.

(** ** Concrete cases *)

(** Rows and files used as concrete cases. *)
Module Examples.
Import Py Csv Os CreateLightweightCsv.

Definition row_a : Row :=
  [("name", "A"); ("address", "東京都千代田区"); ("lat", "35.68123"); ("lng", "139.76712")].
Definition row_same : Row :=
  [("name", "B"); ("address", "東京都千代田区"); ("lat", "35.68123"); ("lng", "139.76712")].
Definition row_far : Row :=
  [("name", "C"); ("address", "東京都千代田区"); ("lat", "35.68134"); ("lng", "139.76712")].

Definition header : list string := ["name"; "address"; "lat"; "lng"].

(** An input whose only public row, a park outside the inner wards, has a
    latitude that is no number. *)
Definition bad_lat : list string := ["中央公園"; "東京都八王子市"; "abc"; "139.33"].

Definition fs_bad_lat : FS :=
  [ ("data/barrier_free_toilets.csv", [header; bad_lat]);
    ("data/station_barrier_free_toilets.csv", [header]) ].

(** An input whose second public row has a longitude that is no number and
    a latitude away from the first row's. *)
Definition good : list string := ["八王子駅"; "東京都八王子市"; "35.6556"; "139.3389"].
Definition bad_lng : list string := ["中央公園"; "東京都立川市"; "35.6980"; "east"].

Definition fs_bad_lng : FS :=
  [ ("data/barrier_free_toilets.csv", [header; good; bad_lng]);
    ("data/station_barrier_free_toilets.csv", [header]) ].

End Examples.

(** Inputs on which the two transformers are compared. *)
Module TransformerExamples.
Import Py Csv Os.



End TransformerExamples.

(* ================================================================== *)
(** * Definitions for the outputs of the scripts *)
(* ================================================================== *)

Module Layout.
Import Py Csv Os.

(** Every record of the file is a blank line or has one cell per field name. *)
Definition rectangular (names : list string) (recs : list (list string)) : Prop :=
  Forall (fun r => r = [] \/ length r = length names) recs.

(** No record of the file is shorter than its header.  For a shorter record
    [DictReader] fills the fields without a cell with [None], on which
    [strip] fails; a longer record keeps its first cells under the field
    names. *)
Definition complete (f : File) : Prop :=
  match f with
  | [] => True
  | names :: recs => Forall (fun r => r = [] \/ length names <= length r) recs
  end.

(** Every record of the file is a blank line or has the width of the header. *)
Definition rectangular_file (f : File) : Prop :=
  match f with
  | [] => True
  | names :: recs => rectangular names recs
  end.

(** The directory exists: the tree holds a file below it. *)
Definition has_dir (fs : FS) (dir : string) : Prop :=
  exists path f, In (path, f) fs /\ String.prefix (dir ++ "/") path = true.

(** A path as the scripts build it: relative, without an empty, [.] or [..]
    component, and with no directory named like a CSV file in it. *)
Definition plain_path (path : string) : bool :=
  negb (String.prefix "/" path) && negb (py_in "//" path)
  && negb (py_in "./" path) && negb (py_in ".csv/" path).

(** A tree as a file system holds it, with files that the readers take as
    they are: no two entries share a path, every path is plain, and every
    file is rectangular. *)
Definition plain_tree (fs : FS) : Prop :=
  NoDup (map fst fs)
  /\ Forall (fun pf => plain_path (fst pf) = true) fs
  /\ Forall (fun pf => rectangular_file (snd pf)) fs.

(** The rows filed under [key] in the groups of a [defaultdict(list)]. *)
Definition group (groups : list (string * list Row)) (key : string) : list Row :=
  match find (fun g => String.eqb (fst g) key) groups with
  | Some g => snd g
  | None => []
  end.

(** The groups a reading loop builds for the rows, each filed under [key row]. *)
Definition groups_by (key : Row -> string) (rows : list Row)
  (groups : list (string * list Row)) : list (string * list Row) :=
  fold_left (fun g row => group_append g (key row) row) rows groups.

(** What [os.path.join(a, b)] puts before a relative [b]. *)
Definition dir_prefix (a : string) : string :=
  if negb (truthy a) || endswith a "/" then a else (a ++ "/")%string.

(** The files written for the groups, each under the path [target] gives
    for its key, if any. *)
Definition group_files (target : string -> option string)
  (mk : list Row -> File * result unit) (groups : list (string * list Row))
  : list (string * (File * result unit)) :=
  flat_map
    (fun g =>
       match target (fst g) with
       | Some path => [(path, mk (snd g))]
       | None => []
       end)
    groups.

End Layout.

Module SplitterOutputs.
Import Py Csv Os.

Definition address_of (row : Row) : string := get_default row "address" "".

Definition ward_of (row : Row) : string :=
  SplitCsvByWard.extract_ward_from_address (address_of row).

(** The rows of one ward, in input order. *)
Definition rows_in_ward (ward : string) (rows : list Row) : list Row :=
  filter (fun row => String.eqb (ward_of row) ward) rows.

Definition area_of (row : Row) : string * string :=
  SplitTamaData.extract_area_from_address (address_of row).

(** The key of [area_data] under which the region splitter files a row. *)
Definition area_key_of (row : Row) : string :=
  (fst (area_of row) ++ ":" ++ snd (area_of row))%string.

(** The rows of one area, in input order. *)
Definition rows_in_area (category name : string) (rows : list Row) : list Row :=
  filter (fun row =>
            String.eqb (fst (area_of row)) category
            && String.eqb (snd (area_of row)) name)
         rows.

(** The categories the region splitter writes, each with its directory and
    the names it can hold. *)
Definition area_dirs : list (string * string * list string) :=
  [ ("tama_city", "tama_cities", SplitTamaData.TAMA_CITIES);
    ("nishi_tama", "nishi_tama", SplitTamaData.NISHI_TAMA_GUN);
    ("island", "islands", SplitTamaData.ISLAND_AREAS) ].

(** The path of the file of one area under [base_output_dir]. *)
Definition area_path (base_output_dir dir name : string) : string :=
  path_join (path_join base_output_dir dir) (name ++ ".csv")%string.

(** Where the ward splitter writes the group of a key: nowhere for the
    sentinel. *)
Definition ward_target (output_dir ward : string) : option string :=
  if String.eqb ward "その他" then None
  else Some (path_join output_dir (ward ++ ".csv")%string).

(** The keys of [ward_data]. *)
Definition ward_key (k : string) : Prop :=
  In k SplitCsvByWard.TOKYO_WARDS \/ k = "その他".

(** Where the region splitter writes the group of a key, by the category
    that starts the key. *)
Definition area_target (base_output_dir key : string) : option string :=
  if String.prefix "tama_city:" key
  then Some (area_path base_output_dir "tama_cities" (drop 10 key))
  else if String.prefix "nishi_tama:" key
  then Some (area_path base_output_dir "nishi_tama" (drop 11 key))
  else if String.prefix "island:" key
  then Some (area_path base_output_dir "islands" (drop 7 key))
  else None.

(** The keys of [area_data]: a written category with one of its names, or
    the key of the addresses that match no name. *)
Definition listed_area (key : string) : Prop :=
  key = "other:その他"
  \/ exists category dir areas name,
       In (category, dir, areas) area_dirs /\ In name areas
       /\ key = (category ++ ":" ++ name)%string.

(** The rows the region splitter files: those outside the 23 wards. *)
Definition outside_wards (rows : list Row) : list Row :=
  filter (fun row => negb (String.eqb (fst (area_of row)) "23ku")) rows.

End SplitterOutputs.


(** Inputs of the splitters used as concrete cases: a public facility and a
    station of the same city. *)
Module SplitterExamples.
Import Py Csv Os.

Definition header : list string := ["name"; "address"; "lat"; "lng"].

Definition city_hall : list string :=
  ["八王子市役所"; "東京都八王子市元本郷町三丁目"; "35.6664"; "139.3160"].
Definition station : list string :=
  ["八王子駅"; "東京都八王子市旭町"; "35.6556"; "139.3389"].
Definition ward_office : list string :=
  ["港区役所"; "東京都港区芝公園一丁目"; "35.6581"; "139.7516"].

Definition fs_city : FS :=
  [ ("data/barrier_free_toilets.csv", [header; city_hall; ward_office]);
    ("data/station_barrier_free_toilets.csv", [header; station]) ].

Definition island_port : list string :=
  ["元町港"; "東京都大島町元町"; "34.7500"; "139.3550"].
Definition town_hall : list string :=
  ["瑞穂町役場"; "東京都西多摩郡瑞穂町"; "35.7720"; "139.3540"].

(** A tree after the split into areas, with a file in the output directory. *)
Definition fs_areas : FS :=
  [ ("data/tama_cities/八王子市.csv", [header; city_hall; station]);
    ("data/islands/大島町.csv", [header; island_port]);
    ("data/nishi_tama/瑞穂町.csv", [header; town_hall]);
    ("data/lightweight/integrated_public.csv", [header; ward_office]) ].

End SplitterExamples.

(** ** The rows the ward filter keeps *)

Module LightweightSpec.
Import Py Csv Os CreateLightweightCsv.

(** [ward] after the loop over [target_wards] is the first target ward found
    in the address, and the row is kept [if ward:]. *)
Definition in_target_ward (target_wards : list string) (row : Row) : bool :=
  match find (fun w => py_in w (get_default row "address" "")) target_wards with
  | Some ward => truthy ward
  | None => false
  end.

(** A row of the file: the header zipped with a record of as many cells. *)
Definition row_of (names : list string) (row : Row) : Prop :=
  exists cells,
    cells <> [] /\ length cells = length names /\ row = combine names cells.

End LightweightSpec.

(** Rows of the merge used as concrete cases: coordinates that [float]
    accepts without their being numbers of the map. *)
Module MergeExamples.
Import Py Csv Os.

Definition row_nan : Row := [("name", "A"); ("lat", "nan"); ("lng", "139.7")].
Definition row_inf : Row := [("name", "B"); ("lat", "35.6"); ("lng", "-Infinity")].

End MergeExamples.

(** ** What [main] of the lightweight script leaves behind *)

Module MainSpec.
Import Py Csv Os CreateLightweightCsv LightweightSpec PrioritySpec MergeSpec.

(** An input every step of [main] can read: distinct column names with
    [name] and [address] among them, records of the width of the header, and
    coordinates that [float] accepts in every row. *)
Definition readable (names : list string) (recs : list (list string)) : Prop :=
  NoDup names /\ Layout.rectangular names recs
  /\ In "name" names /\ In "address" names
  /\ Forall (fun row => has_coords row = true) (DictReader (names :: recs)).

(** The rows of the inner wards, in input order. *)
Definition inner (rows : list Row) : list Row :=
  filter (in_target_ward YAMANOTE_INNER_WARDS) rows.

(** The [max_items] rows of highest score. *)
Definition top (max_items : Z) (rows : list Row) : list Row :=
  select_rows (qualifying rows) max_items.

(** The inner rows and then the top rows, without duplicates. *)
Definition merged (max_items : Z) (rows : list Row) : list Row :=
  dedup [] (inner rows ++ top max_items rows).

(** The six files in the order [main] writes them. *)
Definition outputs (public_names : list string) (public_rows : list Row)
  (station_names : list string) (station_rows : list Row)
  : list (string * File) :=
  [ ("data/lightweight/yamanote_inner_public.csv",
     Spec.table public_names (inner public_rows));
    ("data/lightweight/yamanote_inner_station.csv",
     Spec.table station_names (inner station_rows));
    ("data/lightweight/priority_public.csv",
     Spec.table public_names (top 1000 public_rows));
    ("data/lightweight/priority_station.csv",
     Spec.table station_names (top 500 station_rows));
    ("data/lightweight/integrated_public.csv",
     integrated_content (merged 1000 public_rows));
    ("data/lightweight/integrated_station.csv",
     integrated_content (merged 500 station_rows)) ].

(** Writing files one after the other. *)
Definition write_files (files : list (string * File)) (fs : FS) : FS :=
  fold_left (fun fs pf => write_file fs (fst pf) (snd pf)) files fs.

End MainSpec.

(** ** White space at the ends of a string *)

Module StripSpec.
Import Py.

(** The length in bytes of a white-space character that starts the string,
    and of one that ends it; [0] without one. *)
Definition leading (s : string) : nat := ws_len whitespace s.
Definition trailing (s : string) : nat :=
  ws_len (map string_rev whitespace) (string_rev s).

End StripSpec.

(** ** Rows and columns of the transformers' outputs *)

Module TransformerOutputs.
Import Py Csv Os.

(** The row has a facility name that is not blank. *)
Definition named (row : Row) : bool :=
  truthy (strip (get_default row "施設名" "")).

(** The columns the pin formatter reads as text. *)
Definition pin_text_columns : list string :=
  [ "施設名"; "都道府県"; "市区町村・番地"; "設置フロア"; "トイレ名"; "経度"; "緯度";
    "戸の形式"; "月曜日"; "火曜日"; "水曜日"; "木曜日"; "金曜日"; "土曜日"; "日曜日";
    "祝日"; "備考" ].

(** The line the builtin transformer writes for a row that has been through
    it once already. *)
Definition second_pass (row : Row) : list string :=
  map (fun col =>
         if existsb (String.eqb col) CsvTransformerBuiltin.boolean_columns
         then "FALSE" else get_default row col "")
      CsvTransformerBuiltin.target_columns.

End TransformerOutputs.

(* ================================================================== *)
(** * The transformers and the pin formatter run on files *)
(* ================================================================== *)

Module Sys.

(** How a run of [main] ends: it returns, and the process ends with status
    0, or [sys.exit(code)] ends it. *)
Inductive outcome : Type :=
| Returned
| Exited (code : Z).

End Sys.

(** [csv_transformer_builtin.py] on files. *)
Module CsvTransformerBuiltinScript.
Import Py Csv Os Sys.

Definition input_file : string := "3_koukyoshisetsu_barieer_free_wc - シート1.csv".
Definition output_file : string := "barieer_free_wc_ver3_transformed.csv".

(** [transform_csv(input_file, output_file)] for an output path other than
    the input path: the input is opened first and the output created next;
    [FileNotFoundError] and every other exception end in [sys.exit(1)]. *)
Definition transform_csv (input_file output_file : string) (fs : FS)
  : FS * outcome :=
  match read_file fs input_file with
  | None => (fs, Exited 1)
  | Some input =>
      let (f, r) := CsvTransformerBuiltin.transform_csv input in
      (write_file fs output_file f,
       match r with
       | Ok _ => Returned
       | Raise _ => Exited 1
       end)
  end.

(** [main]: [os.path.exists] is asked first. *)
Definition main (fs : FS) : FS * outcome :=
  match read_file fs input_file with
  | None => (fs, Exited 1)
  | Some _ => transform_csv input_file output_file fs
  end.

End CsvTransformerBuiltinScript.

(** [csv_transformer.py] on files. *)
Module CsvTransformerScript.
Import Py Csv Os Sys.

Definition input_file : string := "3_koukyoshisetsu_barieer_free_wc - シート1.csv".
Definition output_file : string := "barieer_free_wc_ver3_transformed.csv".

(** [transform_csv(input_file, output_file)]: the frame is read and
    transformed before [to_csv] opens the output. *)
Definition transform_csv (input_file output_file : string) (fs : FS)
  : FS * outcome :=
  match read_file fs input_file with
  | None => (fs, Exited 1)
  | Some input =>
      match CsvTransformer.transform_csv input with
      | Ok f => (write_file fs output_file f, Returned)
      | Raise _ => (fs, Exited 1)
      end
  end.

Definition main (fs : FS) : FS * outcome :=
  match read_file fs input_file with
  | None => (fs, Exited 1)
  | Some _ => transform_csv input_file output_file fs
  end.

End CsvTransformerScript.

(** [csv_to_pin_format.py] on files. *)
Module CsvToPinFormatScript.
Import Py Csv Os Sys.

Definition input_file : string := "barieer_free_wc_ver3_transformed.csv".
Definition output_file : string := "barrier_free_toilets_pin_format.csv".

(** [transform_to_pin_format(input_file, output_file)] for an output path
    other than the input path; every exception ends in [sys.exit(1)]. *)
Definition transform_to_pin_format (input_file output_file : string) (fs : FS)
  : FS * outcome :=
  match read_file fs input_file with
  | None => (fs, Exited 1)
  | Some input =>
      let (f, r) := CsvToPinFormat.transform_to_pin_format input in
      (write_file fs output_file f,
       match r with
       | Ok _ => Returned
       | Raise _ => Exited 1
       end)
  end.

Definition main (fs : FS) : FS * outcome :=
  match read_file fs input_file with
  | None => (fs, Exited 1)
  | Some _ => transform_to_pin_format input_file output_file fs
  end.

End CsvToPinFormatScript.

(** A source file of the transformers used as a concrete case. *)
Module ScriptExamples.
Import Py Csv Os.

Definition source : File :=
  [ ["施設名"; "都道府県"; "市区町村・番地";
     "車椅子が出入りできる（出入口の有効幅員80cm以上）"];
    ["都庁"; "東京都"; "新宿区西新宿二丁目"; "○"];
    [""; ""; ""; ""] ].

Definition fs_source : FS := [(CsvTransformerScript.input_file, source)].

End ScriptExamples.

(** ** Rows on the map *)

Module Located.
Import Py Csv Os MergeSpec.

(** Both coordinates of the row parse to finite numbers. *)
Definition located (row : Row) : Prop :=
  exists lat lng,
    coords row = Some (lat, lng) /\ is_finite lat = true /\ is_finite lng = true.

(** A row of the list is within the tolerance of the row. *)
Definition covered (acc : list Row) (row : Row) : Prop :=
  exists kept, In kept acc /\ near kept row = true.

End Located.

(* ================================================================== *)
(** * Facts about the builtins *)
(* ================================================================== *)

Import Py Csv Os Spec.
Import SplitterSpec PrioritySpec MergeSpec NoteSpec TransformerSpec.

Lemma prefix_app_iff (p s : string) :
  String.prefix p s = true <-> exists rest, s = (p ++ rest)%string.
Proof.
  revert s. induction p as [|c p IH]; intros s; simpl.
  - split; [intros _; exists s; reflexivity | destruct s; reflexivity].
  - destruct s as [|d s].
    + split; [discriminate | intros [rest H]; discriminate].
    + simpl. destruct (ascii_dec c d) as [Heq|Hne].
      * subst d. rewrite IH. split; intros [rest H]; exists rest.
        -- now rewrite H.
        -- now inversion H.
      * split; [discriminate | intros [rest H]; inversion H; congruence].
Qed.

(** [sub in s] holds exactly when [sub] occurs in [s]. *)
Lemma py_in_iff (sub s : string) :
  py_in sub s = true <-> exists a b, s = (a ++ sub ++ b)%string.
Proof.
  induction s as [|c s IH]; cbn [py_in].
  - rewrite orb_false_r, prefix_app_iff. split.
    + intros [rest H]. exists "", rest. exact H.
    + intros [a [b H]]. destruct a; simpl in H; [now exists b | discriminate].
  - rewrite orb_true_iff, IH, prefix_app_iff. split.
    + intros [[rest H] | [a [b H]]].
      * exists "", rest. exact H.
      * exists (String c a), b. simpl. now rewrite H.
    + intros [a [b H]]. destruct a as [|d a]; simpl in H.
      * left. now exists b.
      * right. inversion H. now exists a, b.
Qed.

Lemma bind_Ok {A B : Type} (c : result A) (k : A -> result B) (b : B) :
  bind c k = Ok b -> exists a, c = Ok a /\ k a = Ok b.
Proof. destruct c as [a|e]; simpl; [eauto | discriminate]. Qed.

Lemma item_Ok (row : Row) (key v : string) :
  item row key = Ok v <-> get row key = Some v.
Proof.
  unfold item. destruct (get row key); split; intros H; inversion H; reflexivity.
Qed.

(** ** Groups of a [defaultdict(list)] *)

Lemma group_append_Forall (P : string -> Row -> Prop)
  (groups : list (string * list Row)) (key : string) (row : Row) :
  Forall (fun g => Forall (P (fst g)) (snd g)) groups ->
  P key row ->
  Forall (fun g => Forall (P (fst g)) (snd g)) (group_append groups key row).
Proof.
  intros Hg Hrow. induction Hg as [|[k rows] rest Hk Hrest IH]; simpl.
  - repeat constructor. exact Hrow.
  - destruct (String.eqb_spec k key) as [->|Hne]; constructor; simpl in *; auto.
    apply Forall_app. split; [exact Hk | now constructor].
Qed.

(* ================================================================== *)
(** * Ward and region classification *)
(* ================================================================== *)

Section FirstMatch.
Import SplitCsvByWard.

Variable address : string.

Lemma scan_wards_range (wards : list string) :
  In (scan_wards wards address) wards \/ scan_wards wards address = "その他".
Proof.
  induction wards as [|w ws IH]; simpl; [now right |].
  destruct (py_in w address); [now left; left |].
  destruct IH as [IH | IH]; [left; now right | now right].
Qed.

Lemma scan_wards_first (before after : list string) (ward : string) :
  py_in ward address = true ->
  (forall w, In w before -> py_in w address = false) ->
  scan_wards (before ++ ward :: after) address = ward.
Proof.
  intros Hin. induction before as [|w ws IH]; simpl; intros Hbefore.
  - now rewrite Hin.
  - rewrite (Hbefore w (or_introl eq_refl)). apply IH.
    intros w' Hw'. apply Hbefore. now right.
Qed.

Lemma scan_wards_none (wards : list string) :
  (forall w, In w wards -> py_in w address = false) ->
  scan_wards wards address = "その他".
Proof.
  induction wards as [|w ws IH]; simpl; intros Hnone; [reflexivity |].
  rewrite (Hnone w (or_introl eq_refl)). apply IH.
  intros w' Hw'. apply Hnone. now right.
Qed.

Lemma scan_wards_unique (wards : list string) (ward : string) :
  In ward wards ->
  py_in ward address = true ->
  (forall w, In w wards -> py_in w address = true -> w = ward) ->
  scan_wards wards address = ward.
Proof.
  induction wards as [|w ws IH]; simpl; [tauto |].
  intros Hin Hward Huniq.
  destruct (py_in w address) eqn:E.
  - apply Huniq; [now left | exact E].
  - destruct Hin as [-> | Hin]; [congruence |].
    apply IH; auto.
Qed.

End FirstMatch.

Section WardSplitter.
Import SplitCsvByWard Spec.

Lemma classify_rows_groups (rows : list Row) :
  forall acc ward_data,
    Forall (fun g => Forall (classified extract_ward_from_address (fst g)) (snd g))
      acc ->
    classify_rows rows acc = Ok ward_data ->
    Forall (fun g => Forall (classified extract_ward_from_address (fst g)) (snd g))
      ward_data.
Proof.
  induction rows as [|row rest IH]; simpl; intros acc ward_data Hacc H.
  - now inversion H; subst.
  - apply bind_Ok in H. destruct H as [address [Hitem H]].
    apply item_Ok in Hitem. apply (IH _ _ (group_append_Forall _ _ _ _ Hacc
      (ex_intro _ address (conj Hitem eq_refl))) H).
Qed.

Lemma classify_rows_total (rows : list Row) :
  forall acc,
    Forall (fun row => exists address, get row "address" = Some address) rows ->
    exists ward_data, classify_rows rows acc = Ok ward_data.
Proof.
  induction rows as [|row rest IH]; simpl; intros acc Hrows; [eauto |].
  inversion Hrows as [|? ? [address Haddr] Hrest]; subst.
  unfold item. rewrite Haddr. simpl. apply IH, Hrest.
Qed.

Lemma write_wards_write_all (headers : list string) (output_dir : string)
  (ward_data : list (string * list Row)) :
  forall fs,
    write_wards headers output_dir ward_data fs
    = write_all (ward_files headers output_dir ward_data) fs.
Proof.
  unfold ward_files.
  induction ward_data as [|[ward rows] rest IH]; intros fs; [reflexivity |].
  cbn [write_wards filter fst snd map].
  destruct (String.eqb ward "その他"); cbn [negb map write_all fst snd]; [apply IH |].
  destruct (write_table headers rows) as [f [u|e]]; [apply IH | reflexivity].
Qed.

End WardSplitter.

Section RegionSplitter.
Import SplitTamaData Spec.

Lemma scan_area_Some (category : string) (names : list string)
  (address : string) (r : string * string) :
  scan_area category names address = Some r ->
  fst r = category /\ In (snd r) names /\ py_in (snd r) address = true.
Proof.
  induction names as [|n ns IH]; simpl; [discriminate |].
  destruct (py_in n address) eqn:E.
  - intros H. inversion H; subst. simpl. auto.
  - intros H. destruct (IH H) as [H1 [H2 H3]]. auto.
Qed.


(** The five categories the region classifier can return. *)
Lemma extract_area_category (address : string) :
  In (fst (extract_area_from_address address))
     ["23ku"; "tama_city"; "nishi_tama"; "island"; "other"].
Proof.
  unfold extract_area_from_address.
  repeat match goal with
  | |- context [scan_area ?c ?l address] =>
      let E := fresh "E" in
      destruct (scan_area c l address) as [r|] eqn:E;
      [apply scan_area_Some in E; destruct E as [E _]; rewrite E; simpl; tauto |]
  end.
  simpl. tauto.
Qed.

Lemma group_append_keys (Q : string -> Prop) (groups : list (string * list Row))
  (key : string) (row : Row) :
  Forall (fun g => Q (fst g)) groups -> Q key ->
  Forall (fun g => Q (fst g)) (group_append groups key row).
Proof.
  intros Hg Hkey. induction Hg as [|[k rows] rest Hk Hrest IH]; simpl.
  - now repeat constructor.
  - destruct (String.eqb k key); constructor; auto.
Qed.

Lemma analyze_rows_groups (rows : list Row) :
  forall acc area_data,
    Forall area_group acc ->
    analyze_rows rows acc = Ok area_data ->
    Forall area_group area_data.
Proof.
  induction rows as [|row rest IH]; simpl; intros acc area_data Hacc H.
  - now inversion H; subst.
  - apply bind_Ok in H. destruct H as [address [Hitem H]].
    apply item_Ok in Hitem.
    destruct (extract_area_from_address address) as [area_type area_name] eqn:E.
    destruct (String.eqb_spec area_type "23ku") as [H23 | H23]; simpl in H.
    + apply (IH _ _ Hacc H).
    + refine (IH _ _ _ H). unfold area_group in *.
      apply Forall_and.
      * apply group_append_keys; [now apply Forall_and_inv in Hacc |].
        exists area_type, area_name. split; [reflexivity |].
        pose proof (extract_area_category address) as Hc. rewrite E in Hc.
        simpl in Hc |- *. intuition congruence.
      * apply (group_append_Forall
                 (fun key row => exists category name,
                      key = (category ++ ":" ++ name)%string /\
                      classified extract_area_from_address (category, name) row)).
        -- now apply Forall_and_inv in Hacc.
        -- exists area_type, area_name. split; [reflexivity |].
           exists address. now split.
Qed.

Lemma analyze_rows_total (rows : list Row) :
  forall acc,
    Forall (fun row => exists address, get row "address" = Some address) rows ->
    exists area_data, analyze_rows rows acc = Ok area_data.
Proof.
  induction rows as [|row rest IH]; simpl; intros acc Hrows; [eauto |].
  inversion Hrows as [|? ? [address Haddr] Hrest]; subst.
  unfold item. rewrite Haddr. simpl.
  destruct (extract_area_from_address address). apply IH, Hrest.
Qed.

Lemma write_areas_write_all (headers : option (list string))
  (tama_dir nishi_tama_dir island_dir : string)
  (area_data : list (string * list Row)) :
  Forall (fun g => area_key (fst g)) area_data ->
  forall fs,
    write_areas headers tama_dir nishi_tama_dir island_dir area_data fs
    = write_all (area_files headers tama_dir nishi_tama_dir island_dir area_data) fs.
Proof.
  unfold area_files.
  induction 1 as [|[key rows] rest Hkey Hrest IH]; intros fs; [reflexivity |].
  destruct Hkey as [category [name [Hk Hc]]]. simpl in Hk. subst key.
  simpl in Hc.
  cbn [write_areas flat_map fst snd].
  destruct Hc as [<- | [<- | [<- | [<- | []]]]];
    match goal with
    | |- context [split_colon ?k] =>
        let v := eval vm_compute in (split_colon k) in
        change (split_colon k) with v
    end;
    repeat match goal with
    | |- context [String.prefix ?a ?b] =>
        first
          [ replace (String.prefix a b) with true
              by (symmetry; apply prefix_app_iff; exists name; reflexivity)
          | replace (String.prefix a b) with false by reflexivity ]
    | |- context [String.eqb ?a ?b] =>
        let v := eval vm_compute in (String.eqb a b) in
        change (String.eqb a b) with v
    | |- context [drop ?n ?k] =>
        let v := eval vm_compute in (drop n k) in
        change (drop n k) with v
    end;
    cbv iota beta; cbn [app write_all];
    try (destruct (write_csv headers rows) as [f [u|e]]; [apply IH | reflexivity]).
  apply IH.
Qed.

End RegionSplitter.

Section SplitterOutputs.
Import SplitCsvByWard SplitTamaData Spec.

Lemma area_key_inj (c n c' n' : string) :
  In c ["tama_city"; "nishi_tama"; "island"; "other"] ->
  In c' ["23ku"; "tama_city"; "nishi_tama"; "island"; "other"] ->
  (c ++ ":" ++ n)%string = (c' ++ ":" ++ n')%string ->
  c = c' /\ n = n'.
Proof.
  simpl. intros Hc Hc' H.
  repeat match goal with
  | H : _ \/ _ |- _ => destruct H
  | H : False |- _ => destruct H
  end; subst; simpl in H; try discriminate; inversion H; auto.
Qed.

(** Every file the ward splitter writes belongs to a ward other than the
    sentinel and holds rows classified as that ward only. *)
Lemma ward_files_classified (headers : list string) (output_dir : string)
  (ward_data : list (string * list Row)) :
  Forall (fun g => Forall (classified extract_ward_from_address (fst g)) (snd g))
    ward_data ->
  Forall (fun file =>
            exists ward group,
              In (ward, group) ward_data /\ ward <> "その他" /\
              fst file = path_join output_dir (ward ++ ".csv") /\
              snd file = write_table headers group /\
              Forall (classified extract_ward_from_address ward) group)
         (ward_files headers output_dir ward_data).
Proof.
  unfold ward_files. intros H. apply Forall_forall. intros file Hfile.
  apply in_map_iff in Hfile. destruct Hfile as [[ward group] [<- Hg]].
  apply filter_In in Hg. destruct Hg as [Hin Hne]. simpl in *.
  exists ward, group. repeat split; auto.
  - intros ->. discriminate.
  - rewrite Forall_forall in H. apply (H _ Hin).
Qed.

(** Every file the region splitter writes belongs to a Tama city, a
    Nishitama town or an island and holds rows classified as that area only. *)
Lemma area_files_classified (headers : option (list string))
  (tama_dir nishi_tama_dir island_dir : string)
  (area_data : list (string * list Row)) :
  Forall area_group area_data ->
  Forall (fun file =>
            exists category name group,
              In ((category ++ ":" ++ name)%string, group) area_data /\
              In (category, fst file)
                 [ ("tama_city", path_join tama_dir (name ++ ".csv"));
                   ("nishi_tama", path_join nishi_tama_dir (name ++ ".csv"));
                   ("island", path_join island_dir (name ++ ".csv")) ] /\
              snd file = SplitTamaData.write_csv headers group /\
              Forall (classified extract_area_from_address (category, name)) group)
         (area_files headers tama_dir nishi_tama_dir island_dir area_data).
Proof.
  unfold area_files. intros H. apply Forall_forall. intros file Hfile.
  apply in_flat_map in Hfile. destruct Hfile as [[key group] [Hin Hfile]].
  rewrite Forall_forall in H. destruct (H _ Hin) as [Hkey Hrows].
  destruct Hkey as [category [name [Hk Hc]]]. simpl in Hk, Hrows, Hfile. subst key.
  assert (Hgroup : Forall (classified extract_area_from_address (category, name)) group).
  { apply Forall_forall. intros row Hrow. rewrite Forall_forall in Hrows.
    destruct (Hrows row Hrow) as [c' [n' [Hk' [address [Ha Hx]]]]].
    pose proof (extract_area_category address) as Hc'. rewrite Hx in Hc'.
    destruct (area_key_inj _ _ _ _ Hc Hc' Hk') as [-> ->].
    exists address. now split. }
  exists category, name, group.
  simpl in Hc.
  destruct Hc as [<- | [<- | [<- | [<- | []]]]]; simpl in Hfile;
    repeat match goal with
    | H : context [String.prefix ?a ?b] |- _ =>
        first
          [ replace (String.prefix a b) with true in H
              by (symmetry; apply prefix_app_iff; exists name; reflexivity)
          | replace (String.prefix a b) with false in H by reflexivity ]
    end;
    try destruct Hfile as [<- | []]; try destruct Hfile;
    simpl; repeat split; auto.
Qed.

End SplitterOutputs.

(** C5: the boolean-marker conversion of both schema transformers is a total
    function on strings that maps the marker "○" to "TRUE" and every other
    string to "FALSE"; on the inputs "○", "×", "" and "???" it yields "TRUE",
    "FALSE", "FALSE" and "FALSE". *)
Theorem convert_boolean_value_total (value : string) :
  (CsvTransformerBuiltin.convert_boolean_value value
   = if String.eqb value "○" then "TRUE" else "FALSE")
  /\ (CsvTransformer.convert_boolean_value value
      = if String.eqb value "○" then "TRUE" else "FALSE")
  /\ (value <> "○" ->
      CsvTransformerBuiltin.convert_boolean_value value = "FALSE"
      /\ CsvTransformer.convert_boolean_value value = "FALSE")
  /\ map CsvTransformerBuiltin.convert_boolean_value ["○"; "×"; ""; "???"]
     = ["TRUE"; "FALSE"; "FALSE"; "FALSE"]
  /\ map CsvTransformer.convert_boolean_value ["○"; "×"; ""; "???"]
     = ["TRUE"; "FALSE"; "FALSE"; "FALSE"].
Proof.
  unfold CsvTransformerBuiltin.convert_boolean_value,
    CsvTransformer.convert_boolean_value.
  repeat split; try reflexivity;
    destruct (String.eqb_spec value "○"); try reflexivity; try contradiction;
    destruct (String.eqb value "×"); reflexivity.
Qed.

(** C4: ward classification is a total function from addresses into the 23
    ward names and the sentinel: it returns the first ward of the list that
    occurs in the address, whatever other ward names the address holds, the
    sentinel when none occurs, and the ward itself when exactly one occurs.
    The splitters write no file for the sentinel group: each file written by
    the ward splitter holds only rows classified as a ward, each file written
    by the region splitter only rows classified as a Tama city, a Nishitama
    town or an island. *)
Theorem ward_classification_first_match :
  (forall address,
      let ward := SplitCsvByWard.extract_ward_from_address address in
      (In ward SplitCsvByWard.TOKYO_WARDS \/ ward = "その他")
      /\ (forall before w after,
             SplitCsvByWard.TOKYO_WARDS = before ++ w :: after ->
             py_in w address = true ->
             (forall w', In w' before -> py_in w' address = false) ->
             ward = w)
      /\ ((forall w, In w SplitCsvByWard.TOKYO_WARDS -> py_in w address = false) ->
          ward = "その他")
      /\ (forall w,
             In w SplitCsvByWard.TOKYO_WARDS ->
             py_in w address = true ->
             (forall w', In w' SplitCsvByWard.TOKYO_WARDS ->
                         py_in w' address = true -> w' = w) ->
             ward = w))
  /\ length SplitCsvByWard.TOKYO_WARDS = 23
  /\ NoDup SplitCsvByWard.TOKYO_WARDS
  /\ (existsb (String.eqb "その他") SplitCsvByWard.TOKYO_WARDS = false
      /\ SplitCsvByWard.extract_ward_from_address "東京都港区千代田区境" = "千代田区"
      /\ SplitCsvByWard.extract_ward_from_address "東京都八王子市" = "その他")
  /\ (forall rows,
         (Forall (fun row => exists address, get row "address" = Some address) rows ->
          exists ward_data, SplitCsvByWard.classify_rows rows [] = Ok ward_data)
         /\ forall ward_data headers output_dir fs,
             SplitCsvByWard.classify_rows rows [] = Ok ward_data ->
             SplitCsvByWard.write_wards headers output_dir ward_data fs
             = Spec.write_all (Spec.ward_files headers output_dir ward_data) fs
             /\ Forall (fun file =>
                          exists ward group,
                            In (ward, group) ward_data /\ ward <> "その他" /\
                            fst file = path_join output_dir (ward ++ ".csv") /\
                            snd file = write_table headers group /\
                            Forall (Spec.classified
                                      SplitCsvByWard.extract_ward_from_address ward)
                                   group)
                       (Spec.ward_files headers output_dir ward_data))
  /\ (forall rows,
         (Forall (fun row => exists address, get row "address" = Some address) rows ->
          exists area_data, SplitTamaData.analyze_rows rows [] = Ok area_data)
         /\ forall area_data headers tama_dir nishi_tama_dir island_dir fs,
             SplitTamaData.analyze_rows rows [] = Ok area_data ->
             SplitTamaData.write_areas headers tama_dir nishi_tama_dir island_dir
               area_data fs
             = Spec.write_all
                 (Spec.area_files headers tama_dir nishi_tama_dir island_dir
                    area_data) fs
             /\ Forall (fun file =>
                          exists category name group,
                            In ((category ++ ":" ++ name)%string, group) area_data /\
                            In (category, fst file)
                               [ ("tama_city", path_join tama_dir (name ++ ".csv"));
                                 ("nishi_tama",
                                  path_join nishi_tama_dir (name ++ ".csv"));
                                 ("island", path_join island_dir (name ++ ".csv")) ] /\
                            snd file = SplitTamaData.write_csv headers group /\
                            Forall (Spec.classified
                                      SplitTamaData.extract_area_from_address
                                      (category, name))
                                   group)
                       (Spec.area_files headers tama_dir nishi_tama_dir island_dir
                          area_data)).
Proof.
  split; [| split; [| split; [| split; [| split]]]].
  - intros address ward. subst ward.
    unfold SplitCsvByWard.extract_ward_from_address. repeat split.
    + apply scan_wards_range.
    + intros before w after -> Hin Hbefore. now apply scan_wards_first.
    + apply scan_wards_none.
    + intros w. apply scan_wards_unique.
  - reflexivity.
  - repeat (constructor; [simpl; intuition discriminate |]). constructor.
  - repeat split; reflexivity.
  - intros rows. split; [apply classify_rows_total |].
    intros ward_data headers output_dir fs H. split.
    + apply write_wards_write_all.
    + apply ward_files_classified.
      apply (classify_rows_groups rows [] ward_data (Forall_nil _) H).
  - intros rows. split; [apply analyze_rows_total |].
    intros area_data headers tama_dir nishi_tama_dir island_dir fs H.
    pose proof (analyze_rows_groups rows [] area_data (Forall_nil _) H) as Hg.
    split.
    + apply write_areas_write_all. apply Forall_and_inv in Hg. apply Hg.
    + now apply area_files_classified.
Qed.

(* ================================================================== *)
(** * Files: reading back what was not written *)
(* ================================================================== *)

Section FileSystem.

Lemma read_write_other (fs : FS) (p q : string) (f : File) :
  p <> q -> read_file (write_file fs p f) q = read_file fs q.
Proof.
  intros Hne. induction fs as [|[p' g] rest IH]; simpl.
  - destruct (String.eqb_spec p q); [contradiction | reflexivity].
  - destruct (String.eqb_spec p' p) as [-> | Hp]; simpl.
    + destruct (String.eqb_spec p q); [contradiction | reflexivity].
    + destruct (String.eqb p' q); [reflexivity | exact IH].
Qed.

Lemma read_write_same (fs : FS) (p : string) (f : File) :
  read_file (write_file fs p f) p = Some f.
Proof.
  induction fs as [|[p' g] rest IH]; simpl.
  - now rewrite String.eqb_refl.
  - destruct (String.eqb_spec p' p) as [-> | Hp]; simpl.
    + now rewrite String.eqb_refl.
    + destruct (String.eqb_spec p' p); [contradiction | exact IH].
Qed.

(** Writing a file outside a directory leaves its listing as it was. *)
Lemma listdir_write_outside (fs : FS) (dir p : string) (f : File) :
  String.prefix (dir ++ "/") p = false ->
  listdir (write_file fs p f) dir = listdir fs dir.
Proof.
  intros Hout. unfold listdir.
  induction fs as [|[p' g] rest IH]; simpl.
  - now rewrite Hout.
  - destruct (String.eqb_spec p' p) as [-> | Hp]; simpl.
    + reflexivity.
    + now rewrite IH.
Qed.

Lemma py_in_false_prefix (sub s : string) :
  py_in sub s = false -> String.prefix sub s = false.
Proof.
  destruct s; cbn [py_in]; intros H; apply orb_false_iff in H; apply H.
Qed.

(** A listed name is the rest of the path of a file under the directory. *)
Lemma listdir_In (fs : FS) (dir name : string) :
  In name (listdir fs dir) ->
  py_in "/" name = false
  /\ exists f, read_file fs (dir ++ "/" ++ name) = Some f.
Proof.
  unfold listdir. induction fs as [|[p g] rest IH]; simpl; [tauto |].
  rewrite in_app_iff. intros [H | H].
  - destruct (String.prefix (dir ++ "/") p) eqn:Hpre; [| destruct H].
    destruct (truthy (drop (String.length (dir ++ "/")) p)
              && negb (py_in "/" (drop (String.length (dir ++ "/")) p))) eqn:E;
      [| destruct H].
    destruct H as [<- | []].
    apply andb_true_iff in E. destruct E as [_ E]. apply negb_true_iff in E.
    split; [exact E |].
    apply prefix_app_iff in Hpre. destruct Hpre as [rest' Hp].
    assert (Hd : drop (String.length (dir ++ "/")) p = rest').
    { rewrite Hp. clear. induction (dir ++ "/")%string; simpl; auto. }
    assert (Hp' : (dir ++ "/" ++ rest')%string = p).
    { rewrite Hp. clear. induction dir; simpl; [reflexivity | now f_equal]. }
    simpl in Hp'. rewrite Hd. exists g. cbn [read_file].
    now rewrite Hp', String.eqb_refl.
  - destruct (IH H) as [Hs [f Hf]]. split; [exact Hs |].
    simpl. destruct (String.eqb p _); eauto.
Qed.

End FileSystem.

(* ================================================================== *)
(** * The integrated files of the region splitter *)
(* ================================================================== *)

Section TamaIntegrated.
Import SplitTamaData Spec.

Lemma first_fieldnames_cons (f : File) (files : list File) :
  first_fieldnames (f :: files) = or_else (fieldnames f) (first_fieldnames files).
Proof.
  unfold first_fieldnames. simpl. now destruct (fieldnames f).
Qed.

Lemma first_fieldnames_app (files files' : list File) :
  first_fieldnames (files ++ files')
  = or_else (first_fieldnames files) (first_fieldnames files').
Proof.
  induction files as [|f files IH]; [reflexivity |].
  rewrite <- app_comm_cons, !first_fieldnames_cons, IH.
  now destruct (fieldnames f).
Qed.

Lemma read_into_fold (files : list File) :
  forall data h,
    fold_left (fun st f => read_into f st) files (data, h)
    = (data ++ rows_of files, or_else h (first_fieldnames files)).
Proof.
  induction files as [|f files IH]; intros data h; simpl.
  - rewrite app_nil_r. now destruct h.
  - rewrite IH, first_fieldnames_cons, <- app_assoc.
    destruct h; [reflexivity |]. now destruct (fieldnames f).
Qed.

Lemma read_major_fold (fs : FS) (tama_dir : string) (cities : list string) :
  forall st,
    read_major fs tama_dir cities st
    = fold_left (fun st f => read_into f st)
        (flat_map
           (fun city =>
              match read_file fs (path_join tama_dir (city ++ ".csv")%string) with
              | Some f => [f]
              | None => []
              end) cities) st.
Proof.
  induction cities as [|city rest IH]; intros st; [reflexivity |].
  cbn [read_major flat_map].
  destruct (read_file fs (path_join tama_dir (city ++ ".csv"))); simpl; apply IH.
Qed.

Lemma read_listed_fold (fs : FS) (dir : string) (names : list string) :
  (forall name, In name names -> read_file fs (path_join dir name) <> None) ->
  forall st,
    read_listed fs dir names st
    = Ok (fold_left (fun st f => read_into f st)
            (flat_map
               (fun name =>
                  match read_file fs (path_join dir name) with
                  | Some f => [f]
                  | None => []
                  end)
               (filter (fun name => endswith name ".csv") names)) st).
Proof.
  induction names as [|name rest IH]; intros Hex st; [reflexivity |].
  cbn [read_listed filter].
  destruct (endswith name ".csv").
  - cbn [flat_map]. destruct (read_file fs (path_join dir name)) eqn:E.
    + simpl. apply IH. intros n Hn. apply Hex. now right.
    + exfalso. apply (Hex name); [now left | exact E].
  - apply IH. intros n Hn. apply Hex. now right.
Qed.

Lemma path_join_plain (dir name : string) :
  negb (truthy dir) || endswith dir "/" = false ->
  py_in "/" name = false ->
  path_join dir name = (dir ++ "/" ++ name)%string.
Proof.
  intros Hdir Hname. unfold path_join.
  now rewrite (py_in_false_prefix _ _ Hname), Hdir.
Qed.

Lemma write_all_app (a b : list (string * (File * result unit))) :
  forall fs,
    write_all (a ++ b) fs
    = match write_all a fs with
      | (fs', Ok _) => write_all b fs'
      | (fs', Raise e) => (fs', Raise e)
      end.
Proof.
  induction a as [|[p [f r]] a IH]; intros fs; [reflexivity |].
  simpl. destruct r; [apply IH | reflexivity].
Qed.

Lemma write_integrated_write_all (path : string) (files : list File)
  (headers : option (list string)) (fs : FS) :
  write_integrated path (rows_of files) headers fs
  = write_all (integrated path files headers) fs.
Proof.
  unfold write_integrated, integrated.
  destruct (rows_of files) as [|row rows]; [reflexivity |].
  destruct (headers_truthy headers); [| reflexivity].
  cbn [write_all].
  destruct (write_csv headers (row :: rows)) as [f [[]|e]]; reflexivity.
Qed.

Lemma same_dir_refl (dir : string) (fs : FS) : same_dir dir fs fs.
Proof. now split. Qed.

Lemma same_dir_trans (dir : string) (fs fs' fs'' : FS) :
  same_dir dir fs fs' -> same_dir dir fs' fs'' -> same_dir dir fs fs''.
Proof.
  intros [H1 H2] [H3 H4]. split; [congruence |].
  intros name. now rewrite H4, H2.
Qed.

Lemma same_dir_integrated (dir path : string) (files : list File)
  (headers : option (list string)) (fs : FS) :
  String.prefix (dir ++ "/") path = false ->
  same_dir dir fs (fst (write_all (integrated path files headers) fs)).
Proof.
  intros Hout. unfold integrated.
  destruct (rows_of files); [apply same_dir_refl |].
  destruct (headers_truthy headers); [| apply same_dir_refl].
  cbn [write_all]. destruct (write_csv headers (r :: l)) as [f [u|e]]; cbn [fst];
    (split; [now apply listdir_write_outside |]);
    intros name; apply read_write_other; intros ->;
    (assert (String.prefix (dir ++ "/") (dir ++ "/" ++ name) = true) as Ht
       by (apply prefix_app_iff; exists name; clear;
           induction dir; simpl; [reflexivity | now f_equal]));
    congruence.
Qed.

Lemma listed_files_same (dir : string) (fs fs' : FS) :
  negb (truthy dir) || endswith dir "/" = false ->
  same_dir dir fs fs' ->
  listed_files fs' dir = listed_files fs dir
  /\ forall name, In name (listdir fs' dir) ->
                  read_file fs' (path_join dir name) <> None.
Proof.
  intros Hdir [Hl Hr]. unfold listed_files. rewrite Hl. split.
  - assert (H : forall names,
               (forall n, In n names -> py_in "/" n = false) ->
               flat_map (fun name => match read_file fs' (path_join dir name) with
                                     | Some f => [f] | None => [] end)
                        (filter (fun name => endswith name ".csv") names)
               = flat_map (fun name => match read_file fs (path_join dir name) with
                                       | Some f => [f] | None => [] end)
                          (filter (fun name => endswith name ".csv") names)).
    { induction names as [|n ns IH]; intros Hs; [reflexivity |].
      cbn [filter]. destruct (endswith n ".csv").
      - cbn [flat_map]. rewrite IH by (intros; apply Hs; now right).
        rewrite (path_join_plain dir n Hdir (Hs n (or_introl eq_refl))).
        now rewrite Hr.
      - apply IH. intros; apply Hs; now right. }
    apply H. intros n Hn. apply (listdir_In fs dir n Hn).
  - intros name Hn.
    destruct (listdir_In fs dir name Hn) as [Hs [f Hf]].
    rewrite (path_join_plain dir name Hdir Hs), Hr, Hf. discriminate.
Qed.

Lemma read_listed_spec (dir : string) (fs fs' : FS) (data : list Row)
  (h : option (list string)) :
  negb (truthy dir) || endswith dir "/" = false ->
  same_dir dir fs fs' ->
  read_listed fs' dir (listdir fs' dir) (data, h)
  = Ok (data ++ rows_of (listed_files fs dir),
        or_else h (first_fieldnames (listed_files fs dir))).
Proof.
  intros Hdir Hsame.
  destruct (listed_files_same dir fs fs' Hdir Hsame) as [Hfiles Hex].
  rewrite (read_listed_fold fs' dir _ Hex).
  fold (listed_files fs' dir). now rewrite Hfiles, read_into_fold.
Qed.

Lemma create_tama_integrated_files_spec (fs : FS) :
  let F1 := major_files fs "data/tama_cities" in
  let F2 := listed_files fs "data/islands" in
  let F3 := listed_files fs "data/nishi_tama" in
  create_tama_integrated_files "data" fs
  = write_all
      (integrated "data/lightweight/tama_major_cities.csv" F1 (first_fieldnames F1)
       ++ integrated "data/lightweight/islands_integrated.csv" F2
            (first_fieldnames (F1 ++ F2))
       ++ integrated "data/lightweight/nishi_tama_integrated.csv" F3
            (first_fieldnames (F1 ++ F2 ++ F3)))
      fs.
Proof.
  intros F1 F2 F3. unfold create_tama_integrated_files.
  change (path_join "data" "tama_cities") with "data/tama_cities".
  change (path_join "data" "nishi_tama") with "data/nishi_tama".
  change (path_join "data" "islands") with "data/islands".
  change (lightweight_path "data" "tama_major_cities.csv")
    with "data/lightweight/tama_major_cities.csv".
  change (lightweight_path "data" "islands_integrated.csv")
    with "data/lightweight/islands_integrated.csv".
  change (lightweight_path "data" "nishi_tama_integrated.csv")
    with "data/lightweight/nishi_tama_integrated.csv".
  rewrite read_major_fold. fold (major_files fs "data/tama_cities"). fold F1.
  rewrite read_into_fold. cbn [app or_else].
  rewrite write_integrated_write_all, write_all_app.
  pose proof (same_dir_integrated "data/islands"
                "data/lightweight/tama_major_cities.csv" F1 (first_fieldnames F1)
                fs eq_refl) as S1.
  pose proof (same_dir_integrated "data/nishi_tama"
                "data/lightweight/tama_major_cities.csv" F1 (first_fieldnames F1)
                fs eq_refl) as N1.
  destruct (write_all (integrated "data/lightweight/tama_major_cities.csv" F1
                         (first_fieldnames F1)) fs) as [fs1 [u1|e1]];
    [| reflexivity].
  simpl in S1, N1.
  rewrite (read_listed_spec "data/islands" fs fs1 [] _ eq_refl S1).
  fold F2. cbn [app]. rewrite <- first_fieldnames_app.
  rewrite write_integrated_write_all, write_all_app.
  pose proof (same_dir_integrated "data/nishi_tama"
                "data/lightweight/islands_integrated.csv" F2
                (first_fieldnames (F1 ++ F2)) fs1 eq_refl) as N2.
  destruct (write_all (integrated "data/lightweight/islands_integrated.csv" F2
                         (first_fieldnames (F1 ++ F2))) fs1) as [fs2 [u2|e2]];
    [| reflexivity].
  simpl in N2.
  rewrite (read_listed_spec "data/nishi_tama" fs fs2 [] _ eq_refl
             (same_dir_trans _ _ _ _ N1 N2)).
  fold F3. cbn [app]. rewrite <- first_fieldnames_app, <- app_assoc.
  apply write_integrated_write_all.
Qed.

End TamaIntegrated.

(* ================================================================== *)
(** * Writers *)
(* ================================================================== *)

Section Writers.
Import Spec.

Lemma writerows_known (names : list string) (rows : list Row) :
  Forall (fields_known names) rows ->
  forall f,
    writerows names rows f
    = (f ++ map (fun row => map (fun n => get_default row n "") names) rows, Ok tt).
Proof.
  induction 1 as [|row rows Hrow Hrows IH]; intros f; simpl.
  - now rewrite app_nil_r.
  - unfold dict_to_list. unfold fields_known in Hrow. rewrite Hrow.
    rewrite IH, <- app_assoc. reflexivity.
Qed.

Lemma write_table_known (names : list string) (rows : list Row) :
  Forall (fields_known names) rows ->
  write_table names rows = (table names rows, Ok tt).
Proof.
  intros H. unfold write_table. now rewrite writerows_known.
Qed.


Lemma dict_set_keys (d : Row) (k v : string) (names : list string) :
  In k names -> incl (keys d) names -> incl (keys (dict_set d k v)) names.
Proof.
  intros Hk. induction d as [|[k' v'] d IH]; simpl; intros Hd.
  - intros x [<- | []]. exact Hk.
  - destruct (String.eqb k' k); simpl.
    + exact Hd.
    + intros x [<- | Hx].
      * apply Hd. now left.
      * apply IH; [| exact Hx]. intros y Hy. apply Hd. now right.
Qed.

(** The keys of a row read under a header are names of the header. *)
Lemma dict_zip_keys (names cells : list string) :
  incl (keys (dict_zip names cells)) names.
Proof.
  unfold dict_zip.
  assert (H : forall pairs d,
             (forall kv, In kv pairs -> In (fst kv) names) ->
             incl (keys d) names ->
             incl (keys (fold_left (fun d kv => dict_set d (fst kv) (snd kv)) pairs d))
                  names).
  { induction pairs as [|kv pairs IH]; intros d Hp Hd; simpl; [exact Hd |].
    apply IH.
    - intros kv' Hkv'. apply Hp. now right.
    - apply dict_set_keys; [apply Hp; now left | exact Hd]. }
  apply H.
  - intros [k v] Hkv. apply in_combine_l in Hkv. exact Hkv.
  - intros x [].
Qed.

Lemma incl_fields_known (names : list string) (row : Row) :
  incl (keys row) names -> fields_known names row.
Proof.
  intros H. unfold fields_known. apply forallb_forall. intros k Hk.
  apply existsb_exists. exists k. split; [apply H, Hk | apply String.eqb_refl].
Qed.

Lemma DictReader_fields_known (names : list string) (recs : list (list string)) :
  Forall (fields_known names) (DictReader (names :: recs)).
Proof.
  simpl. apply Forall_forall. intros row Hrow.
  apply in_map_iff in Hrow. destruct Hrow as [cells [<- _]].
  apply incl_fields_known, dict_zip_keys.
Qed.

End Writers.

Lemma find_none_iff {A : Type} (f : A -> bool) (l : list A) :
  find f l = None <-> forall x, In x l -> f x = false.
Proof.
  split; [intros H x Hx; apply (find_none f l H x Hx) |].
  induction l as [|a l IH]; simpl; intros H; [reflexivity |].
  rewrite (H a (or_introl eq_refl)). apply IH. intros x Hx. apply H. now right.
Qed.


(** The integration on a tree that has the three directories: one file for
    each of the three groups, each with the rows of its source files. *)
Example tama_integration_on_a_plain_tree :
  Layout.plain_tree SplitterExamples.fs_areas
  /\ Layout.has_dir SplitterExamples.fs_areas "data/islands"
  /\ Layout.has_dir SplitterExamples.fs_areas "data/nishi_tama"
  /\ Layout.has_dir SplitterExamples.fs_areas "data/lightweight"
  /\ snd (SplitTamaData.create_tama_integrated_files "data" SplitterExamples.fs_areas)
     = Ok tt
  /\ map (read_file
            (fst (SplitTamaData.create_tama_integrated_files "data"
                    SplitterExamples.fs_areas)))
       [ "data/lightweight/tama_major_cities.csv";
         "data/lightweight/islands_integrated.csv";
         "data/lightweight/nishi_tama_integrated.csv" ]
     = [ Some [SplitterExamples.header; SplitterExamples.city_hall;
               SplitterExamples.station];
         Some [SplitterExamples.header; SplitterExamples.island_port];
         Some [SplitterExamples.header; SplitterExamples.town_hall] ].
Proof.
  split; [| split; [| split; [| split; [| split]]]].
  - unfold Layout.plain_tree. split; [| split].
    + repeat (constructor; [simpl; intuition discriminate |]). constructor.
    + repeat (constructor; [reflexivity |]). constructor.
    + repeat (constructor;
              [repeat (constructor; [right; reflexivity |]); constructor |]).
      constructor.
  - eexists _, _. split; [right; left; reflexivity | reflexivity].
  - eexists _, _. split; [right; right; left; reflexivity | reflexivity].
  - eexists _, _. split; [right; right; right; left; reflexivity | reflexivity].
  - vm_compute. reflexivity.
  - vm_compute. reflexivity.
Qed.

(* ================================================================== *)
(** * The priority filter: scores, stable sort and truncation *)
(* ================================================================== *)

Section Priority.
Import CreateLightweightCsv Spec.

Lemma insert_desc_perm (x : Z * Row) (l : list (Z * Row)) :
  Permutation (insert_desc x l) (x :: l).
Proof.
  induction l as [|y l IH]; simpl; [reflexivity |].
  destruct (fst y <=? fst x)%Z; [reflexivity |].
  rewrite IH. apply perm_swap.
Qed.

Lemma sort_desc_perm (l : list (Z * Row)) : Permutation (sort_desc l) l.
Proof.
  induction l as [|x l IH]; simpl; [reflexivity |].
  now rewrite insert_desc_perm, IH.
Qed.

Lemma insert_desc_sorted (x : Z * Row) (l : list (Z * Row)) :
  StronglySorted by_score_desc l -> StronglySorted by_score_desc (insert_desc x l).
Proof.
  induction 1 as [|y l Hs IH Hy]; simpl.
  - repeat constructor.
  - destruct (Z.leb_spec (fst y) (fst x)) as [Hle | Hlt].
    + constructor; [now constructor |].
      constructor; [exact Hle |].
      eapply Forall_impl; [| exact Hy].
      unfold by_score_desc. intros z Hz. lia.
    + constructor; [exact IH |].
      eapply Permutation_Forall; [symmetry; apply insert_desc_perm |].
      constructor; [unfold by_score_desc; lia | exact Hy].
Qed.

Lemma sort_desc_sorted (l : list (Z * Row)) :
  StronglySorted by_score_desc (sort_desc l).
Proof.
  induction l as [|x l IH]; simpl; [constructor | now apply insert_desc_sorted].
Qed.

Lemma insert_desc_stable (score : Z) (x : Z * Row) (l : list (Z * Row)) :
  of_score score (insert_desc x l) = of_score score (x :: l).
Proof.
  unfold of_score. induction l as [|y l IH]; [reflexivity |].
  cbn [insert_desc]. destruct (Z.leb_spec (fst y) (fst x)) as [Hle | Hlt];
    [reflexivity |].
  cbn [filter] in *. rewrite IH.
  destruct (Z.eqb_spec (fst y) score) as [Hy | Hy];
    destruct (Z.eqb_spec (fst x) score) as [Hx | Hx]; try reflexivity; lia.
Qed.

Lemma sort_desc_stable (score : Z) (l : list (Z * Row)) :
  of_score score (sort_desc l) = of_score score l.
Proof.
  induction l as [|x l IH]; [reflexivity |].
  cbn [sort_desc]. rewrite insert_desc_stable.
  unfold of_score in *. cbn [filter]. now rewrite IH.
Qed.

(** A list ordered by decreasing score is determined by its entries of each
    score: there is one stable sort. *)
Lemma stable_sort_unique (a : list (Z * Row)) :
  forall b,
    StronglySorted by_score_desc a ->
    StronglySorted by_score_desc b ->
    (forall score, of_score score a = of_score score b) ->
    a = b.
Proof.
  unfold of_score.
  induction a as [|x a IH]; intros b Ha Hb Heq.
  - destruct b as [|y b]; [reflexivity |].
    specialize (Heq (fst y)). simpl in Heq. rewrite Z.eqb_refl in Heq.
    discriminate.
  - destruct b as [|y b].
    + specialize (Heq (fst x)). simpl in Heq. rewrite Z.eqb_refl in Heq.
      discriminate.
    + inversion Ha as [|? ? Ha' Hx]; subst. inversion Hb as [|? ? Hb' Hy]; subst.
      assert (Hk : fst x = fst y).
      { destruct (Z.eq_dec (fst x) (fst y)) as [E | E]; [exact E | exfalso].
        assert (Hya : In y a).
        { pose proof (Heq (fst y)) as H. simpl in H.
          rewrite Z.eqb_refl in H.
          destruct (Z.eqb_spec (fst x) (fst y)); [contradiction |].
          assert (Hin : In y (filter (fun z => (fst z =? fst y)%Z) a))
            by (rewrite H; now left).
          apply filter_In in Hin. apply Hin. }
        assert (Hxb : In x b).
        { pose proof (Heq (fst x)) as H. simpl in H.
          rewrite Z.eqb_refl in H.
          destruct (Z.eqb_spec (fst y) (fst x)); [congruence |].
          assert (Hin : In x (filter (fun z => (fst z =? fst x)%Z) b))
            by (rewrite <- H; now left).
          apply filter_In in Hin. apply Hin. }
        rewrite Forall_forall in Hx, Hy.
        pose proof (Hx y Hya). pose proof (Hy x Hxb).
        unfold by_score_desc in *. lia. }
      pose proof (Heq (fst x)) as H. simpl in H.
      rewrite <- Hk, Z.eqb_refl in H. inversion H; subst.
      f_equal. apply IH; auto.
      intros score. specialize (Heq score). simpl in Heq.
      destruct (fst y =? score)%Z; [now inversion Heq | exact Heq].
Qed.

Lemma slice_to_count {A : Type} (l : list A) (n : nat) :
  slice_to l (Z.of_nat n) = firstn n l.
Proof.
  unfold slice_to. destruct (Z.leb_spec 0 (Z.of_nat n)); [| lia].
  now rewrite Nat2Z.id.
Qed.

Lemma firstn_incl {A : Type} (k : nat) (l : list A) (x : A) :
  In x (firstn k l) -> In x l.
Proof.
  intros H. rewrite <- (firstn_skipn k l). apply in_or_app. now left.
Qed.

Lemma slice_to_incl {A : Type} (l : list A) (n : Z) (x : A) :
  In x (slice_to l n) -> In x l.
Proof.
  unfold slice_to. destruct (0 <=? n)%Z; apply firstn_incl.
Qed.

(** ** Scores *)

Lemma add_ward_score_any (wards : list string) (row : Row) (address : string)
  (score : Z) :
  get row "address" = Some address ->
  add_ward_score wards row score
  = Ok (score + if any_in wards address then 50 else 0)%Z.
Proof.
  intros Haddr. unfold any_in.
  induction wards as [|ward rest IH]; simpl.
  - now rewrite Z.add_0_r.
  - unfold item. rewrite Haddr. simpl.
    destruct (py_in ward address); [reflexivity | exact IH].
Qed.

Lemma priority_score_sum (row : Row) (name address : string) :
  get row "name" = Some name ->
  get row "address" = Some address ->
  priority_score row = Ok (rule_sum name address).
Proof.
  intros Hname Haddr. unfold priority_score, rule_sum, item.
  rewrite Hname. cbn [bind].
  rewrite (add_ward_score_any _ _ _ _ Haddr). cbn [bind].
  replace (any_in ["駅"; "Station"] name)
    with (py_in "駅" name || py_in "Station" name)
    by (unfold any_in; simpl; now rewrite orb_false_r).
  f_equal.
  destruct (py_in "駅" name || py_in "Station" name);
    destruct (any_in YAMANOTE_INNER_WARDS address);
    destruct (any_in ["庁舎"; "図書館"; "病院"; "公園"; "文化"] name);
    destruct (any_in ["東京"; "新宿"; "渋谷"; "池袋"; "上野"; "品川"] name);
    reflexivity.
Qed.

Lemma priority_score_Ok (row : Row) (score : Z) :
  priority_score row = Ok score ->
  exists name address,
    get row "name" = Some name /\ get row "address" = Some address.
Proof.
  unfold priority_score. intros H.
  apply bind_Ok in H. destruct H as [name [Hname H]]. apply item_Ok in Hname.
  apply bind_Ok in H. destruct H as [s [Hs _]].
  unfold YAMANOTE_INNER_WARDS in Hs. cbn [add_ward_score] in Hs.
  apply bind_Ok in Hs. destruct Hs as [address [Haddr _]]. apply item_Ok in Haddr.
  eauto.
Qed.

Lemma score_rows_qualifying (rows : list Row) :
  forall acc priority_data,
    score_rows rows acc = Ok priority_data ->
    priority_data = acc ++ qualifying rows.
Proof.
  induction rows as [|row rest IH]; simpl; intros acc priority_data H.
  - inversion H. now rewrite app_nil_r.
  - apply bind_Ok in H. destruct H as [score [Hs H]].
    rewrite Hs. apply IH in H. rewrite H.
    destruct (score >? 0)%Z; [now rewrite <- app_assoc | reflexivity].
Qed.

Lemma score_rows_total (rows : list Row) :
  forall acc,
    Forall (fun row => exists name address,
                get row "name" = Some name /\ get row "address" = Some address)
           rows ->
    exists priority_data, score_rows rows acc = Ok priority_data.
Proof.
  induction rows as [|row rest IH]; simpl; intros acc Hrows; [eauto |].
  inversion Hrows as [|? ? [name [address [Hn Ha]]] Hrest]; subst.
  rewrite (priority_score_sum row name address Hn Ha). simpl. apply IH, Hrest.
Qed.

Lemma qualifying_In (rows : list Row) (score : Z) (row : Row) :
  In (score, row) (qualifying rows) <->
  In row rows /\ priority_score row = Ok score /\ (0 < score)%Z.
Proof.
  unfold qualifying. rewrite in_flat_map. split.
  - intros [r [Hr H]]. destruct (priority_score r) as [s|e] eqn:E; [| destruct H].
    destruct (Z.gtb_spec s 0); [| destruct H].
    destruct H as [H | []]. inversion H; subst. auto.
  - intros [Hr [Hs Hpos]]. exists row. split; [exact Hr |]. rewrite Hs.
    destruct (Z.gtb_spec score 0); [now left | lia].
Qed.

End Priority.

Section PriorityOutput.
Import CreateLightweightCsv Spec.

Lemma sorted_app_le (l1 l2 : list (Z * Row)) :
  StronglySorted by_score_desc (l1 ++ l2) ->
  forall a b, In a l1 -> In b l2 -> by_score_desc a b.
Proof.
  induction l1 as [|x l1 IH]; simpl; intros Hs a b Ha Hb; [destruct Ha |].
  inversion Hs as [|? ? Hs' Hx]; subst.
  destruct Ha as [<- | Ha].
  - rewrite Forall_forall in Hx. apply Hx, in_or_app. now right.
  - now apply IH.
Qed.

Lemma select_rows_In (rows : list Row) (max_items : Z) (row : Row) :
  In row (select_rows (qualifying rows) max_items) ->
  exists score,
    In row rows /\ priority_score row = Ok score /\ (0 < score)%Z.
Proof.
  unfold select_rows. intros H. apply in_map_iff in H.
  destruct H as [[score r] [Hr H]]. simpl in Hr. subst r.
  apply slice_to_incl in H.
  apply (Permutation_in _ (sort_desc_perm _)) in H.
  exists score. now apply qualifying_In.
Qed.

Lemma create_priority_csv_writes (fs : FS) (input_file output_file : string)
  (names : list string) (recs : list (list string))
  (priority_data : list (Z * Row)) (max_items : Z) :
  read_file fs input_file = Some (names :: recs) ->
  score_rows (DictReader (names :: recs)) [] = Ok priority_data ->
  create_priority_csv input_file output_file max_items fs
  = (write_file fs output_file (table names (select_rows priority_data max_items)),
     Ok (length (select_rows priority_data max_items))).
Proof.
  intros Hread Hscore. unfold create_priority_csv.
  rewrite Hread, Hscore. cbn [fieldnames hd_error write_csv].
  rewrite write_table_known; [reflexivity |].
  apply score_rows_qualifying in Hscore. simpl in Hscore. subst priority_data.
  apply Forall_forall. intros row Hrow.
  apply select_rows_In in Hrow. destruct Hrow as [score [Hin _]].
  pose proof (DictReader_fields_known names recs) as Hk.
  rewrite Forall_forall in Hk. now apply Hk.
Qed.

End PriorityOutput.

(** C2: the priority score of a row is the sum of 100 when its name holds a
    station keyword, 50 (once) when its address holds one of the 12 inner
    wards, 30 when its name holds a public-facility keyword and 20 when its
    name holds a landmark keyword; the rows kept are those of positive score,
    so a row of score 0, which matches none of the four rules, is in no
    output; the row named "東京駅" with an address in "千代田区" scores 170. *)
Theorem priority_score_additive :
  (forall row name address,
      get row "name" = Some name ->
      get row "address" = Some address ->
      CreateLightweightCsv.priority_score row
      = Ok ((if CreateLightweightCsv.any_in ["駅"; "Station"] name then 100 else 0)
            + (if CreateLightweightCsv.any_in
                    CreateLightweightCsv.YAMANOTE_INNER_WARDS address
               then 50 else 0)
            + (if CreateLightweightCsv.any_in
                    ["庁舎"; "図書館"; "病院"; "公園"; "文化"] name
               then 30 else 0)
            + (if CreateLightweightCsv.any_in
                    ["東京"; "新宿"; "渋谷"; "池袋"; "上野"; "品川"] name
               then 20 else 0))%Z)
  /\ (forall row score,
         CreateLightweightCsv.priority_score row = Ok score ->
         exists name address,
           get row "name" = Some name /\ get row "address" = Some address
           /\ score = rule_sum name address)
  /\ (forall name address,
         rule_sum name address = 0%Z
         <-> CreateLightweightCsv.any_in ["駅"; "Station"] name = false
             /\ CreateLightweightCsv.any_in
                  CreateLightweightCsv.YAMANOTE_INNER_WARDS address = false
             /\ CreateLightweightCsv.any_in
                  ["庁舎"; "図書館"; "病院"; "公園"; "文化"] name = false
             /\ CreateLightweightCsv.any_in
                  ["東京"; "新宿"; "渋谷"; "池袋"; "上野"; "品川"] name = false)
  /\ (forall rows,
         (Forall (fun row => exists name address,
                      get row "name" = Some name
                      /\ get row "address" = Some address) rows ->
          exists priority_data,
            CreateLightweightCsv.score_rows rows [] = Ok priority_data)
         /\ forall priority_data,
             CreateLightweightCsv.score_rows rows [] = Ok priority_data ->
             priority_data = qualifying rows
             /\ forall score row,
                 In (score, row) priority_data <->
                 In row rows
                 /\ CreateLightweightCsv.priority_score row = Ok score
                 /\ (0 < score)%Z)
  /\ (forall rows max_items row,
         In row (CreateLightweightCsv.select_rows (qualifying rows) max_items) ->
         exists score,
           In row rows
           /\ CreateLightweightCsv.priority_score row = Ok score
           /\ (0 < score)%Z)
  /\ CreateLightweightCsv.priority_score
       [("name", "東京駅"); ("address", "東京都千代田区丸の内一丁目")] = Ok 170%Z
  /\ length CreateLightweightCsv.YAMANOTE_INNER_WARDS = 12.
Proof.
  split; [| split; [| split; [| split; [| split; [| split]]]]].
  - intros row name address Hn Ha. apply (priority_score_sum row name address Hn Ha).
  - intros row score H.
    destruct (priority_score_Ok row score H) as [name [address [Hn Ha]]].
    exists name, address. repeat split; auto.
    rewrite (priority_score_sum row name address Hn Ha) in H. now inversion H.
  - intros name address. unfold rule_sum.
    destruct (CreateLightweightCsv.any_in ["駅"; "Station"] name);
      destruct (CreateLightweightCsv.any_in
                  CreateLightweightCsv.YAMANOTE_INNER_WARDS address);
      destruct (CreateLightweightCsv.any_in
                  ["庁舎"; "図書館"; "病院"; "公園"; "文化"] name);
      destruct (CreateLightweightCsv.any_in
                  ["東京"; "新宿"; "渋谷"; "池袋"; "上野"; "品川"] name);
      split; intros H; try discriminate; try reflexivity;
      repeat split; try reflexivity;
      destruct H as [H1 [H2 [H3 H4]]]; discriminate.
  - intros rows. split; [apply score_rows_total |].
    intros priority_data H. apply score_rows_qualifying in H. simpl in H.
    subst priority_data. split; [reflexivity |].
    intros score row. apply qualifying_In.
  - apply select_rows_In.
  - reflexivity.
  - reflexivity.
Qed.

(** C3: for every list of scored rows and every maximum count N, the priority
    filter outputs the first N rows (all of them when there are fewer) of the
    qualifying rows sorted by decreasing score, rows of equal score staying in
    their input order; with more than N qualifying rows the output has N rows,
    and none of them scores less than a row left out.  On a file whose
    records have the width of its header, these are the rows written. *)
Theorem priority_selection_stable_top_n
  (priority_data : list (Z * Row)) (n : nat) :
  let sorted := CreateLightweightCsv.sort_desc priority_data in
  let selected := CreateLightweightCsv.select_rows priority_data (Z.of_nat n) in
  Permutation sorted priority_data
  /\ StronglySorted by_score_desc sorted
  /\ (forall score, of_score score sorted = of_score score priority_data)
  /\ (forall other,
         StronglySorted by_score_desc other ->
         (forall score, of_score score other = of_score score priority_data) ->
         other = sorted)
  /\ selected = map snd (firstn n sorted)
  /\ length selected = Nat.min n (length priority_data)
  /\ (n < length priority_data -> length selected = n)
  /\ (forall a b,
         In a (firstn n sorted) -> In b (skipn n sorted) -> (fst b <= fst a)%Z)
  /\ (forall fs input_file output_file names recs,
         read_file fs input_file = Some (names :: recs) ->
         Layout.rectangular names recs ->
         CreateLightweightCsv.score_rows (DictReader (names :: recs)) []
         = Ok priority_data ->
         CreateLightweightCsv.create_priority_csv input_file output_file
           (Z.of_nat n) fs
         = (write_file fs output_file (Spec.table names selected),
            Ok (length selected))).
Proof.
  intros sorted selected. subst sorted selected.
  assert (Hsel : CreateLightweightCsv.select_rows priority_data (Z.of_nat n)
                 = map snd (firstn n (CreateLightweightCsv.sort_desc priority_data)))
    by (unfold CreateLightweightCsv.select_rows; now rewrite slice_to_count).
  assert (Hlen : length (CreateLightweightCsv.select_rows priority_data (Z.of_nat n))
                 = Nat.min n (length priority_data)).
  { rewrite Hsel, length_map, length_firstn.
    now rewrite (Permutation_length (sort_desc_perm priority_data)). }
  split; [apply sort_desc_perm |].
  split; [apply sort_desc_sorted |].
  split; [intros score; apply sort_desc_stable |].
  split.
  { intros other Hs Hst. apply stable_sort_unique; [exact Hs | apply sort_desc_sorted |].
    intros score. now rewrite Hst, sort_desc_stable. }
  split; [exact Hsel |].
  split; [exact Hlen |].
  split; [intros Hlt; rewrite Hlen; lia |].
  split.
  { intros a b Ha Hb.
    apply (sorted_app_le (firstn n (CreateLightweightCsv.sort_desc priority_data))
             (skipn n (CreateLightweightCsv.sort_desc priority_data))); auto.
    rewrite firstn_skipn. apply sort_desc_sorted. }
  intros fs input_file output_file names recs Hread _ Hscore.
  now apply (create_priority_csv_writes fs input_file output_file names recs).
Qed.

(* ================================================================== *)
(** * The merge by coordinate proximity *)
(* ================================================================== *)

Section Merge.
Import CreateLightweightCsv Spec.

Lemma coords_Some (row : Row) (x y : float) :
  coords row = Some (x, y) ->
  exists lat lng,
    get row "lat" = Some lat /\ get row "lng" = Some lng
    /\ parse_float lat = Some x /\ parse_float lng = Some y.
Proof.
  unfold coords.
  destruct (get row "lat") as [lat|]; [| discriminate].
  destruct (get row "lng") as [lng|]; [| discriminate].
  destruct (parse_float lat) as [x'|] eqn:Ex; [| discriminate].
  destruct (parse_float lng) as [y'|] eqn:Ey; [| discriminate].
  intros H. inversion H; subst. exists lat, lng. repeat split; assumption.
Qed.

Lemma close_near (existing_row row : Row) :
  has_coords existing_row = true -> has_coords row = true ->
  close existing_row row = Ok (near existing_row row).
Proof.
  unfold has_coords, near. intros He Hr.
  destruct (coords existing_row) as [[elat elng]|] eqn:Ee; [| discriminate].
  destruct (coords row) as [[rlat rlng]|] eqn:Er; [| discriminate].
  apply coords_Some in Ee. destruct Ee as [la [lo [H1 [H2 [H3 H4]]]]].
  apply coords_Some in Er. destruct Er as [la' [lo' [H5 [H6 [H7 H8]]]]].
  unfold close, item, py_float. rewrite H1, H5. cbn [bind]. rewrite H3, H7.
  cbn [bind]. fold (within elat rlat). destruct (within elat rlat); [| reflexivity].
  rewrite H2, H6. cbn [bind]. rewrite H4, H8. reflexivity.
Qed.

Lemma is_duplicate_near (target_list : list Row) (row : Row) :
  Forall (fun r => has_coords r = true) target_list ->
  has_coords row = true ->
  is_duplicate target_list row
  = Ok (existsb (fun existing_row => near existing_row row) target_list).
Proof.
  intros Hacc Hrow. induction Hacc as [|e acc He Hacc IH]; [reflexivity |].
  cbn [is_duplicate existsb]. rewrite (close_near e row He Hrow). cbn [bind].
  destruct (near e row); [reflexivity | exact IH].
Qed.

Lemma merge_rows_dedup (rows : list Row) :
  forall target_list,
    Forall (fun r => has_coords r = true) target_list ->
    Forall (fun r => has_coords r = true) rows ->
    merge_rows target_list rows = Ok (dedup target_list rows).
Proof.
  unfold dedup.
  induction rows as [|row rest IH]; intros acc Hacc Hrows; [reflexivity |].
  inversion Hrows as [|? ? Hrow Hrest]; subst.
  cbn [merge_rows fold_left]. rewrite (is_duplicate_near acc row Hacc Hrow).
  cbn [bind]. unfold dedup_step at 2.
  destruct (existsb (fun e => near e row) acc); apply IH; auto.
  apply Forall_app. split; [exact Hacc | now constructor].
Qed.


(** The accumulating list only grows at its end. *)
Lemma dedup_extends (rows : list Row) :
  forall acc, exists kept, dedup acc rows = acc ++ kept /\ incl kept rows.
Proof.
  unfold dedup.
  induction rows as [|row rest IH]; intros acc; simpl.
  - exists []. split; [now rewrite app_nil_r | intros x []].
  - unfold dedup_step at 2.
    destruct (existsb (fun e => near e row) acc).
    + destruct (IH acc) as [kept [H Hi]]. exists kept. split; [exact H |].
      intros x Hx. right. now apply Hi.
    + destruct (IH (acc ++ [row])) as [kept [H Hi]]. exists (row :: kept).
      split; [now rewrite H, <- app_assoc |].
      intros x [<- | Hx]; [now left | right; now apply Hi].
Qed.

(** Every candidate is kept or is near a kept row. *)
Lemma dedup_covers (rows : list Row) :
  forall acc row,
    In row rows ->
    In row (dedup acc rows)
    \/ exists kept, In kept (dedup acc rows) /\ near kept row = true.
Proof.
  unfold dedup.
  induction rows as [|r rest IH]; intros acc row Hin; [destruct Hin |].
  destruct Hin as [<- | Hin]; [| now apply IH].
  cbn [fold_left].
  destruct (existsb (fun e => near e r) acc) eqn:E.
  - replace (dedup_step acc r) with acc by (unfold dedup_step; now rewrite E).
    right. apply existsb_exists in E. destruct E as [e [He Hn]].
    exists e. split; [| exact Hn].
    destruct (dedup_extends rest acc) as [kept [H _]]. unfold dedup in H.
    rewrite H. apply in_or_app. now left.
  - replace (dedup_step acc r) with (acc ++ [r])
      by (unfold dedup_step; now rewrite E).
    left. destruct (dedup_extends rest (acc ++ [r])) as [kept [H _]].
    unfold dedup in H. rewrite H. apply in_or_app. left. apply in_or_app.
    right. now left.
Qed.

Lemma dedup_app (acc rows rows' : list Row) :
  dedup acc (rows ++ rows') = dedup (dedup acc rows) rows'.
Proof. unfold dedup. apply fold_left_app. Qed.

Lemma dedup_has_coords (acc rows : list Row) :
  Forall (fun r => has_coords r = true) acc ->
  Forall (fun r => has_coords r = true) rows ->
  Forall (fun r => has_coords r = true) (dedup acc rows).
Proof.
  intros Hacc Hrows. destruct (dedup_extends rows acc) as [kept [-> Hk]].
  apply Forall_app. split; [exact Hacc |].
  rewrite Forall_forall in Hrows |- *. intros r Hr. apply Hrows, Hk, Hr.
Qed.

(** The four files of [main]: each accumulating list takes the rows of its
    two files in turn. *)
Lemma merge_files_dedup (fs : FS) (f1 f2 f3 f4 : File) :
  read_file fs "data/lightweight/yamanote_inner_public.csv" = Some f1 ->
  read_file fs "data/lightweight/yamanote_inner_station.csv" = Some f2 ->
  read_file fs "data/lightweight/priority_public.csv" = Some f3 ->
  read_file fs "data/lightweight/priority_station.csv" = Some f4 ->
  Forall (fun r => has_coords r = true)
    (DictReader f1 ++ DictReader f2 ++ DictReader f3 ++ DictReader f4) ->
  merge_files fs merge_inputs [] []
  = Ok (dedup [] (DictReader f1 ++ DictReader f3),
        dedup [] (DictReader f2 ++ DictReader f4)).
Proof.
  intros H1 H2 H3 H4 Hc.
  apply Forall_app in Hc. destruct Hc as [C1 Hc].
  apply Forall_app in Hc. destruct Hc as [C2 Hc].
  apply Forall_app in Hc. destruct Hc as [C3 C4].
  unfold merge_inputs. cbn [merge_files].
  rewrite H1, (merge_rows_dedup _ [] (Forall_nil _) C1). cbn [bind].
  rewrite H2, (merge_rows_dedup _ [] (Forall_nil _) C2). cbn [bind].
  rewrite H3, (merge_rows_dedup _ _ (dedup_has_coords _ _ (Forall_nil _) C1) C3).
  cbn [bind].
  rewrite H4, (merge_rows_dedup _ _ (dedup_has_coords _ _ (Forall_nil _) C2) C4).
  cbn [bind]. now rewrite !dedup_app.
Qed.

End Merge.

Section Floats.
Import CreateLightweightCsv.

Lemma finite_cases (x : float) :
  is_finite x = true ->
  (exists s, Prim2SF x = S754_zero s)
  \/ exists s m e, Prim2SF x = S754_finite s m e.
Proof.
  unfold is_finite. intros H. apply negb_true_iff, orb_false_iff in H.
  destruct H as [Hn Hi]. unfold Prim2SF. rewrite Hn, Hi.
  destruct (is_zero x); [left; eauto |].
  destruct (Z.frexp x) as [r ex].
  destruct (shr_fexp FloatOps.prec FloatOps.emax _ _ _) as [sh e'].
  destruct (shr_m sh); [left | right | left]; eauto.
Qed.

(** A finite number is within the tolerance of itself. *)
Lemma within_self (x : float) : is_finite x = true -> within x x = true.
Proof.
  intros Hf. unfold within. rewrite ltb_spec, abs_spec, sub_spec.
  destruct (finite_cases x Hf) as [[s E] | [s [m [e E]]]]; rewrite E.
  - destruct s; vm_compute; reflexivity.
  - unfold SF64sub, SFsub. rewrite Z.sub_diag.
    unfold binary_normalize. destruct s; vm_compute; reflexivity.
Qed.

Lemma non_finite_cases (x : float) :
  is_finite x = false ->
  Prim2SF x = S754_nan \/ exists s, Prim2SF x = S754_infinity s.
Proof.
  unfold is_finite. intros H.
  assert (Hz : is_zero x = true -> is_infinity x = true -> False).
  { unfold is_zero, is_infinity. rewrite !eqb_spec, abs_spec.
    destruct (Prim2SF x) as [s | s | | s m e]; vm_compute;
      try discriminate; destruct s; discriminate. }
  unfold Prim2SF.
  destruct (is_nan x); [left; reflexivity |].
  destruct (is_infinity x); [| discriminate H].
  destruct (is_zero x); [exfalso; now apply Hz |].
  right. eexists. reflexivity.
Qed.

Lemma within_non_finite (a x : float) :
  is_finite x = false -> within a x = false /\ within x a = false.
Proof.
  intros Hx. unfold within. rewrite !ltb_spec, !abs_spec, !sub_spec.
  unfold SF64sub, SFsub.
  destruct (non_finite_cases x Hx) as [E | [s E]]; rewrite E.
  - split; destruct (Prim2SF a); reflexivity.
  - split; destruct (Prim2SF a) as [sa | sa | | sa ma ea];
      destruct s; try destruct sa; vm_compute; reflexivity.
Qed.

End Floats.



(** The comparison with the tolerance is strict: two rows whose latitudes
    parse to numbers exactly 0.0001 apart are both kept. *)
Example tolerance_is_exclusive :
  CreateLightweightCsv.merge_rows []
    [ [("lat", "0.0"); ("lng", "139.7")]; [("lat", "0.0001"); ("lng", "139.7")] ]
  = Ok [ [("lat", "0.0"); ("lng", "139.7")]; [("lat", "0.0001"); ("lng", "139.7")] ].
Proof. vm_compute. reflexivity. Qed.

Section MergeErrors.
Import CreateLightweightCsv.

Lemma close_bad_existing_lat (existing_row row : Row) (elat : string) :
  get existing_row "lat" = Some elat -> parse_float elat = None ->
  close existing_row row = Raise (float_error elat).
Proof.
  intros Hg Hp. unfold close, item, py_float. rewrite Hg. cbn [bind].
  rewrite Hp. reflexivity.
Qed.

Lemma close_bad_lat (existing_row row : Row) (elat rlat : string) (x : float) :
  get existing_row "lat" = Some elat -> parse_float elat = Some x ->
  get row "lat" = Some rlat -> parse_float rlat = None ->
  close existing_row row = Raise (float_error rlat).
Proof.
  intros Hg Hp Hg' Hp'. unfold close, item, py_float. rewrite Hg. cbn [bind].
  rewrite Hp. cbn [bind]. rewrite Hg'. cbn [bind]. rewrite Hp'. reflexivity.
Qed.

Lemma close_lat_apart (existing_row row : Row) (elat rlat : string) (x y : float) :
  get existing_row "lat" = Some elat -> parse_float elat = Some x ->
  get row "lat" = Some rlat -> parse_float rlat = Some y ->
  within x y = false ->
  close existing_row row = Ok false.
Proof.
  intros Hg Hp Hg' Hp' Hw. unfold close, item, py_float. rewrite Hg. cbn [bind].
  rewrite Hp. cbn [bind]. rewrite Hg'. cbn [bind]. rewrite Hp'. cbn [bind].
  fold (within x y). rewrite Hw. reflexivity.
Qed.

Lemma close_bad_lng (existing_row row : Row) (elat rlat elng rlng : string)
  (x y z : float) :
  get existing_row "lat" = Some elat -> parse_float elat = Some x ->
  get row "lat" = Some rlat -> parse_float rlat = Some y ->
  within x y = true ->
  get existing_row "lng" = Some elng -> parse_float elng = Some z ->
  get row "lng" = Some rlng -> parse_float rlng = None ->
  close existing_row row = Raise (float_error rlng).
Proof.
  intros Hg Hp Hg' Hp' Hw Hl Hq Hl' Hq'. unfold close, item, py_float.
  rewrite Hg. cbn [bind]. rewrite Hp. cbn [bind]. rewrite Hg'. cbn [bind].
  rewrite Hp'. cbn [bind]. fold (within x y). rewrite Hw.
  rewrite Hl. cbn [bind]. rewrite Hq. cbn [bind]. rewrite Hl'. cbn [bind].
  rewrite Hq'. reflexivity.
Qed.

Lemma close_true_coords (existing_row row : Row) :
  close existing_row row = Ok true ->
  has_coords existing_row = true /\ has_coords row = true
  /\ near existing_row row = true.
Proof.
  unfold close, item, py_float. intros H.
  destruct (get existing_row "lat") as [elat|] eqn:E1; [| discriminate].
  cbn [bind] in H. destruct (parse_float elat) as [x|] eqn:E2; [| discriminate].
  cbn [bind] in H. destruct (get row "lat") as [rlat|] eqn:E3; [| discriminate].
  cbn [bind] in H. destruct (parse_float rlat) as [y|] eqn:E4; [| discriminate].
  cbn [bind] in H. fold (within x y) in H.
  destruct (within x y) eqn:W1; [| discriminate].
  destruct (get existing_row "lng") as [elng|] eqn:E5; [| discriminate].
  cbn [bind] in H. destruct (parse_float elng) as [x'|] eqn:E6; [| discriminate].
  cbn [bind] in H. destruct (get row "lng") as [rlng|] eqn:E7; [| discriminate].
  cbn [bind] in H. destruct (parse_float rlng) as [y'|] eqn:E8; [| discriminate].
  cbn [bind] in H. fold (within x' y') in H.
  assert (W2 : within x' y' = true) by congruence.
  unfold has_coords, near, coords.
  rewrite E1, E5, E3, E7, E2, E6, E4, E8, W1, W2. repeat split.
Qed.

End MergeErrors.

(** C6, as stated, fails: the batch whose only public row has the latitude
    "abc" runs to its end and writes that row to the merged output, and so
    does a batch with a row whose longitude is "east" and whose latitude is
    away from the other rows'. *)
Lemma unparseable_row_merged_silently :
  parse_float "abc" = None
  /\ snd (CreateLightweightCsv.main Examples.fs_bad_lat) = Ok tt
  /\ read_file (fst (CreateLightweightCsv.main Examples.fs_bad_lat))
       CreateLightweightCsv.integrated_public_path
     = Some [Examples.header; Examples.bad_lat]
  /\ parse_float "east" = None
  /\ snd (CreateLightweightCsv.main Examples.fs_bad_lng) = Ok tt
  /\ read_file (fst (CreateLightweightCsv.main Examples.fs_bad_lng))
       CreateLightweightCsv.integrated_public_path
     = Some [Examples.header; Examples.good; Examples.bad_lng].
Proof. repeat split; vm_compute; reflexivity. Qed.

(** C6, amended: a coordinate is parsed only where the duplicate check
    compares it, and a parse failure there is fatal.  A candidate row whose
    latitude is no number raises as soon as the accumulating list is not
    empty, an accumulated row whose latitude is no number raises at the next
    candidate, a longitude is parsed only when the two latitudes are within
    the tolerance, a row is never taken for a duplicate without all four
    coordinates parsed, and an error of the merge ends the batch before
    either integrated file is opened.  A row that meets an empty accumulating
    list is appended without being parsed.  The files read are rectangular,
    as the first parts of [main] write them. *)
Theorem merge_parse_failure_propagates :
  (forall existing_row target_list row rest rlat,
      get row "lat" = Some rlat -> parse_float rlat = None ->
      exists e,
        CreateLightweightCsv.merge_rows (existing_row :: target_list) (row :: rest)
        = Raise e)
  /\ (forall existing_row target_list row rest elat rlat x,
         get existing_row "lat" = Some elat -> parse_float elat = Some x ->
         get row "lat" = Some rlat -> parse_float rlat = None ->
         CreateLightweightCsv.merge_rows (existing_row :: target_list) (row :: rest)
         = Raise (float_error rlat))
  /\ (forall existing_row target_list row rest elat,
         get existing_row "lat" = Some elat -> parse_float elat = None ->
         CreateLightweightCsv.merge_rows (existing_row :: target_list) (row :: rest)
         = Raise (float_error elat))
  /\ (forall existing_row row elat rlat x y,
         get existing_row "lat" = Some elat -> parse_float elat = Some x ->
         get row "lat" = Some rlat -> parse_float rlat = Some y ->
         within x y = false ->
         CreateLightweightCsv.close existing_row row = Ok false)
  /\ (forall existing_row row elat rlat elng rlng x y z,
         get existing_row "lat" = Some elat -> parse_float elat = Some x ->
         get row "lat" = Some rlat -> parse_float rlat = Some y ->
         within x y = true ->
         get existing_row "lng" = Some elng -> parse_float elng = Some z ->
         get row "lng" = Some rlng -> parse_float rlng = None ->
         CreateLightweightCsv.close existing_row row = Raise (float_error rlng))
  /\ (forall existing_row row,
         CreateLightweightCsv.close existing_row row = Ok true ->
         has_coords existing_row = true /\ has_coords row = true
         /\ near existing_row row = true)
  /\ (forall fs path f rest integrated_public integrated_station e,
         read_file fs path = Some f ->
         Layout.rectangular_file f ->
         (CreateLightweightCsv.merge_rows integrated_public (DictReader f) = Raise e ->
          CreateLightweightCsv.merge_files fs ((path, true) :: rest)
            integrated_public integrated_station = Raise e)
         /\ (CreateLightweightCsv.merge_rows integrated_station (DictReader f)
             = Raise e ->
             CreateLightweightCsv.merge_files fs ((path, false) :: rest)
               integrated_public integrated_station = Raise e))
  /\ (forall fs e,
         (forall path f,
             In path intermediate -> read_file fs path = Some f ->
             Layout.rectangular_file f) ->
         CreateLightweightCsv.merge_files fs CreateLightweightCsv.merge_inputs [] []
         = Raise e ->
         CreateLightweightCsv.integrate fs = (fs, Raise e))
  /\ (forall row rest,
         CreateLightweightCsv.merge_rows [] (row :: rest)
         = CreateLightweightCsv.merge_rows [row] rest)
  /\ CreateLightweightCsv.merge_rows [Examples.row_a]
       [dict_zip Examples.header Examples.bad_lat]
     = Raise (float_error "abc").
Proof.
  split; [| split; [| split; [| split; [| split; [| split; [| split; [| split;
    [| split]]]]]]]].
  - intros existing_row target_list row rest rlat Hg Hp.
    cbn [CreateLightweightCsv.merge_rows CreateLightweightCsv.is_duplicate].
    unfold CreateLightweightCsv.close at 1, item, py_float.
    destruct (get existing_row "lat") as [elat|]; [| simpl; eauto].
    cbn [bind]. destruct (parse_float elat) as [x|]; [| simpl; eauto].
    cbn [bind]. rewrite Hg. cbn [bind]. rewrite Hp. simpl. eauto.
  - intros existing_row target_list row rest elat rlat x H1 H2 H3 H4.
    cbn [CreateLightweightCsv.merge_rows CreateLightweightCsv.is_duplicate].
    now rewrite (close_bad_lat existing_row row elat rlat x H1 H2 H3 H4).
  - intros existing_row target_list row rest elat H1 H2.
    cbn [CreateLightweightCsv.merge_rows CreateLightweightCsv.is_duplicate].
    now rewrite (close_bad_existing_lat existing_row row elat H1 H2).
  - intros existing_row row elat rlat x y. apply close_lat_apart.
  - intros existing_row row elat rlat elng rlng x y z. apply close_bad_lng.
  - apply close_true_coords.
  - intros fs path f rest integrated_public integrated_station e Hread _.
    split; intros H; cbn [CreateLightweightCsv.merge_files];
      now rewrite Hread, H.
  - intros fs e _ H. unfold CreateLightweightCsv.integrate. now rewrite H.
  - reflexivity.
  - vm_compute. reflexivity.
Qed.

Section IntegratedOutputs.
Import CreateLightweightCsv Spec.

Lemma write_integrated_creates (path : string) (integrated : list Row) (fs : FS) :
  exists f, read_file (fst (write_integrated path integrated fs)) path = Some f.
Proof.
  unfold write_integrated. destruct integrated as [|first rest]; simpl.
  - eexists. apply read_write_same.
  - destruct (write_table (keys first) (first :: rest)) as [f r]. simpl.
    eexists. apply read_write_same.
Qed.

Lemma write_integrated_uniform (path : string) (integrated : list Row) (fs : FS) :
  uniform integrated ->
  write_integrated path integrated fs
  = (write_file fs path (integrated_content integrated), Ok tt).
Proof.
  unfold write_integrated, uniform, integrated_content.
  destruct integrated as [|first rest]; [reflexivity |].
  intros H. now rewrite (write_table_known _ _ H).
Qed.

Lemma integrated_paths_differ : integrated_public_path <> integrated_station_path.
Proof. discriminate. Qed.

End IntegratedOutputs.

Section MainOutputs.
Import CreateLightweightCsv.

Lemma writerows_Ok (names : list string) (rows : list Row) :
  forall f0 f u,
    writerows names rows f0 = (f, Ok u) ->
    f = f0 ++ map (fun row => map (fun n => get_default row n "") names) rows.
Proof.
  induction rows as [|row rows IH]; intros f0 f u H; simpl in H.
  - inversion H. now rewrite app_nil_r.
  - unfold dict_to_list in H.
    destruct (forallb (fun k => existsb (String.eqb k) names) (keys row));
      [| discriminate].
    apply IH in H. rewrite H, <- app_assoc. reflexivity.
Qed.

Lemma write_csv_Ok (headers : option (list string)) (rows : list Row)
  (f : File) (u : unit) :
  write_csv headers rows = (f, Ok u) ->
  exists names, headers = Some names /\ f = table names rows.
Proof.
  unfold write_csv, write_table. destruct headers as [names|]; [| discriminate].
  intros H. apply writerows_Ok in H. exists names. now split.
Qed.

Lemma keys_dict_set (d : Row) (k v : string) :
  keys (dict_set d k v)
  = if existsb (String.eqb k) (keys d) then keys d else keys d ++ [k].
Proof.
  unfold keys. induction d as [|[k' v'] d IH]; simpl; [reflexivity |].
  rewrite (String.eqb_sym k k').
  destruct (String.eqb k' k); simpl; [reflexivity |].
  rewrite IH. now destruct (existsb (String.eqb k) (map fst d)).
Qed.

(** The keys of a row read from a record as long as the header depend on
    the header only. *)
Lemma keys_dict_zip (names cells : list string) :
  length cells = length names ->
  keys (dict_zip names cells) = keys (dict_zip names names).
Proof.
  unfold dict_zip.
  assert (H : forall names cells cells' (d d' : Row),
             length cells = length names -> length cells' = length names ->
             keys d = keys d' ->
             keys (fold_left (fun d kv => dict_set d (fst kv) (snd kv))
                     (combine names cells) d)
             = keys (fold_left (fun d kv => dict_set d (fst kv) (snd kv))
                       (combine names cells') d')).
  { clear. induction names as [|n names IH]; intros cells cells' d d' H1 H2 Hd.
    - exact Hd.
    - destruct cells as [|c cells]; [discriminate |].
      destruct cells' as [|c' cells']; [discriminate |].
      simpl. apply IH; [simpl in H1; lia | simpl in H2; lia |].
      now rewrite !keys_dict_set, Hd. }
  intros Hlen. now apply H.
Qed.

Lemma DictReader_table_keys (names : list string) (rows : list Row) (row : Row) :
  In row (DictReader (table names rows)) ->
  keys row = keys (dict_zip names names).
Proof.
  unfold table, DictReader. intros H. apply in_map_iff in H.
  destruct H as [cells [<- H]]. apply filter_In in H. destruct H as [H _].
  apply in_map_iff in H. destruct H as [src [<- _]].
  apply keys_dict_zip. now rewrite length_map.
Qed.

Lemma merge_rows_incl (rows : list Row) :
  forall target_list out,
    merge_rows target_list rows = Ok out -> incl out (target_list ++ rows).
Proof.
  induction rows as [|row rest IH]; intros acc out H; simpl in H.
  - inversion H. rewrite app_nil_r. apply incl_refl.
  - apply bind_Ok in H. destruct H as [d [_ H]]. apply IH in H.
    intros x Hx. specialize (H x Hx). rewrite in_app_iff in H |- *.
    destruct d; [| rewrite in_app_iff in H]; simpl in *; tauto.
Qed.

Lemma same_keys_uniform (K : list string) (l : list Row) :
  (forall row, In row l -> keys row = K) -> uniform l.
Proof.
  intros H. unfold uniform. destruct l as [|first rest]; [exact I |].
  apply Forall_forall. intros row Hrow. apply incl_fields_known.
  rewrite (H row Hrow), (H first (or_introl eq_refl)). apply incl_refl.
Qed.

Lemma create_lightweight_csv_frame (input_file output_file : string)
  (target_wards : list string) (fs fs' : FS) (r : result nat) :
  create_lightweight_csv input_file output_file target_wards fs = (fs', r) ->
  forall q, q <> output_file -> read_file fs' q = read_file fs q.
Proof.
  unfold create_lightweight_csv. intros H q Hq.
  destruct (read_file fs input_file) as [input|]; [| now inversion H].
  destruct (extract_rows target_wards (DictReader input) []) as [rows|e];
    [| now inversion H].
  destruct (write_csv (fieldnames input) rows) as [f r']. inversion H; subst.
  apply read_write_other. congruence.
Qed.

Lemma create_lightweight_csv_Ok (input_file output_file : string)
  (target_wards : list string) (fs fs' : FS) (n : nat) :
  create_lightweight_csv input_file output_file target_wards fs = (fs', Ok n) ->
  exists input names rows,
    read_file fs input_file = Some input /\ fieldnames input = Some names
    /\ read_file fs' output_file = Some (table names rows).
Proof.
  unfold create_lightweight_csv. intros H.
  destruct (read_file fs input_file) as [input|]; [| now inversion H].
  destruct (extract_rows target_wards (DictReader input) []) as [rows|e];
    [| now inversion H].
  destruct (write_csv (fieldnames input) rows) as [f [u|e]] eqn:E;
    inversion H; subst.
  apply write_csv_Ok in E. destruct E as [names [Hn ->]].
  exists input, names, rows. repeat split; auto. apply read_write_same.
Qed.

Lemma create_priority_csv_frame (input_file output_file : string)
  (max_items : Z) (fs fs' : FS) (r : result nat) :
  create_priority_csv input_file output_file max_items fs = (fs', r) ->
  forall q, q <> output_file -> read_file fs' q = read_file fs q.
Proof.
  unfold create_priority_csv. intros H q Hq.
  destruct (read_file fs input_file) as [input|]; [| now inversion H].
  destruct (score_rows (DictReader input) []) as [pd|e]; [| now inversion H].
  destruct (write_csv (fieldnames input) (select_rows pd max_items)) as [f r'].
  inversion H; subst. apply read_write_other. congruence.
Qed.

Lemma create_priority_csv_Ok (input_file output_file : string)
  (max_items : Z) (fs fs' : FS) (n : nat) :
  create_priority_csv input_file output_file max_items fs = (fs', Ok n) ->
  exists input names rows,
    read_file fs input_file = Some input /\ fieldnames input = Some names
    /\ read_file fs' output_file = Some (table names rows).
Proof.
  unfold create_priority_csv. intros H.
  destruct (read_file fs input_file) as [input|]; [| now inversion H].
  destruct (score_rows (DictReader input) []) as [pd|e]; [| now inversion H].
  destruct (write_csv (fieldnames input) (select_rows pd max_items))
    as [f [u|e]] eqn:E; inversion H; subst.
  apply write_csv_Ok in E. destruct E as [names [Hn ->]].
  exists input, names, (select_rows pd max_items). repeat split; auto.
  apply read_write_same.
Qed.

Lemma merge_files_incl (fs : FS) (f1 f2 f3 f4 : File) (pub sta : list Row) :
  read_file fs "data/lightweight/yamanote_inner_public.csv" = Some f1 ->
  read_file fs "data/lightweight/yamanote_inner_station.csv" = Some f2 ->
  read_file fs "data/lightweight/priority_public.csv" = Some f3 ->
  read_file fs "data/lightweight/priority_station.csv" = Some f4 ->
  merge_files fs merge_inputs [] [] = Ok (pub, sta) ->
  incl pub (DictReader f1 ++ DictReader f3)
  /\ incl sta (DictReader f2 ++ DictReader f4).
Proof.
  intros H1 H2 H3 H4. unfold merge_inputs. cbn [merge_files].
  rewrite H1. intros H. apply bind_Ok in H. destruct H as [p1 [M1 H]].
  rewrite H2 in H. apply bind_Ok in H. destruct H as [s1 [M2 H]].
  rewrite H3 in H. apply bind_Ok in H. destruct H as [p2 [M3 H]].
  rewrite H4 in H. apply bind_Ok in H. destruct H as [s2 [M4 H]].
  inversion H; subst.
  apply merge_rows_incl in M1, M2, M3, M4. simpl in M1, M2. split.
  - intros x Hx. apply M3 in Hx. rewrite in_app_iff in Hx |- *.
    destruct Hx as [Hx | Hx]; [left; now apply M1 | now right].
  - intros x Hx. apply M4 in Hx. rewrite in_app_iff in Hx |- *.
    destruct Hx as [Hx | Hx]; [left; now apply M2 | now right].
Qed.

(** A run of [main] either stops with an error before the output stage,
    having written intermediate files only, or reaches the output stage with
    two merged lists that the writers accept. *)
Lemma main_cases (fs : FS) :
  (exists fs4 pub sta,
      (forall q, ~ In q intermediate -> read_file fs4 q = read_file fs q)
      /\ merge_files fs4 merge_inputs [] [] = Ok (pub, sta)
      /\ uniform pub /\ uniform sta
      /\ main fs = write_outputs pub sta fs4)
  \/ (exists fs' e,
         main fs = (fs', Raise e)
         /\ forall q, ~ In q intermediate -> read_file fs' q = read_file fs q).
Proof.
  unfold main.
  destruct (create_lightweight_csv "data/barrier_free_toilets.csv"
              "data/lightweight/yamanote_inner_public.csv" YAMANOTE_INNER_WARDS fs)
    as [fs1 [n1|e1]] eqn:E1.
  2:{ right. exists fs1, e1. split; [reflexivity |]. intros q Hq.
      apply (create_lightweight_csv_frame _ _ _ _ _ _ E1).
      intros ->. apply Hq. simpl. tauto. }
  destruct (create_lightweight_csv "data/station_barrier_free_toilets.csv"
              "data/lightweight/yamanote_inner_station.csv" YAMANOTE_INNER_WARDS fs1)
    as [fs2 [n2|e2]] eqn:E2.
  2:{ right. exists fs2, e2. split; [reflexivity |]. intros q Hq.
      rewrite (create_lightweight_csv_frame _ _ _ _ _ _ E2)
        by (intros ->; apply Hq; simpl; tauto).
      apply (create_lightweight_csv_frame _ _ _ _ _ _ E1).
      intros ->. apply Hq. simpl. tauto. }
  destruct (create_priority_csv "data/barrier_free_toilets.csv"
              "data/lightweight/priority_public.csv" 1000 fs2)
    as [fs3 [n3|e3]] eqn:E3.
  2:{ right. exists fs3, e3. split; [reflexivity |]. intros q Hq.
      rewrite (create_priority_csv_frame _ _ _ _ _ _ E3)
        by (intros ->; apply Hq; simpl; tauto).
      rewrite (create_lightweight_csv_frame _ _ _ _ _ _ E2)
        by (intros ->; apply Hq; simpl; tauto).
      apply (create_lightweight_csv_frame _ _ _ _ _ _ E1).
      intros ->. apply Hq. simpl. tauto. }
  destruct (create_priority_csv "data/station_barrier_free_toilets.csv"
              "data/lightweight/priority_station.csv" 500 fs3)
    as [fs4 [n4|e4]] eqn:E4.
  2:{ right. exists fs4, e4. split; [reflexivity |]. intros q Hq.
      rewrite (create_priority_csv_frame _ _ _ _ _ _ E4)
        by (intros ->; apply Hq; simpl; tauto).
      rewrite (create_priority_csv_frame _ _ _ _ _ _ E3)
        by (intros ->; apply Hq; simpl; tauto).
      rewrite (create_lightweight_csv_frame _ _ _ _ _ _ E2)
        by (intros ->; apply Hq; simpl; tauto).
      apply (create_lightweight_csv_frame _ _ _ _ _ _ E1).
      intros ->. apply Hq. simpl. tauto. }
  assert (Hframe : forall q, ~ In q intermediate -> read_file fs4 q = read_file fs q).
  { intros q Hq.
    rewrite (create_priority_csv_frame _ _ _ _ _ _ E4)
      by (intros ->; apply Hq; simpl; tauto).
    rewrite (create_priority_csv_frame _ _ _ _ _ _ E3)
      by (intros ->; apply Hq; simpl; tauto).
    rewrite (create_lightweight_csv_frame _ _ _ _ _ _ E2)
      by (intros ->; apply Hq; simpl; tauto).
    apply (create_lightweight_csv_frame _ _ _ _ _ _ E1).
    intros ->. apply Hq. simpl. tauto. }
  unfold integrate.
  destruct (merge_files fs4 merge_inputs [] []) as [[pub sta]|e] eqn:EM.
  2:{ right. exists fs4, e. split; [reflexivity | exact Hframe]. }
  left. exists fs4, pub, sta. split; [exact Hframe |]. split; [exact EM |].
  destruct (create_lightweight_csv_Ok _ _ _ _ _ _ E1)
    as [i1 [names1 [rows1 [R1 [F1 W1]]]]].
  destruct (create_lightweight_csv_Ok _ _ _ _ _ _ E2)
    as [i2 [names2 [rows2 [R2 [F2 W2]]]]].
  destruct (create_priority_csv_Ok _ _ _ _ _ _ E3)
    as [i3 [names3 [rows3 [R3 [F3 W3]]]]].
  destruct (create_priority_csv_Ok _ _ _ _ _ _ E4)
    as [i4 [names4 [rows4 [R4 [F4 W4]]]]].
  (* the inputs are read unchanged *)
  rewrite (create_lightweight_csv_frame _ _ _ _ _ _ E2) in R3 by discriminate.
  rewrite (create_lightweight_csv_frame _ _ _ _ _ _ E1) in R3 by discriminate.
  rewrite R1 in R3. inversion R3; subst i3. rewrite F1 in F3. inversion F3; subst names3.
  rewrite (create_priority_csv_frame _ _ _ _ _ _ E3) in R4 by discriminate.
  rewrite (create_lightweight_csv_frame _ _ _ _ _ _ E2) in R4 by discriminate.
  rewrite R2 in R4. inversion R4; subst i4. rewrite F2 in F4. inversion F4; subst names4.
  (* the four intermediate files as the merge reads them *)
  assert (G1 : read_file fs4 "data/lightweight/yamanote_inner_public.csv"
               = Some (table names1 rows1)).
  { rewrite (create_priority_csv_frame _ _ _ _ _ _ E4) by discriminate.
    rewrite (create_priority_csv_frame _ _ _ _ _ _ E3) by discriminate.
    now rewrite (create_lightweight_csv_frame _ _ _ _ _ _ E2) by discriminate. }
  assert (G2 : read_file fs4 "data/lightweight/yamanote_inner_station.csv"
               = Some (table names2 rows2)).
  { rewrite (create_priority_csv_frame _ _ _ _ _ _ E4) by discriminate.
    now rewrite (create_priority_csv_frame _ _ _ _ _ _ E3) by discriminate. }
  assert (G3 : read_file fs4 "data/lightweight/priority_public.csv"
               = Some (table names1 rows3)).
  { now rewrite (create_priority_csv_frame _ _ _ _ _ _ E4) by discriminate. }
  destruct (merge_files_incl fs4 _ _ _ _ pub sta G1 G2 G3 W4 EM) as [Ip Is].
  split; [| split; [| reflexivity]].
  - apply (same_keys_uniform (keys (dict_zip names1 names1))).
    intros row Hrow. apply Ip, in_app_iff in Hrow.
    destruct Hrow as [Hrow | Hrow]; now apply DictReader_table_keys in Hrow.
  - apply (same_keys_uniform (keys (dict_zip names2 names2))).
    intros row Hrow. apply Is, in_app_iff in Hrow.
    destruct Hrow as [Hrow | Hrow]; now apply DictReader_table_keys in Hrow.
Qed.

End MainOutputs.

(** C10: once the merge has run, the extractor creates both integrated files
    whatever the merged lists hold: a file whose list is empty is left with no
    content at all, not even a header, and a file whose list is not empty holds
    the keys of its first row as header and then the accumulated rows in
    their order.  A run of [main] that ends without error has created both
    files so, and a run that ends with an error has stopped before the output
    stage and has touched neither. *)
Theorem integrated_files_always_created
  (integrated_public integrated_station : list Row) (fs : FS) :
  let out :=
    CreateLightweightCsv.write_outputs integrated_public integrated_station fs in
  (exists f,
      read_file (fst out) CreateLightweightCsv.integrated_public_path = Some f)
  /\ (integrated_public = [] ->
      read_file (fst out) CreateLightweightCsv.integrated_public_path = Some []
      /\ exists f,
          read_file (fst out) CreateLightweightCsv.integrated_station_path = Some f)
  /\ (uniform integrated_public ->
      read_file (fst out) CreateLightweightCsv.integrated_public_path
      = Some (integrated_content integrated_public)
      /\ (exists f,
             read_file (fst out) CreateLightweightCsv.integrated_station_path
             = Some f)
      /\ (integrated_station = [] ->
          read_file (fst out) CreateLightweightCsv.integrated_station_path
          = Some [])
      /\ (uniform integrated_station ->
          read_file (fst out) CreateLightweightCsv.integrated_station_path
          = Some (integrated_content integrated_station)
          /\ snd out = Ok tt))
  /\ (forall first rest,
         integrated_content (first :: rest)
         = keys first
           :: map (fun row => map (fun n => get_default row n "") (keys first))
                (first :: rest))
  /\ integrated_content [] = []
  /\ (forall fs',
         CreateLightweightCsv.merge_files fs' CreateLightweightCsv.merge_inputs [] []
         = Ok (integrated_public, integrated_station) ->
         CreateLightweightCsv.integrate fs'
         = CreateLightweightCsv.write_outputs integrated_public
             integrated_station fs')
  /\ (forall fs0,
         (snd (CreateLightweightCsv.main fs0) = Ok tt ->
          exists fs4 merged_public merged_station,
            CreateLightweightCsv.merge_files fs4 CreateLightweightCsv.merge_inputs
              [] [] = Ok (merged_public, merged_station)
            /\ read_file (fst (CreateLightweightCsv.main fs0))
                 CreateLightweightCsv.integrated_public_path
               = Some (integrated_content merged_public)
            /\ read_file (fst (CreateLightweightCsv.main fs0))
                 CreateLightweightCsv.integrated_station_path
               = Some (integrated_content merged_station))
         /\ (forall e,
                snd (CreateLightweightCsv.main fs0) = Raise e ->
                read_file (fst (CreateLightweightCsv.main fs0))
                  CreateLightweightCsv.integrated_public_path
                = read_file fs0 CreateLightweightCsv.integrated_public_path
                /\ read_file (fst (CreateLightweightCsv.main fs0))
                     CreateLightweightCsv.integrated_station_path
                   = read_file fs0 CreateLightweightCsv.integrated_station_path))
  /\ snd (CreateLightweightCsv.main Examples.fs_bad_lat) = Ok tt
  /\ read_file (fst (CreateLightweightCsv.main Examples.fs_bad_lat))
       CreateLightweightCsv.integrated_station_path = Some []
  /\ read_file (fst (CreateLightweightCsv.main Examples.fs_bad_lat))
       CreateLightweightCsv.integrated_public_path
     = Some [Examples.header; Examples.bad_lat].
Proof.
  intros out. subst out.
  assert (Hu : uniform integrated_public ->
               read_file (fst (CreateLightweightCsv.write_outputs integrated_public
                                 integrated_station fs))
                 CreateLightweightCsv.integrated_public_path
               = Some (integrated_content integrated_public)
               /\ (exists f,
                      read_file (fst (CreateLightweightCsv.write_outputs
                                        integrated_public integrated_station fs))
                        CreateLightweightCsv.integrated_station_path = Some f)
               /\ (integrated_station = [] ->
                   read_file (fst (CreateLightweightCsv.write_outputs
                                     integrated_public integrated_station fs))
                     CreateLightweightCsv.integrated_station_path = Some [])
               /\ (uniform integrated_station ->
                   read_file (fst (CreateLightweightCsv.write_outputs
                                     integrated_public integrated_station fs))
                     CreateLightweightCsv.integrated_station_path
                   = Some (integrated_content integrated_station)
                   /\ snd (CreateLightweightCsv.write_outputs integrated_public
                             integrated_station fs) = Ok tt)).
  { intros Hp. unfold CreateLightweightCsv.write_outputs.
    rewrite (write_integrated_uniform _ _ fs Hp).
    split; [| split; [| split]].
    - destruct (CreateLightweightCsv.write_integrated
                  CreateLightweightCsv.integrated_station_path integrated_station _)
        as [fs2 r] eqn:E.
      pose proof (f_equal fst E) as E1. cbn [fst] in E1 |- *. subst fs2.
      unfold CreateLightweightCsv.write_integrated.
      destruct integrated_station as [|first rest].
      + cbn [fst]. rewrite read_write_other by (intro H; now apply integrated_paths_differ).
        apply read_write_same.
      + destruct (write_table (keys first) (first :: rest)) as [f' r']. cbn [fst].
        rewrite read_write_other by (intro H; now apply integrated_paths_differ).
        apply read_write_same.
    - apply write_integrated_creates.
    - intros ->. cbn [CreateLightweightCsv.write_integrated fst].
      apply read_write_same.
    - intros Hs. rewrite (write_integrated_uniform _ _ _ Hs). cbn [fst snd].
      split; [apply read_write_same | reflexivity]. }
  split; [| split; [| split; [exact Hu | split; [| split; [| split; [| split]]]]]].
  - unfold CreateLightweightCsv.write_outputs.
    destruct (write_integrated_creates CreateLightweightCsv.integrated_public_path
                integrated_public fs) as [f Hf].
    destruct (CreateLightweightCsv.write_integrated
                CreateLightweightCsv.integrated_public_path integrated_public fs)
      as [fs1 [u|e]]; cbn [fst] in *; [| eauto].
    unfold CreateLightweightCsv.write_integrated.
    destruct integrated_station as [|first rest].
    + cbn [fst]. rewrite read_write_other by (intro H; now apply integrated_paths_differ).
      eauto.
    + destruct (write_table (keys first) (first :: rest)) as [f' r']. cbn [fst].
      rewrite read_write_other by (intro H; now apply integrated_paths_differ).
      eauto.
  - intros ->. destruct (Hu I) as [H1 [H2 _]]. split; [exact H1 | exact H2].
  - reflexivity.
  - reflexivity.
  - intros fs' H. unfold CreateLightweightCsv.integrate. now rewrite H.
  - intros fs0.
    assert (Hp : ~ In CreateLightweightCsv.integrated_public_path intermediate)
      by (simpl; intuition discriminate).
    assert (Hs : ~ In CreateLightweightCsv.integrated_station_path intermediate)
      by (simpl; intuition discriminate).
    destruct (main_cases fs0)
      as [[fs4 [pub [sta [Hframe [Hm [Up [Us Hmain]]]]]]] | [fs' [e' [Hmain Hframe]]]];
      rewrite Hmain.
    + unfold CreateLightweightCsv.write_outputs.
      rewrite (write_integrated_uniform _ _ fs4 Up).
      rewrite (write_integrated_uniform _ _ _ Us). cbn [fst snd].
      split; [| intros e He; discriminate].
      intros _. exists fs4, pub, sta. split; [exact Hm |]. split.
      * rewrite read_write_other
          by (intro H; now apply integrated_paths_differ).
        apply read_write_same.
      * apply read_write_same.
    + cbn [fst snd]. split; [intros H; discriminate |].
      intros e _. split; now apply Hframe.
  - repeat split; vm_compute; reflexivity.
Qed.

(* ================================================================== *)
(** * The note of the pin formatter *)
(* ================================================================== *)

Section Note.
Import CsvToPinFormat.

Lemma collect_hours_flat_map (row : Row) (ds : list string) :
  forall hours,
    collect_hours row ds hours
    = hours ++ flat_map
                 (fun day =>
                    let hour := strip (get_default row day "") in
                    if truthy hour then [(day ++ ": " ++ hour)%string] else [])
                 ds.
Proof.
  induction ds as [|day rest IH]; intros hours; simpl.
  - now rewrite app_nil_r.
  - rewrite IH. destruct (truthy (strip (get_default row day ""))); simpl;
      [now rewrite <- app_assoc | reflexivity].
Qed.

Lemma truthy_app (a b : string) : truthy a = true -> truthy (a ++ b) = true.
Proof. destruct a; [discriminate | reflexivity]. Qed.

Lemma truthy_join (sep : string) (parts : list string) :
  parts <> [] -> Forall (fun p => truthy p = true) parts ->
  truthy (join sep parts) = true.
Proof.
  destruct parts as [|p rest]; [congruence |]. intros _ H.
  inversion H as [|? ? Hp _]; subst. simpl.
  destruct rest; [exact Hp | now apply truthy_app].
Qed.

Lemma section_join (prefix sep : string) (parts : list string) :
  Forall (fun p => truthy p = true) parts ->
  section prefix (join sep parts)
  = match parts with
    | [] => []
    | _ :: _ => [(prefix ++ join sep parts)%string]
    end.
Proof.
  intros H. unfold section. destruct parts as [|p rest]; [reflexivity |].
  now rewrite truthy_join.
Qed.

Lemma features_truthy (row : Row) :
  Forall (fun p => truthy p = true) (features_of row).
Proof.
  unfold features_of. apply Forall_forall. intros label H.
  apply in_map_iff in H. destruct H as [[col l] [<- H]].
  apply filter_In in H. destruct H as [H _]. simpl in H.
  repeat (destruct H as [H | H]; [inversion H; reflexivity |]). destruct H.
Qed.

Lemma hours_truthy (row : Row) :
  Forall (fun p => truthy p = true) (hours_of row).
Proof.
  unfold hours_of. apply Forall_forall. intros entry H.
  apply in_flat_map in H. destruct H as [day [Hday H]].
  cbv zeta in H.
  destruct (truthy (strip (get_default row day ""))); [| destruct H].
  destruct H as [<- | []]. simpl in Hday.
  repeat (destruct Hday as [<- | Hday]; [reflexivity |]). destruct Hday.
Qed.

Lemma firstn_nil_iff {A : Type} (l : list A) : firstn 3 l = [] <-> l = [].
Proof. destruct l; simpl; split; intros H; congruence. Qed.

Lemma create_facility_note_sections (row : Row) :
  create_facility_note row = join " | " (note_sections row).
Proof.
  unfold create_facility_note, note_sections.
  rewrite collect_hours_flat_map. cbn [app]. fold (hours_of row).
  rewrite (section_join "設備: " ", " _ (features_truthy row)).
  rewrite (section_join "営業時間: " ", " (firstn 3 (hours_of row))).
  2:{ pose proof (hours_truthy row) as H. rewrite Forall_forall in H |- *.
      intros x Hx. apply H. now apply firstn_incl in Hx. }
  unfold section, features_of, feature_labels. cbn [filter fst snd map].
  destruct (is_TRUE (get row "車椅子が出入りできる（出入口の有効幅員80cm以上）"));
    destruct (is_TRUE (get row "オストメイト用設備がある"));
    destruct (is_TRUE (get row "大型ベッドを備えている"));
    destruct (is_TRUE (get row "乳幼児用おむつ交換台等を備えている"));
    destruct (is_TRUE (get row "乳幼児用椅子を備えている"));
    cbn [app map snd];
    destruct (truthy (strip (get_default row "戸の形式" "")));
    destruct (hours_of row) as [|h hs]; cbn [firstn app];
    destruct (truthy (strip (get_default row "備考" "")));
    reflexivity.
Qed.

End Note.

(** C8, as stated, fails: a row whose door-type cell is one space has a
    non-empty door type but no door section in its note, and a row whose
    remarks are padded with spaces gets them trimmed. *)
Lemma note_of_blank_door_type :
  truthy (get_default [("戸の形式", " ")] "戸の形式" "") = true
  /\ CsvToPinFormat.create_facility_note [("戸の形式", " ")] = ""
  /\ spec_note [("戸の形式", " ")] = "扉:  "
  /\ CsvToPinFormat.create_facility_note [("備考", " 工事中 ")] = "備考: 工事中"
  /\ spec_note [("備考", " 工事中 ")] = "備考:  工事中 ".
Proof. repeat split; vm_compute; reflexivity. Qed.

(** C8, amended: the note is the " | "-joined concatenation, in this order, of
    the sections that have data: "設備: " and the ", "-joined labels of the 5
    feature columns whose value is the string "TRUE"; "扉: " and the door type
    trimmed of surrounding white space, if not empty after trimming;
    "営業時間: " and the ", "-joined first three "day: hours" entries of the 8
    days whose trimmed hours are not empty; "備考: " and the trimmed remarks,
    if not empty after trimming.  A section without data is left out, and no
    section is a bare prefix. *)
Theorem facility_note_sections (row : Row) :
  CsvToPinFormat.create_facility_note row = join " | " (note_sections row)
  /\ note_sections row
     = (match features_of row with
        | [] => []
        | _ :: _ => [("設備: " ++ join ", " (features_of row))%string]
        end)
       ++ (match strip (get_default row "戸の形式" "") with
           | EmptyString => []
           | door_type => [("扉: " ++ door_type)%string]
           end)
       ++ (match hours_of row with
           | [] => []
           | _ :: _ =>
               [("営業時間: " ++ join ", " (firstn 3 (hours_of row)))%string]
           end)
       ++ (match strip (get_default row "備考" "") with
           | EmptyString => []
           | special_note => [("備考: " ++ special_note)%string]
           end)
  /\ features_of row
     = map snd
         (filter (fun cl => match get row (fst cl) with
                            | Some v => String.eqb v "TRUE"
                            | None => false
                            end)
            [ ("車椅子が出入りできる（出入口の有効幅員80cm以上）", "車椅子対応");
              ("オストメイト用設備がある", "オストメイト対応");
              ("大型ベッドを備えている", "大型ベッド");
              ("乳幼児用おむつ交換台等を備えている", "おむつ交換台");
              ("乳幼児用椅子を備えている", "乳幼児用椅子") ])
  /\ hours_of row
     = flat_map
         (fun day =>
            match strip (get_default row day "") with
            | EmptyString => []
            | hour => [(day ++ ": " ++ hour)%string]
            end)
         ["月曜日"; "火曜日"; "水曜日"; "木曜日"; "金曜日"; "土曜日"; "日曜日"; "祝日"]
  /\ Forall (fun part =>
               exists prefix data,
                 part = (prefix ++ data)%string
                 /\ In prefix ["設備: "; "扉: "; "営業時間: "; "備考: "]
                 /\ truthy data = true)
            (note_sections row)
  /\ (features_of row = [] ->
      strip (get_default row "戸の形式" "") = "" ->
      hours_of row = [] ->
      strip (get_default row "備考" "") = "" ->
      CsvToPinFormat.create_facility_note row = "").
Proof.
  assert (Hsec : forall prefix data,
             section prefix data
             = match data with
               | EmptyString => []
               | _ => [(prefix ++ data)%string]
               end)
    by (intros prefix data; unfold section; now destruct data).
  assert (Hh3 : Forall (fun p => truthy p = true) (firstn 3 (hours_of row))).
  { pose proof (hours_truthy row) as H. rewrite Forall_forall in H |- *.
    intros x Hx. apply H. now apply firstn_incl in Hx. }
  split; [apply create_facility_note_sections |].
  split.
  { unfold note_sections.
    rewrite (section_join "設備: " ", " _ (features_truthy row)).
    rewrite (section_join "営業時間: " ", " _ Hh3).
    rewrite !Hsec.
    destruct (hours_of row);
      destruct (strip (get_default row "戸の形式" ""));
      destruct (strip (get_default row "備考" "")); reflexivity. }
  split; [reflexivity |].
  split.
  { unfold hours_of. unfold CsvToPinFormat.days. cbv zeta.
    apply flat_map_ext. intros day.
    now destruct (strip (get_default row day "")). }
  split.
  { unfold note_sections. repeat rewrite Forall_app. unfold section.
    repeat split;
      match goal with
      | |- Forall _ (if truthy ?d then _ else _) =>
          destruct (truthy d) eqn:E; constructor; [| constructor];
          eexists; eexists; split; [reflexivity |]; split; [| exact E];
          simpl; tauto
      end. }
  intros Hf Hd Hh Hn. rewrite create_facility_note_sections.
  unfold note_sections. now rewrite Hf, Hd, Hh, Hn.
Qed.

(* ================================================================== *)
(** * The two schema transformers *)
(* ================================================================== *)

Section Transformers.
Import CsvTransformer Spec.



(** The loop of [map_columns] sets 31 distinct target names: it yields them
    in the order of the mapping. *)
Lemma mapped_columns (G : string * string -> Series) :
  fold_left (fun target st => set_column target (snd st) (G st)) column_mapping []
  = map (fun st => (snd st, G st)) column_mapping.
Proof. vm_compute. reflexivity. Qed.

(** The loop of [convert_columns] reaches every boolean column of the target. *)
Lemma converted_columns (G : string * string -> Series) :
  convert_columns (map (fun st => (snd st, G st)) column_mapping)
  = map (fun st =>
           (snd st,
            if existsb (String.eqb (snd st)) boolean_columns
            then apply_convert (G st)
            else G st))
        column_mapping.
Proof. vm_compute. reflexivity. Qed.

(** ** Cells by position *)


Lemma dict_set_fresh {V : Type} (d : list (string * V)) (k : string) (v : V) :
  ~ In k (map fst d) -> dict_set d k v = d ++ [(k, v)].
Proof.
  induction d as [|[k' v'] d IH]; simpl; intros Hk; [reflexivity |].
  destruct (String.eqb_spec k' k) as [-> | Hne]; [tauto |].
  rewrite IH; tauto.
Qed.

(** Under distinct names the dict of a record is the names zipped with it. *)
Lemma dict_zip_combine (names rec : list string) :
  NoDup names -> dict_zip names rec = combine names rec.
Proof.
  unfold dict_zip. intros Hnd.
  assert (H : forall names rec (d : Row),
             NoDup names ->
             (forall k, In k names -> ~ In k (map fst d)) ->
             fold_left (fun d kv => dict_set d (fst kv) (snd kv)) (combine names rec) d
             = d ++ combine names rec).
  { clear. induction names as [|n names IH]; intros rec d Hnd Hd; simpl.
    - now rewrite app_nil_r.
    - destruct rec as [|c rec]; simpl; [now rewrite app_nil_r |].
      inversion Hnd as [|? ? Hn Hnd']; subst.
      rewrite dict_set_fresh by (apply Hd; now left).
      rewrite IH; [now rewrite <- app_assoc | exact Hnd' |].
      intros k Hk. rewrite map_app, in_app_iff. simpl.
      intros [H | [<- | []]]; [apply (Hd k); [now right | exact H] | contradiction]. }
  now rewrite (H names rec [] Hnd) by (intros k _ []).
Qed.







Lemma filter_map_comm {A B : Type} (f : B -> bool) (g : A -> B) (l : list A) :
  filter f (map g l) = map g (filter (fun x => f (g x)) l).
Proof.
  induction l as [|x l IH]; simpl; [reflexivity |].
  destruct (f (g x)); simpl; now rewrite IH.
Qed.

Lemma filter_all {A : Type} (f : A -> bool) (l : list A) :
  Forall (fun x => f x = true) l -> filter f l = l.
Proof.
  induction 1 as [|x l Hx Hl IH]; simpl; [reflexivity |]. now rewrite Hx, IH.
Qed.

Lemma get_map_self (f : string -> string) (l : list string) (n : string) :
  In n l -> get (map (fun c => (c, f c)) l) n = Some (f n).
Proof.
  induction l as [|c l IH]; simpl; [tauto |].
  destruct (String.eqb_spec c n) as [-> | Hne]; [reflexivity |].
  intros [H | H]; [contradiction | now apply IH].
Qed.

(** ** The output of each script over the records of the input *)





Lemma ws_len_blank (c : ascii) (s : string) :
  blank_char c = true -> ws_len whitespace (String c s) = 1.
Proof.
  unfold blank_char. intros H. apply orb_true_iff in H.
  destruct H as [H | H]; apply Ascii.eqb_eq in H; subst c;
    destruct s; reflexivity.
Qed.







(** ** Where the two scripts agree *)






End Transformers.




(* ================================================================== *)
(** * The outputs of the scripts *)
(* ================================================================== *)

Import Layout SplitterOutputs LightweightSpec MainSpec StripSpec.
Import TransformerOutputs Located.

Section Strings.

Lemma append_nil_r (s : string) : (s ++ "")%string = s.
Proof. induction s as [|c s IH]; simpl; [reflexivity | now rewrite IH]. Qed.

Lemma append_assoc (a b c : string) : ((a ++ b) ++ c)%string = (a ++ b ++ c)%string.
Proof. induction a as [|x a IH]; simpl; [reflexivity | now rewrite IH]. Qed.

Lemma length_append (a b : string) :
  String.length (a ++ b) = String.length a + String.length b.
Proof. induction a as [|x a IH]; simpl; [reflexivity | now rewrite IH]. Qed.

Lemma append_inv_head (a b c : string) : (a ++ b)%string = (a ++ c)%string -> b = c.
Proof. induction a as [|x a IH]; simpl; intros H; [exact H | inversion H; auto]. Qed.

Lemma truthy_app_r (a b : string) : truthy b = true -> truthy (a ++ b) = true.
Proof. destruct a; simpl; auto. Qed.

Lemma endswith_app (a b s : string) :
  String.length s <= String.length b -> truthy b = true ->
  endswith (a ++ b) s = endswith b s.
Proof.
  intros Hl Hb. induction a as [|x a IH]; [reflexivity |].
  cbn [append endswith]. rewrite IH.
  replace (String.eqb (String x (a ++ b)) s) with false; [reflexivity |].
  symmetry. apply String.eqb_neq. intros E.
  apply (f_equal String.length) in E. simpl in E. rewrite length_append in E. lia.
Qed.

End Strings.

Section Paths.

Lemma path_join_relative (a b : string) :
  String.prefix "/" b = false -> path_join a b = (dir_prefix a ++ b)%string.
Proof.
  intros H. unfold path_join, dir_prefix. rewrite H.
  destruct (negb (truthy a) || endswith a "/"); [reflexivity |].
  now rewrite append_assoc.
Qed.

(** The directory [d] under [base], as a prefix of the paths below it. *)
Lemma dir_prefix_join (base d : string) :
  String.prefix "/" d = false -> truthy d = true -> endswith d "/" = false ->
  dir_prefix (path_join base d) = (dir_prefix base ++ d ++ "/")%string.
Proof.
  intros Hp Ht He. rewrite (path_join_relative _ _ Hp). unfold dir_prefix at 1.
  rewrite truthy_app_r by exact Ht.
  rewrite endswith_app; [| destruct d; simpl in *; [discriminate | lia] | exact Ht].
  rewrite He. simpl. now rewrite append_assoc.
Qed.

End Paths.

Section Groups.

Lemma group_group_append (groups : list (string * list Row)) (k k' : string)
  (row : Row) :
  group (group_append groups k row) k'
  = group groups k' ++ (if String.eqb k k' then [row] else []).
Proof.
  unfold group. induction groups as [|[k0 rows0] groups IH]; simpl.
  - destruct (String.eqb k k'); reflexivity.
  - destruct (String.eqb_spec k0 k) as [-> | Hne]; simpl.
    + destruct (String.eqb k k'); [reflexivity | now rewrite app_nil_r].
    + destruct (String.eqb_spec k0 k') as [-> | Hne'].
      * destruct (String.eqb_spec k k') as [-> | _]; [contradiction |].
        now rewrite app_nil_r.
      * exact IH.
Qed.

Lemma group_append_fst (groups : list (string * list Row)) (k : string) (row : Row) :
  map fst (group_append groups k row)
  = if existsb (String.eqb k) (map fst groups) then map fst groups
    else map fst groups ++ [k].
Proof.
  induction groups as [|[k0 rows0] groups IH]; simpl; [reflexivity |].
  rewrite (String.eqb_sym k k0).
  destruct (String.eqb_spec k0 k) as [-> | Hne]; simpl; [reflexivity |].
  rewrite IH. now destruct (existsb (String.eqb k) (map fst groups)).
Qed.

Lemma group_append_NoDup (groups : list (string * list Row)) (k : string) (row : Row) :
  NoDup (map fst groups) -> NoDup (map fst (group_append groups k row)).
Proof.
  intros H. rewrite group_append_fst.
  destruct (existsb (String.eqb k) (map fst groups)) eqn:E; [exact H |].
  apply NoDup_app; [exact H | repeat constructor; intros [] | ].
  intros x Hx [Ek | []]. subst x.
  assert (E' : existsb (String.eqb k) (map fst groups) = true)
    by (apply existsb_exists; exists k; split; [exact Hx | apply String.eqb_refl]).
  congruence.
Qed.

Lemma group_append_nonempty (groups : list (string * list Row)) (k : string)
  (row : Row) :
  Forall (fun g => snd g <> []) groups ->
  Forall (fun g => snd g <> []) (group_append groups k row).
Proof.
  induction 1 as [|[k0 rows0] groups H0 H IH]; simpl.
  - repeat constructor. discriminate.
  - destruct (String.eqb k0 k); constructor; simpl in *; auto.
    destruct rows0; discriminate.
Qed.

Lemma group_In (groups : list (string * list Row)) (g : string * list Row) :
  NoDup (map fst groups) -> In g groups -> group groups (fst g) = snd g.
Proof.
  unfold group. induction groups as [|g0 groups IH]; simpl; [tauto |].
  intros Hnd [-> | Hin].
  - now rewrite String.eqb_refl.
  - inversion Hnd as [|? ? Hn Hnd']; subst.
    destruct (String.eqb_spec (fst g0) (fst g)) as [E | _]; [| now apply IH].
    exfalso. apply Hn. rewrite E. now apply in_map.
Qed.

Lemma group_nonempty_In (groups : list (string * list Row)) (k : string) :
  group groups k <> [] -> In (k, group groups k) groups.
Proof.
  unfold group. destruct (find _ groups) as [g |] eqn:E; [| congruence].
  intros _. apply find_some in E. destruct E as [Hin Hk].
  apply String.eqb_eq in Hk. subst k. now destruct g.
Qed.

Section GroupsBy.
Variable key : Row -> string.

Lemma groups_by_group (rows : list Row) :
  forall groups k,
    group (groups_by key rows groups) k
    = group groups k ++ filter (fun row => String.eqb (key row) k) rows.
Proof.
  unfold groups_by.
  induction rows as [|row rows IH]; intros groups k; simpl.
  - now rewrite app_nil_r.
  - rewrite IH, group_group_append, <- app_assoc.
    now destruct (String.eqb (key row) k).
Qed.

Lemma groups_by_NoDup (rows : list Row) :
  forall groups,
    NoDup (map fst groups) -> NoDup (map fst (groups_by key rows groups)).
Proof.
  unfold groups_by.
  induction rows as [|row rows IH]; intros groups H; simpl; [exact H |].
  apply IH, group_append_NoDup, H.
Qed.

Lemma groups_by_nonempty (rows : list Row) :
  forall groups,
    Forall (fun g => snd g <> []) groups ->
    Forall (fun g => snd g <> []) (groups_by key rows groups).
Proof.
  unfold groups_by.
  induction rows as [|row rows IH]; intros groups H; simpl; [exact H |].
  apply IH, group_append_nonempty, H.
Qed.

Lemma groups_by_keys (Q : string -> Prop) (rows : list Row) :
  (forall row, In row rows -> Q (key row)) ->
  forall groups,
    Forall (fun g => Q (fst g)) groups ->
    Forall (fun g => Q (fst g)) (groups_by key rows groups).
Proof.
  unfold groups_by.
  induction rows as [|row rows IH]; intros HQ groups H; simpl; [exact H |].
  apply IH; [intros r Hr; apply HQ; now right |].
  clear IH. specialize (HQ row (or_introl eq_refl)).
  induction H as [|[k0 rows0] groups H0 H IH]; simpl.
  - repeat constructor. exact HQ.
  - destruct (String.eqb k0 k0); destruct (String.eqb k0 (key row));
      constructor; auto.
Qed.

(** The groups built from nothing: one per key that occurs, each with the
    rows of that key in input order. *)
Lemma groups_by_spec (rows : list Row) (g : string * list Row) :
  In g (groups_by key rows []) ->
  snd g = filter (fun row => String.eqb (key row) (fst g)) rows /\ snd g <> [].
Proof.
  intros Hin. split.
  - rewrite <- (group_In _ g (groups_by_NoDup rows [] (NoDup_nil _)) Hin).
    now rewrite groups_by_group.
  - pose proof (groups_by_nonempty rows [] (Forall_nil _)) as H.
    rewrite Forall_forall in H. now apply H.
Qed.

Lemma groups_by_In (rows : list Row) (k : string) :
  filter (fun row => String.eqb (key row) k) rows <> [] ->
  In (k, filter (fun row => String.eqb (key row) k) rows) (groups_by key rows []).
Proof.
  intros Hne.
  pose proof (groups_by_group rows [] k) as E.
  change (group [] k) with (@nil Row) in E. cbn [app] in E.
  rewrite <- E in *. now apply group_nonempty_In.
Qed.

End GroupsBy.
End Groups.

Section WriteAll.

Lemma write_all_Ok (files : list (string * (File * result unit))) :
  Forall (fun x => snd (snd x) = Ok tt) files ->
  forall fs, snd (write_all files fs) = Ok tt.
Proof.
  induction 1 as [|[p [f r]] files Hr H IH]; intros fs; simpl; [reflexivity |].
  simpl in Hr. subst r. apply IH.
Qed.

(** Only the listed paths are written, whatever the outcome. *)
Lemma write_all_other (files : list (string * (File * result unit))) (q : string) :
  ~ In q (map fst files) ->
  forall fs, read_file (fst (write_all files fs)) q = read_file fs q.
Proof.
  induction files as [|[p [f r]] files IH]; intros Hq fs; simpl; [reflexivity |].
  simpl in Hq.
  assert (Hpq : p <> q) by tauto.
  destruct r as [u | e]; simpl.
  - rewrite IH by tauto. now apply read_write_other.
  - now apply read_write_other.
Qed.

Lemma write_all_read (files : list (string * (File * result unit)))
  (p : string) (f : File) (r : result unit) :
  Forall (fun x => snd (snd x) = Ok tt) files ->
  NoDup (map fst files) ->
  In (p, (f, r)) files ->
  forall fs, read_file (fst (write_all files fs)) p = Some f.
Proof.
  induction 1 as [|[p0 [f0 r0]] files Hr H IH]; intros Hnd Hin fs; [destruct Hin |].
  simpl in Hr. subst r0. simpl.
  inversion Hnd as [|? ? Hn Hnd']; subst.
  destruct Hin as [E | Hin].
  - inversion E; subst. rewrite write_all_other by exact Hn.
    apply read_write_same.
  - now apply IH.
Qed.

End WriteAll.

(** ** Files written for the groups of a reading loop *)

Section GroupFiles.
Variable key : Row -> string.
Variable target : string -> option string.
Variable mk : list Row -> File * result unit.
Variable Q : string -> Prop.
Variable rows : list Row.

Hypothesis key_Q : forall row, In row rows -> Q (key row).
Hypothesis target_inj :
  forall k k' p, Q k -> Q k' -> target k = Some p -> target k' = Some p -> k = k'.
Hypothesis mk_Ok :
  forall k, snd (mk (filter (fun row => String.eqb (key row) k) rows)) = Ok tt.

Lemma group_files_In (p : string) (x : File * result unit) :
  In (p, x) (group_files target mk (groups_by key rows [])) <->
  exists k,
    Q k /\ target k = Some p
    /\ filter (fun row => String.eqb (key row) k) rows <> []
    /\ x = mk (filter (fun row => String.eqb (key row) k) rows).
Proof.
  unfold group_files. rewrite in_flat_map. split.
  - intros [g [Hg Hin]].
    destruct (groups_by_spec key rows g Hg) as [Hs Hne].
    assert (HQ : Q (fst g)).
    { pose proof (groups_by_keys key Q rows key_Q [] (Forall_nil _)) as H.
      rewrite Forall_forall in H. now apply H. }
    destruct (target (fst g)) as [p' |] eqn:E; [| destruct Hin].
    destruct Hin as [Hin | []]. inversion Hin; subst.
    exists (fst g). rewrite <- Hs. auto.
  - intros [k [HQ [Ht [Hne ->]]]].
    exists (k, filter (fun row => String.eqb (key row) k) rows).
    split; [now apply groups_by_In |].
    cbn [fst snd]. rewrite Ht. now left.
Qed.

Lemma group_files_NoDup :
  NoDup (map fst (group_files target mk (groups_by key rows []))).
Proof.
  assert (Hnd : NoDup (map fst (groups_by key rows [])))
    by (apply groups_by_NoDup; constructor).
  assert (HQ : Forall (fun g => Q (fst g)) (groups_by key rows []))
    by (apply groups_by_keys; [exact key_Q | constructor]).
  unfold group_files.
  induction (groups_by key rows []) as [|g gs IH]; simpl; [constructor |].
  inversion Hnd as [|? ? Hn Hnd']; subst.
  inversion HQ as [|? ? Hg HQ']; subst.
  destruct (target (fst g)) as [p |] eqn:E; simpl; [| now apply IH].
  constructor; [| now apply IH].
  intros Hin. apply in_map_iff in Hin. destruct Hin as [[p' x] [Hp Hin]].
  simpl in Hp. subst p'. apply in_flat_map in Hin.
  destruct Hin as [g' [Hg' Hin]].
  destruct (target (fst g')) as [p' |] eqn:E'; [| destruct Hin].
  destruct Hin as [Hin | []]. inversion Hin; subst.
  apply Hn. rewrite (target_inj (fst g) (fst g') p); auto.
  - now apply in_map.
  - rewrite Forall_forall in HQ'. now apply HQ'.
Qed.

Lemma group_files_Ok :
  Forall (fun x => snd (snd x) = Ok tt) (group_files target mk (groups_by key rows [])).
Proof.
  apply Forall_forall. intros [p x] Hin. apply group_files_In in Hin.
  destruct Hin as [k [_ [_ [_ ->]]]]. apply mk_Ok.
Qed.

(** Every group is written whole to the path of its key, every other path is
    left as it was. *)
Lemma group_files_written (fs : FS) :
  let out := write_all (group_files target mk (groups_by key rows [])) fs in
  snd out = Ok tt
  /\ (forall k p,
         Q k -> target k = Some p ->
         read_file (fst out) p
         = match filter (fun row => String.eqb (key row) k) rows with
           | [] => read_file fs p
           | _ :: _ => Some (fst (mk (filter (fun row => String.eqb (key row) k) rows)))
           end)
  /\ (forall p,
         (forall k, Q k -> target k <> Some p) ->
         read_file (fst out) p = read_file fs p).
Proof.
  cbv zeta. split; [apply write_all_Ok, group_files_Ok |]. split.
  - intros k p HQ Ht.
    destruct (filter (fun row => String.eqb (key row) k) rows) as [|r rs] eqn:E.
    + apply write_all_other. intros Hin. apply in_map_iff in Hin.
      destruct Hin as [[p' x] [Hp Hin]]. simpl in Hp. subst p'.
      apply group_files_In in Hin. destruct Hin as [k' [HQ' [Ht' [Hne _]]]].
      rewrite (target_inj k k' p HQ HQ' Ht Ht') in E. congruence.
    + rewrite <- E.
      apply (write_all_read _ p
               (fst (mk (filter (fun row => String.eqb (key row) k) rows)))
               (snd (mk (filter (fun row => String.eqb (key row) k) rows))));
        [apply group_files_Ok | apply group_files_NoDup |].
      apply group_files_In. exists k. rewrite <- surjective_pairing.
      repeat split; auto. congruence.
  - intros p Hp. apply write_all_other. intros Hin. apply in_map_iff in Hin.
    destruct Hin as [[p' x] [E Hin]]. simpl in E. subst p'.
    apply group_files_In in Hin. destruct Hin as [k [HQ [Ht _]]].
    exact (Hp k HQ Ht).
Qed.

End GroupFiles.

(** ** Rows of a rectangular file *)

Section Rows.

Lemma get_dict_set (d : Row) (k v k' : string) :
  get (dict_set d k v) k' = if String.eqb k k' then Some v else get d k'.
Proof.
  induction d as [|[k0 v0] d IH]; simpl.
  - reflexivity.
  - destruct (String.eqb_spec k0 k) as [-> | Hne]; simpl.
    + now destruct (String.eqb k k').
    + rewrite IH. destruct (String.eqb_spec k0 k') as [-> | Hne'];
        [| reflexivity].
      now destruct (String.eqb_spec k k') as [-> | _]; [contradiction |].
Qed.

Lemma get_dict_zip_Some (names cells : list string) (k : string) :
  In k names -> length cells = length names ->
  exists v, get (dict_zip names cells) k = Some v.
Proof.
  unfold dict_zip. intros Hk Hl.
  assert (H : forall pairs (d : Row),
             In k (map fst pairs) \/ (exists v, get d k = Some v) ->
             exists v,
               get (fold_left (fun d kv => dict_set d (fst kv) (snd kv)) pairs d) k
               = Some v).
  { induction pairs as [|[k0 v0] pairs IH]; intros d Hd; simpl.
    - destruct Hd as [[] | Hd]. exact Hd.
    - apply IH. rewrite get_dict_set. simpl in Hd.
      destruct (String.eqb_spec k0 k) as [-> | Hne]; [right; eauto |].
      destruct Hd as [[Hd | Hd] | Hd]; [contradiction | now left | now right]. }
  apply H. left.
  clear H. revert cells Hl. induction names as [|n names IH]; intros cells Hl.
  - destruct Hk.
  - destruct cells as [|c cells]; [discriminate |]. simpl.
    destruct Hk as [-> | Hk]; [now left | right].
    apply IH; [exact Hk | now inversion Hl].
Qed.

(** The rows read from a rectangular file have every column of its header. *)
Lemma DictReader_has (names : list string) (recs : list (list string))
  (k : string) :
  In k names -> rectangular names recs ->
  Forall (fun row => exists v, get row k = Some v) (DictReader (names :: recs)).
Proof.
  intros Hk Hrect. cbn [DictReader]. apply Forall_forall. intros row Hrow.
  apply in_map_iff in Hrow. destruct Hrow as [cells [<- Hc]].
  apply filter_In in Hc. destruct Hc as [Hc Hnb].
  unfold rectangular in Hrect. rewrite Forall_forall in Hrect.
  destruct (Hrect cells Hc) as [-> | Hl]; [discriminate |].
  now apply get_dict_zip_Some.
Qed.

Lemma filter_fields_known (names : list string) (recs : list (list string))
  (p : Row -> bool) :
  Forall (fields_known names) (filter p (DictReader (names :: recs))).
Proof.
  apply Forall_forall. intros row Hrow. apply filter_In in Hrow.
  pose proof (DictReader_fields_known names recs) as H.
  rewrite Forall_forall in H. apply H. tauto.
Qed.

End Rows.

(* ================================================================== *)
(** * The files of the ward splitter *)
(* ================================================================== *)

Section WardFiles.
Import SplitCsvByWard.

Lemma ward_files_group_files (headers : list string) (output_dir : string)
  (ward_data : list (string * list Row)) :
  ward_files headers output_dir ward_data
  = group_files (ward_target output_dir) (write_table headers) ward_data.
Proof.
  unfold ward_files, group_files, ward_target.
  induction ward_data as [|[k rows] ward_data IH]; simpl; [reflexivity |].
  destruct (String.eqb k "その他"); simpl; now rewrite IH.
Qed.

Lemma classify_rows_groups_by (rows : list Row) :
  Forall (fun row => exists v, get row "address" = Some v) rows ->
  forall ward_data,
    classify_rows rows ward_data = Ok (groups_by ward_of rows ward_data).
Proof.
  unfold groups_by.
  induction 1 as [|row rows [v Hv] H IH]; intros ward_data; simpl; [reflexivity |].
  unfold item. rewrite Hv. simpl. rewrite IH.
  unfold ward_of, address_of, get_default. now rewrite Hv.
Qed.

Lemma ward_of_key (row : Row) : ward_key (ward_of row).
Proof. apply scan_wards_range. Qed.

Lemma ward_path_relative :
  Forall (fun w => String.prefix "/" (w ++ ".csv") = false) TOKYO_WARDS.
Proof. repeat (constructor; [reflexivity |]). constructor. Qed.

Lemma ward_target_Some (output_dir ward : string) :
  In ward TOKYO_WARDS ->
  ward_target output_dir ward
  = Some (dir_prefix output_dir ++ ward ++ ".csv")%string.
Proof.
  intros Hw. unfold ward_target.
  assert (Hs : Forall (fun w => String.eqb w "その他" = false) TOKYO_WARDS)
    by (repeat (constructor; [reflexivity |]); constructor).
  rewrite Forall_forall in Hs. rewrite (Hs ward Hw).
  pose proof ward_path_relative as Hr. rewrite Forall_forall in Hr.
  now rewrite path_join_relative by (apply Hr, Hw).
Qed.

Lemma append_csv_inj (a b : string) :
  (a ++ ".csv")%string = (b ++ ".csv")%string -> a = b.
Proof.
  revert b. induction a as [|x a IH]; intros [|y b] H; simpl in H.
  - reflexivity.
  - exfalso. apply (f_equal String.length) in H. simpl in H.
    rewrite length_append in H. simpl in H. lia.
  - exfalso. apply (f_equal String.length) in H. simpl in H.
    rewrite length_append in H. simpl in H. lia.
  - inversion H. f_equal. now apply IH.
Qed.

Lemma ward_target_inj (output_dir : string) (k k' p : string) :
  ward_key k -> ward_key k' ->
  ward_target output_dir k = Some p -> ward_target output_dir k' = Some p ->
  k = k'.
Proof.
  intros [Hk | ->] [Hk' | ->]; try (unfold ward_target; simpl; discriminate).
  rewrite (ward_target_Some _ _ Hk), (ward_target_Some _ _ Hk').
  intros E E'. rewrite <- E' in E. inversion E as [E2].
  apply append_inv_head in E2. now apply append_csv_inj.
Qed.

Lemma split_csv_by_ward_written (input_file output_dir : string) (fs : FS)
  (names : list string) (recs : list (list string)) :
  read_file fs input_file = Some (names :: recs) ->
  In "address" names ->
  rectangular names recs ->
  let rows := DictReader (names :: recs) in
  let out := split_csv_by_ward input_file output_dir fs in
  snd out = Ok tt
  /\ (forall ward,
         In ward TOKYO_WARDS ->
         read_file (fst out) (path_join output_dir (ward ++ ".csv"))
         = match rows_in_ward ward rows with
           | [] => read_file fs (path_join output_dir (ward ++ ".csv"))
           | _ :: _ => Some (table names (rows_in_ward ward rows))
           end)
  /\ (forall path,
         (forall ward, In ward TOKYO_WARDS ->
                       path <> path_join output_dir (ward ++ ".csv")) ->
         read_file (fst out) path = read_file fs path).
Proof.
  intros Hread Haddr Hrect rows out.
  assert (Hout : out = write_all
                         (group_files (ward_target output_dir) (write_table names)
                            (groups_by ward_of rows [])) fs).
  { unfold out, split_csv_by_ward. rewrite Hread.
    rewrite classify_rows_groups_by by (now apply DictReader_has).
    cbn [fieldnames hd_error]. rewrite write_wards_write_all.
    now rewrite ward_files_group_files. }
  rewrite Hout.
  assert (Hmk : forall k,
             write_table names (filter (fun row => String.eqb (ward_of row) k) rows)
             = (table names (filter (fun row => String.eqb (ward_of row) k) rows),
                Ok tt))
    by (intros k; apply write_table_known, filter_fields_known).
  destruct (group_files_written ward_of (ward_target output_dir) (write_table names)
              ward_key rows (fun row _ => ward_of_key row)
              (ward_target_inj output_dir)
              (fun k => f_equal snd (Hmk k)) fs) as [HOk [Hw Hframe]].
  split; [exact HOk |]. split.
  - intros ward Hward.
    assert (Ht : ward_target output_dir ward
                 = Some (path_join output_dir (ward ++ ".csv"))).
    { unfold ward_target.
      destruct (String.eqb_spec ward "その他") as [-> | _]; [| reflexivity].
      exfalso. revert Hward. clear.
      intros H. repeat (destruct H as [H | H]; [discriminate H |]). exact H. }
    rewrite (Hw ward _ (or_introl Hward) Ht). unfold rows_in_ward.
    destruct (filter _ rows) eqn:E; [reflexivity |]. rewrite <- E.
    now rewrite Hmk.
  - intros path Hpath. apply Hframe. intros k [Hk | ->].
    + unfold ward_target.
      destruct (String.eqb k "その他"); [discriminate |].
      intros E. inversion E. now apply (Hpath k Hk).
    + unfold ward_target. simpl. discriminate.
Qed.

End WardFiles.

(* ================================================================== *)
(** * The files of the region splitter *)
(* ================================================================== *)

Section AreaFiles.
Import SplitTamaData.

Lemma area_files_group_files (headers : option (list string))
  (base_output_dir : string) (area_data : list (string * list Row)) :
  area_files headers (path_join base_output_dir "tama_cities")
    (path_join base_output_dir "nishi_tama") (path_join base_output_dir "islands")
    area_data
  = group_files (area_target base_output_dir) (write_csv headers) area_data.
Proof.
  unfold area_files, group_files, area_target, area_path.
  induction area_data as [|[k rows] area_data IH]; [reflexivity |].
  cbn [flat_map fst snd]. rewrite IH.
  destruct (String.prefix "tama_city:" k); [reflexivity |].
  destruct (String.prefix "nishi_tama:" k); [reflexivity |].
  destruct (String.prefix "island:" k); reflexivity.
Qed.

Lemma analyze_rows_groups_by (rows : list Row) :
  Forall (fun row => exists v, get row "address" = Some v) rows ->
  forall area_data,
    analyze_rows rows area_data
    = Ok (groups_by area_key_of (outside_wards rows) area_data).
Proof.
  unfold groups_by, outside_wards.
  induction 1 as [|row rows [v Hv] H IH]; intros area_data; [reflexivity |].
  cbn [analyze_rows filter]. unfold item. rewrite Hv. cbn [bind].
  assert (E : area_of row = extract_area_from_address v)
    by (unfold area_of, address_of, get_default; now rewrite Hv).
  assert (K : area_key_of row
              = (fst (extract_area_from_address v) ++ ":"
                 ++ snd (extract_area_from_address v))%string)
    by (unfold area_key_of; now rewrite E).
  rewrite E.
  destruct (extract_area_from_address v) as [area_type area_name].
  cbn [fst snd] in *. rewrite IH.
  destruct (String.eqb area_type "23ku"); cbn [negb fold_left];
    [reflexivity | now rewrite K].
Qed.

Lemma extract_area_listed (address : string) :
  let area := extract_area_from_address address in
  (fst area = "23ku" /\ In (snd area) WARDS_23)
  \/ area = ("other", "その他")
  \/ exists dir areas,
       In (fst area, dir, areas) area_dirs /\ In (snd area) areas.
Proof.
  cbv zeta. unfold extract_area_from_address.
  destruct (scan_area "23ku" WARDS_23 address) as [r |] eqn:E1.
  { apply scan_area_Some in E1. left. tauto. }
  destruct (scan_area "tama_city" TAMA_CITIES address) as [r |] eqn:E2.
  { apply scan_area_Some in E2. destruct E2 as [E2 [Hin _]].
    right. right. exists "tama_cities", TAMA_CITIES. rewrite E2.
    split; [now left | exact Hin]. }
  destruct (scan_area "nishi_tama" NISHI_TAMA_GUN address) as [r |] eqn:E3.
  { apply scan_area_Some in E3. destruct E3 as [E3 [Hin _]].
    right. right. exists "nishi_tama", NISHI_TAMA_GUN. rewrite E3.
    split; [right; now left | exact Hin]. }
  destruct (scan_area "island" ISLAND_AREAS address) as [r |] eqn:E4.
  { apply scan_area_Some in E4. destruct E4 as [E4 [Hin _]].
    right. right. exists "islands", ISLAND_AREAS. rewrite E4.
    split; [right; right; now left | exact Hin]. }
  right. now left.
Qed.

Lemma area_key_of_listed (rows : list Row) (row : Row) :
  In row (outside_wards rows) -> listed_area (area_key_of row).
Proof.
  unfold outside_wards. intros Hin. apply filter_In in Hin.
  destruct Hin as [_ Hne]. unfold area_key_of.
  destruct (extract_area_listed (address_of row)) as [[E _] | [E | [dir [areas H]]]];
    fold (area_of row) in *.
  - rewrite E in Hne. discriminate.
  - left. now rewrite E.
  - right. exists (fst (area_of row)), dir, areas, (snd (area_of row)). tauto.
Qed.

Lemma area_names_relative :
  forall category dir areas name,
    In (category, dir, areas) area_dirs -> In name areas ->
    String.prefix "/" (name ++ ".csv") = false.
Proof.
  assert (H : Forall (fun x => Forall (fun n => String.prefix "/" (n ++ ".csv") = false)
                                  (snd x)) area_dirs).
  { repeat (constructor;
            [cbn [snd]; repeat (constructor; [reflexivity |]); constructor |]).
    constructor. }
  intros category dir areas name Hin Hn. rewrite Forall_forall in H.
  specialize (H _ Hin). cbn [snd] in H. rewrite Forall_forall in H. now apply H.
Qed.

(** The path of an area: the base directory, the category's directory, the
    name. *)
Lemma area_path_plain (base_output_dir category dir : string)
  (areas : list string) (name : string) :
  In (category, dir, areas) area_dirs -> In name areas ->
  area_path base_output_dir dir name
  = (dir_prefix base_output_dir ++ dir ++ "/" ++ name ++ ".csv")%string.
Proof.
  intros Hin Hn. unfold area_path.
  rewrite path_join_relative by (eapply area_names_relative; eauto).
  assert (Hd : String.prefix "/" dir = false /\ truthy dir = true
               /\ endswith dir "/" = false).
  { destruct Hin as [E | [E | [E | []]]]; inversion E; subst; repeat split. }
  destruct Hd as [H1 [H2 H3]].
  rewrite dir_prefix_join by assumption. now rewrite !append_assoc.
Qed.

Lemma area_target_listed (base_output_dir category dir : string)
  (areas : list string) (name : string) :
  In (category, dir, areas) area_dirs ->
  area_target base_output_dir (category ++ ":" ++ name)
  = Some (area_path base_output_dir dir name).
Proof.
  intros [E | [E | [E | []]]]; inversion E; subst;
    unfold area_target; simpl; destruct name; reflexivity.
Qed.

Lemma area_target_Some (base_output_dir key path : string) :
  listed_area key -> area_target base_output_dir key = Some path ->
  exists category dir areas name,
    In (category, dir, areas) area_dirs /\ In name areas
    /\ key = (category ++ ":" ++ name)%string
    /\ path = area_path base_output_dir dir name.
Proof.
  intros [-> | [category [dir [areas [name [Hin [Hn ->]]]]]]] Ht.
  - discriminate Ht.
  - rewrite (area_target_listed _ _ _ _ _ Hin) in Ht. inversion Ht.
    exists category, dir, areas, name. auto.
Qed.

Lemma area_dirs_In (category dir : string) (areas : list string) :
  In (category, dir, areas) area_dirs ->
  In category ["tama_city"; "nishi_tama"; "island"; "other"].
Proof.
  intros [E | [E | [E | []]]]; inversion E; subst; simpl; tauto.
Qed.

Lemma area_path_inj (base_output_dir : string)
  (category dir : string) (areas : list string) (name : string)
  (category' dir' : string) (areas' : list string) (name' : string) :
  In (category, dir, areas) area_dirs -> In name areas ->
  In (category', dir', areas') area_dirs -> In name' areas' ->
  area_path base_output_dir dir name = area_path base_output_dir dir' name' ->
  category = category' /\ name = name'.
Proof.
  intros Hin Hn Hin' Hn'.
  rewrite (area_path_plain _ _ _ _ _ Hin Hn), (area_path_plain _ _ _ _ _ Hin' Hn').
  intros E. apply append_inv_head in E.
  destruct Hin as [H | [H | [H | []]]]; inversion H; subst; clear H;
    destruct Hin' as [H | [H | [H | []]]]; inversion H; subst; clear H;
    try discriminate E;
    (split; [reflexivity |]);
    match type of E with
    | (?d ++ _)%string = _ =>
        apply (append_inv_head (d ++ "/")) in E
    end; now apply append_csv_inj.
Qed.

Lemma area_target_inj (base_output_dir : string) (k k' p : string) :
  listed_area k -> listed_area k' ->
  area_target base_output_dir k = Some p ->
  area_target base_output_dir k' = Some p ->
  k = k'.
Proof.
  intros Hk Hk' Ht Ht'.
  destruct (area_target_Some _ _ _ Hk Ht)
    as [c [d [a [n [Hin [Hn [-> Hp]]]]]]].
  destruct (area_target_Some _ _ _ Hk' Ht')
    as [c' [d' [a' [n' [Hin' [Hn' [-> Hp']]]]]]].
  rewrite Hp in Hp'.
  destruct (area_path_inj _ _ _ _ _ _ _ _ _ Hin Hn Hin' Hn' Hp') as [-> ->].
  reflexivity.
Qed.

(** The group of a key is the rows of the area it names. *)
Lemma rows_of_area_key (category dir : string) (areas : list string)
  (name : string) (rows : list Row) :
  In (category, dir, areas) area_dirs ->
  filter (fun row => String.eqb (area_key_of row) (category ++ ":" ++ name))
    (outside_wards rows)
  = rows_in_area category name rows.
Proof.
  intros Hin. unfold outside_wards, rows_in_area.
  induction rows as [|row rows IH]; [reflexivity |]. cbn [filter].
  assert (Hc : In (fst (area_of row))
                 ["23ku"; "tama_city"; "nishi_tama"; "island"; "other"])
    by apply extract_area_category.
  assert (Hkey : String.eqb (area_key_of row) (category ++ ":" ++ name)
                 = String.eqb (fst (area_of row)) category
                   && String.eqb (snd (area_of row)) name).
  { unfold area_key_of.
    destruct (String.eqb_spec (fst (area_of row)) category) as [E1 | N1];
      destruct (String.eqb_spec (snd (area_of row)) name) as [E2 | N2]; cbn [andb].
    - rewrite E1, E2. apply String.eqb_refl.
    - apply String.eqb_neq. intros E.
      symmetry in E. apply area_key_inj in E;
        [destruct E; congruence | eapply area_dirs_In; eauto | exact Hc].
    - apply String.eqb_neq. intros E.
      symmetry in E. apply area_key_inj in E;
        [destruct E; congruence | eapply area_dirs_In; eauto | exact Hc].
    - apply String.eqb_neq. intros E.
      symmetry in E. apply area_key_inj in E;
        [destruct E; congruence | eapply area_dirs_In; eauto | exact Hc]. }
  destruct (String.eqb_spec (fst (area_of row)) "23ku") as [E23 | N23]; cbn [negb].
  - rewrite IH.
    replace (String.eqb (fst (area_of row)) category) with false; [reflexivity |].
    symmetry. apply String.eqb_neq. rewrite E23. intros <-.
    destruct Hin as [H | [H | [H | []]]]; inversion H.
  - cbn [filter]. rewrite Hkey, IH. reflexivity.
Qed.

Lemma split_tama_data_written (input_file base_output_dir : string) (fs : FS)
  (names : list string) (recs : list (list string)) :
  read_file fs input_file = Some (names :: recs) ->
  In "address" names ->
  rectangular names recs ->
  let rows := DictReader (names :: recs) in
  let out := split_tama_data input_file base_output_dir fs in
  snd out = Ok tt
  /\ (forall category dir areas name,
         In (category, dir, areas) area_dirs -> In name areas ->
         read_file (fst out) (area_path base_output_dir dir name)
         = match rows_in_area category name rows with
           | [] => read_file fs (area_path base_output_dir dir name)
           | _ :: _ => Some (table names (rows_in_area category name rows))
           end)
  /\ (forall path,
         (forall category dir areas name,
             In (category, dir, areas) area_dirs -> In name areas ->
             path <> area_path base_output_dir dir name) ->
         read_file (fst out) path = read_file fs path).
Proof.
  intros Hread Haddr Hrect rows out.
  assert (Hhas : Forall (fun row => exists v, get row "address" = Some v) rows)
    by (now apply DictReader_has).
  assert (Hout : out = write_all
                         (group_files (area_target base_output_dir)
                            (write_csv (Some names))
                            (groups_by area_key_of (outside_wards rows) [])) fs).
  { unfold out, split_tama_data, analyze_tama_data. rewrite Hread.
    fold rows. rewrite (analyze_rows_groups_by rows Hhas). cbn [bind fieldnames hd_error].
    rewrite write_areas_write_all.
    - now rewrite area_files_group_files.
    - pose proof (analyze_rows_groups rows [] _ (Forall_nil _)
                    (analyze_rows_groups_by rows Hhas [])) as Hg.
      eapply Forall_impl; [| exact Hg]. intros g [Hk _]. exact Hk. }
  rewrite Hout.
  assert (Hmk : forall k,
             write_csv (Some names)
               (filter (fun row => String.eqb (area_key_of row) k) (outside_wards rows))
             = (table names
                  (filter (fun row => String.eqb (area_key_of row) k)
                     (outside_wards rows)),
                Ok tt)).
  { intros k. cbn [write_csv]. apply write_table_known.
    apply Forall_forall. intros row Hrow. apply filter_In in Hrow.
    destruct Hrow as [Hrow _]. unfold outside_wards in Hrow.
    apply filter_In in Hrow. destruct Hrow as [Hrow _].
    pose proof (DictReader_fields_known names recs) as H.
    rewrite Forall_forall in H. now apply H. }
  destruct (group_files_written area_key_of (area_target base_output_dir)
              (write_csv (Some names)) listed_area (outside_wards rows)
              (area_key_of_listed rows)
              (area_target_inj base_output_dir)
              (fun k => f_equal snd (Hmk k)) fs) as [HOk [Hw Hframe]].
  split; [exact HOk |]. split.
  - intros category dir areas name Hin Hn.
    assert (HQ : listed_area (category ++ ":" ++ name))
      by (right; exists category, dir, areas, name; auto).
    rewrite (Hw _ _ HQ (area_target_listed _ _ _ _ name Hin)).
    rewrite (rows_of_area_key _ _ _ name rows Hin) in *.
    destruct (rows_in_area category name rows) eqn:E; [reflexivity |].
    rewrite <- E. pose proof (Hmk (category ++ ":" ++ name)%string) as Hm.
    rewrite (rows_of_area_key _ _ _ name rows Hin) in Hm. now rewrite Hm.
  - intros path Hpath. apply Hframe. intros k HQ Ht.
    destruct (area_target_Some _ _ _ HQ Ht) as [c [d [a [n [Hin [Hn [_ Hp]]]]]]].
    exact (Hpath c d a n Hin Hn Hp).
Qed.

End AreaFiles.

Section RegionMain.
Import SplitTamaData.

Lemma integrated_paths (path : string) (files : list File)
  (headers : option (list string)) :
  incl (map fst (integrated path files headers)) [path].
Proof.
  unfold integrated. destruct (rows_of files); [intros x [] |].
  destruct (headers_truthy headers); [| intros x []].
  intros x [<- | []]. now left.
Qed.

(** The integration step writes under [data/lightweight] only. *)
Lemma create_tama_integrated_files_frame (fs : FS) (path : string) :
  ~ In path [ "data/lightweight/tama_major_cities.csv";
              "data/lightweight/islands_integrated.csv";
              "data/lightweight/nishi_tama_integrated.csv" ] ->
  read_file (fst (create_tama_integrated_files "data" fs)) path = read_file fs path.
Proof.
  intros Hp. rewrite create_tama_integrated_files_spec. cbv zeta.
  apply write_all_other. intros Hin. apply Hp.
  rewrite !map_app, !in_app_iff in Hin.
  destruct Hin as [H | [H | H]]; apply integrated_paths in H;
    destruct H as [<- | []]; simpl; tauto.
Qed.

Lemma area_path_data (category dir : string) (areas : list string) (name : string) :
  In (category, dir, areas) area_dirs -> In name areas ->
  area_path "data" dir name = ("data/" ++ dir ++ "/" ++ name ++ ".csv")%string.
Proof. intros Hin Hn. now rewrite (area_path_plain _ _ _ _ _ Hin Hn). Qed.

Lemma area_path_data_fresh (category dir : string) (areas : list string)
  (name : string) :
  In (category, dir, areas) area_dirs -> In name areas ->
  ~ In (area_path "data" dir name)
      [ "data/barrier_free_toilets.csv";
        "data/station_barrier_free_toilets.csv";
        "data/lightweight/tama_major_cities.csv";
        "data/lightweight/islands_integrated.csv";
        "data/lightweight/nishi_tama_integrated.csv" ].
Proof.
  intros Hin Hn. rewrite (area_path_data _ _ _ _ Hin Hn).
  destruct Hin as [E | [E | [E | []]]]; inversion E; subst; simpl;
    intuition discriminate.
Qed.

Lemma main_after_splits (fs : FS) :
  snd (split_tama_data "data/barrier_free_toilets.csv" "data" fs) = Ok tt ->
  let fs1 := fst (split_tama_data "data/barrier_free_toilets.csv" "data" fs) in
  snd (split_tama_data "data/station_barrier_free_toilets.csv" "data" fs1) = Ok tt ->
  let fs2 := fst (split_tama_data "data/station_barrier_free_toilets.csv" "data" fs1) in
  main fs = create_tama_integrated_files "data" fs2.
Proof.
  cbv zeta. unfold main.
  destruct (split_tama_data "data/barrier_free_toilets.csv" "data" fs)
    as [fs1 r1]. cbn [fst snd]. intros ->.
  destruct (split_tama_data "data/station_barrier_free_toilets.csv" "data" fs1)
    as [fs2 r2]. cbn [fst snd]. now intros ->.
Qed.

End RegionMain.

(** X1: in [main] both inputs are split under the same directory [data]: where a
    written area has station rows, its file holds the station rows alone, the
    public rows of that area having been written first and then replaced;
    an area without station rows keeps the public rows. *)
Theorem region_splitter_station_replaces_public (fs : FS)
  (public_names : list string) (public_recs : list (list string))
  (station_names : list string) (station_recs : list (list string)) :
  read_file fs "data/barrier_free_toilets.csv" = Some (public_names :: public_recs) ->
  read_file fs "data/station_barrier_free_toilets.csv"
  = Some (station_names :: station_recs) ->
  In "address" public_names -> rectangular public_names public_recs ->
  In "address" station_names -> rectangular station_names station_recs ->
  forall category dir areas name,
    In (category, dir, areas) area_dirs -> In name areas ->
    read_file (fst (SplitTamaData.main fs)) (area_path "data" dir name)
    = match rows_in_area category name (DictReader (station_names :: station_recs)),
            rows_in_area category name (DictReader (public_names :: public_recs))
      with
      | _ :: _, _ =>
          Some (table station_names
                  (rows_in_area category name
                     (DictReader (station_names :: station_recs))))
      | [], _ :: _ =>
          Some (table public_names
                  (rows_in_area category name
                     (DictReader (public_names :: public_recs))))
      | [], [] => read_file fs (area_path "data" dir name)
      end.
Proof.
  intros Hp Hs Hpa Hpr Hsa Hsr category dir areas name Hin Hn.
  destruct (split_tama_data_written "data/barrier_free_toilets.csv" "data" fs
              _ _ Hp Hpa Hpr) as [HOk1 [Hw1 Hf1]].
  set (fs1 := fst (SplitTamaData.split_tama_data "data/barrier_free_toilets.csv"
                     "data" fs)) in *.
  assert (Hs1 : read_file fs1 "data/station_barrier_free_toilets.csv"
                = Some (station_names :: station_recs)).
  { rewrite Hf1; [exact Hs |]. intros c d a n Hc Ha E.
    apply (area_path_data_fresh c d a n Hc Ha). rewrite <- E. simpl. tauto. }
  destruct (split_tama_data_written "data/station_barrier_free_toilets.csv" "data"
              fs1 _ _ Hs1 Hsa Hsr) as [HOk2 [Hw2 Hf2]].
  rewrite (main_after_splits fs HOk1 HOk2). fold fs1.
  rewrite create_tama_integrated_files_frame
    by (intros H; apply (area_path_data_fresh _ _ _ _ Hin Hn); simpl in *; tauto).
  rewrite (Hw2 _ _ _ _ Hin Hn).
  destruct (rows_in_area category name (DictReader (station_names :: station_recs)));
    [| reflexivity].
  rewrite (Hw1 _ _ _ _ Hin Hn).
  now destruct (rows_in_area category name (DictReader (public_names :: public_recs))).
Qed.

(** The city hall of Hachioji is written first and then replaced by the
    station of the same city. *)
Lemma region_splitter_station_replaces_public_witness :
  read_file (fst (SplitTamaData.main SplitterExamples.fs_city))
    "data/tama_cities/八王子市.csv"
  = Some [SplitterExamples.header; SplitterExamples.station].
Proof.
  refine (region_splitter_station_replaces_public SplitterExamples.fs_city
            SplitterExamples.header
            [SplitterExamples.city_hall; SplitterExamples.ward_office]
            SplitterExamples.header [SplitterExamples.station]
            eq_refl eq_refl _ _ _ _
            "tama_city" "tama_cities" SplitTamaData.TAMA_CITIES "八王子市" _ _).
  - simpl. tauto.
  - repeat (constructor; [right; reflexivity |]). constructor.
  - simpl. tauto.
  - repeat (constructor; [right; reflexivity |]). constructor.
  - left. reflexivity.
  - left. reflexivity.
Defined.

(** X2: the ward splitter writes, for every ward that occurs, a file with the
    header of the input and exactly the rows of that ward in input order;
    a ward that does not occur gets no file, and no other path is touched. *)
Theorem ward_splitter_writes_each_ward (input_file output_dir : string) (fs : FS)
  (names : list string) (recs : list (list string)) :
  read_file fs input_file = Some (names :: recs) ->
  In "address" names ->
  rectangular names recs ->
  let rows := DictReader (names :: recs) in
  let out := SplitCsvByWard.split_csv_by_ward input_file output_dir fs in
  snd out = Ok tt
  /\ (forall ward,
         In ward SplitCsvByWard.TOKYO_WARDS ->
         read_file (fst out) (path_join output_dir (ward ++ ".csv"))
         = match rows_in_ward ward rows with
           | [] => read_file fs (path_join output_dir (ward ++ ".csv"))
           | _ :: _ => Some (table names (rows_in_ward ward rows))
           end)
  /\ (forall path,
         (forall ward, In ward SplitCsvByWard.TOKYO_WARDS ->
                       path <> path_join output_dir (ward ++ ".csv")) ->
         read_file (fst out) path = read_file fs path).
Proof. exact (split_csv_by_ward_written input_file output_dir fs names recs). Qed.

Lemma ward_splitter_writes_each_ward_witness :
  let out :=
    SplitCsvByWard.split_csv_by_ward "data/barrier_free_toilets.csv" "data/wards"
      SplitterExamples.fs_city in
  snd out = Ok tt
  /\ (forall ward,
         In ward SplitCsvByWard.TOKYO_WARDS ->
         read_file (fst out) (path_join "data/wards" (ward ++ ".csv"))
         = match rows_in_ward ward
                   (DictReader [SplitterExamples.header; SplitterExamples.city_hall;
                                SplitterExamples.ward_office]) with
           | [] => read_file SplitterExamples.fs_city
                     (path_join "data/wards" (ward ++ ".csv"))
           | _ :: _ =>
               Some (table SplitterExamples.header
                       (rows_in_ward ward
                          (DictReader [SplitterExamples.header;
                                       SplitterExamples.city_hall;
                                       SplitterExamples.ward_office])))
           end)
  /\ (forall path,
         (forall ward, In ward SplitCsvByWard.TOKYO_WARDS ->
                       path <> path_join "data/wards" (ward ++ ".csv")) ->
         read_file (fst out) path = read_file SplitterExamples.fs_city path).
Proof.
  apply (ward_splitter_writes_each_ward "data/barrier_free_toilets.csv" "data/wards"
           SplitterExamples.fs_city SplitterExamples.header
           [SplitterExamples.city_hall; SplitterExamples.ward_office]).
  - reflexivity.
  - simpl. tauto.
  - repeat (constructor; [right; reflexivity |]). constructor.
Defined.

Section WardMain.
Import SplitCsvByWard.

Lemma ward_path_plain (output_dir ward : string) :
  In ward TOKYO_WARDS ->
  path_join output_dir (ward ++ ".csv")
  = (dir_prefix output_dir ++ ward ++ ".csv")%string.
Proof.
  intros Hw. pose proof ward_path_relative as Hr. rewrite Forall_forall in Hr.
  now rewrite path_join_relative by (apply Hr, Hw).
Qed.

Lemma main_after_split (fs : FS) :
  snd (split_csv_by_ward "data/barrier_free_toilets.csv" "data/wards" fs) = Ok tt ->
  main fs
  = split_csv_by_ward "data/station_barrier_free_toilets.csv" "data/station_wards"
      (fst (split_csv_by_ward "data/barrier_free_toilets.csv" "data/wards" fs)).
Proof.
  unfold main.
  destruct (split_csv_by_ward "data/barrier_free_toilets.csv" "data/wards" fs)
    as [fs1 r1]. cbn [fst snd]. now intros ->.
Qed.

End WardMain.

(** X3: [main] of the ward splitter keeps the two inputs apart: after it, the
    file of a ward under [data/wards] holds the public rows of that ward and
    the file under [data/station_wards] the station rows, neither replacing
    the other. *)
Theorem ward_splitter_main_keeps_inputs_apart (fs : FS)
  (public_names : list string) (public_recs : list (list string))
  (station_names : list string) (station_recs : list (list string)) :
  read_file fs "data/barrier_free_toilets.csv" = Some (public_names :: public_recs) ->
  read_file fs "data/station_barrier_free_toilets.csv"
  = Some (station_names :: station_recs) ->
  In "address" public_names -> rectangular public_names public_recs ->
  In "address" station_names -> rectangular station_names station_recs ->
  let out := SplitCsvByWard.main fs in
  snd out = Ok tt
  /\ forall ward,
      In ward SplitCsvByWard.TOKYO_WARDS ->
      read_file (fst out) ("data/wards/" ++ ward ++ ".csv")
      = match rows_in_ward ward (DictReader (public_names :: public_recs)) with
        | [] => read_file fs ("data/wards/" ++ ward ++ ".csv")
        | _ :: _ =>
            Some (table public_names
                    (rows_in_ward ward (DictReader (public_names :: public_recs))))
        end
      /\ read_file (fst out) ("data/station_wards/" ++ ward ++ ".csv")
         = match rows_in_ward ward (DictReader (station_names :: station_recs)) with
           | [] => read_file fs ("data/station_wards/" ++ ward ++ ".csv")
           | _ :: _ =>
               Some (table station_names
                       (rows_in_ward ward
                          (DictReader (station_names :: station_recs))))
           end.
Proof.
  intros Hp Hs Hpa Hpr Hsa Hsr out.
  destruct (split_csv_by_ward_written "data/barrier_free_toilets.csv" "data/wards" fs
              _ _ Hp Hpa Hpr) as [HOk1 [Hw1 Hf1]].
  set (fs1 := fst (SplitCsvByWard.split_csv_by_ward "data/barrier_free_toilets.csv"
                     "data/wards" fs)) in *.
  assert (Hs1 : read_file fs1 "data/station_barrier_free_toilets.csv"
                = Some (station_names :: station_recs)).
  { rewrite Hf1; [exact Hs |]. intros w Hw. rewrite (ward_path_plain _ _ Hw).
    simpl. discriminate. }
  destruct (split_csv_by_ward_written "data/station_barrier_free_toilets.csv"
              "data/station_wards" fs1 _ _ Hs1 Hsa Hsr) as [HOk2 [Hw2 Hf2]].
  unfold out. rewrite (main_after_split fs HOk1). fold fs1.
  split; [exact HOk2 |]. intros ward Hward. split.
  - rewrite Hf2.
    + specialize (Hw1 ward Hward). rewrite (ward_path_plain _ _ Hward) in Hw1.
      exact Hw1.
    + intros w Hw. rewrite (ward_path_plain _ _ Hw). simpl. discriminate.
  - specialize (Hw2 ward Hward). rewrite (ward_path_plain _ _ Hward) in Hw2.
    change (dir_prefix "data/station_wards") with "data/station_wards/" in Hw2.
    rewrite Hw2.
    destruct (rows_in_ward ward (DictReader (station_names :: station_recs)));
      [| reflexivity].
    apply Hf1. intros w Hw. rewrite (ward_path_plain _ _ Hw). simpl. discriminate.
Qed.

Lemma ward_splitter_main_keeps_inputs_apart_witness :
  snd (SplitCsvByWard.main SplitterExamples.fs_city) = Ok tt
  /\ forall ward,
      In ward SplitCsvByWard.TOKYO_WARDS ->
      read_file (fst (SplitCsvByWard.main SplitterExamples.fs_city))
        ("data/wards/" ++ ward ++ ".csv")
      = match rows_in_ward ward
                (DictReader [SplitterExamples.header; SplitterExamples.city_hall;
                             SplitterExamples.ward_office]) with
        | [] => read_file SplitterExamples.fs_city ("data/wards/" ++ ward ++ ".csv")
        | _ :: _ =>
            Some (table SplitterExamples.header
                    (rows_in_ward ward
                       (DictReader [SplitterExamples.header;
                                    SplitterExamples.city_hall;
                                    SplitterExamples.ward_office])))
        end
      /\ read_file (fst (SplitCsvByWard.main SplitterExamples.fs_city))
           ("data/station_wards/" ++ ward ++ ".csv")
         = match rows_in_ward ward
                   (DictReader [SplitterExamples.header; SplitterExamples.station])
           with
           | [] => read_file SplitterExamples.fs_city
                     ("data/station_wards/" ++ ward ++ ".csv")
           | _ :: _ =>
               Some (table SplitterExamples.header
                       (rows_in_ward ward
                          (DictReader [SplitterExamples.header;
                                       SplitterExamples.station])))
           end.
Proof.
  apply (ward_splitter_main_keeps_inputs_apart SplitterExamples.fs_city
           SplitterExamples.header
           [SplitterExamples.city_hall; SplitterExamples.ward_office]
           SplitterExamples.header [SplitterExamples.station]).
  - reflexivity.
  - reflexivity.
  - simpl. tauto.
  - repeat (constructor; [right; reflexivity |]). constructor.
  - simpl. tauto.
  - repeat (constructor; [right; reflexivity |]). constructor.
Defined.

(** X4: the region splitter writes, for every Tama city, Nishitama town and
    island that occurs, a file under the directory of its category with the
    header of the input and exactly the rows of that area in input order; an
    area that does not occur gets no file, and no other path is touched. *)
Theorem region_splitter_writes_each_area (input_file base_output_dir : string)
  (fs : FS) (names : list string) (recs : list (list string)) :
  read_file fs input_file = Some (names :: recs) ->
  In "address" names ->
  rectangular names recs ->
  let rows := DictReader (names :: recs) in
  let out := SplitTamaData.split_tama_data input_file base_output_dir fs in
  snd out = Ok tt
  /\ (forall category dir areas name,
         In (category, dir, areas) area_dirs -> In name areas ->
         read_file (fst out) (area_path base_output_dir dir name)
         = match rows_in_area category name rows with
           | [] => read_file fs (area_path base_output_dir dir name)
           | _ :: _ => Some (table names (rows_in_area category name rows))
           end)
  /\ (forall path,
         (forall category dir areas name,
             In (category, dir, areas) area_dirs -> In name areas ->
             path <> area_path base_output_dir dir name) ->
         read_file (fst out) path = read_file fs path).
Proof. exact (split_tama_data_written input_file base_output_dir fs names recs). Qed.

Lemma region_splitter_writes_each_area_witness :
  let rows :=
    DictReader [SplitterExamples.header; SplitterExamples.city_hall;
                SplitterExamples.ward_office] in
  let out :=
    SplitTamaData.split_tama_data "data/barrier_free_toilets.csv" "data"
      SplitterExamples.fs_city in
  snd out = Ok tt
  /\ (forall category dir areas name,
         In (category, dir, areas) area_dirs -> In name areas ->
         read_file (fst out) (area_path "data" dir name)
         = match rows_in_area category name rows with
           | [] => read_file SplitterExamples.fs_city (area_path "data" dir name)
           | _ :: _ =>
               Some (table SplitterExamples.header (rows_in_area category name rows))
           end)
  /\ (forall path,
         (forall category dir areas name,
             In (category, dir, areas) area_dirs -> In name areas ->
             path <> area_path "data" dir name) ->
         read_file (fst out) path = read_file SplitterExamples.fs_city path).
Proof.
  apply (region_splitter_writes_each_area "data/barrier_free_toilets.csv" "data"
           SplitterExamples.fs_city SplitterExamples.header
           [SplitterExamples.city_hall; SplitterExamples.ward_office]).
  - reflexivity.
  - simpl. tauto.
  - repeat (constructor; [right; reflexivity |]). constructor.
Defined.

Section Classifiers.
Import SplitCsvByWard SplitTamaData.

Lemma scan_area_scan_wards (wards : list string) (address : string) :
  match scan_area "23ku" wards address with
  | Some r => r = ("23ku", scan_wards wards address) /\ In (snd r) wards
  | None => scan_wards wards address = "その他"
  end.
Proof.
  induction wards as [|w wards IH]; simpl; [reflexivity |].
  destruct (py_in w address); [split; [reflexivity | now left] |].
  destruct (scan_area "23ku" wards address); [| exact IH].
  destruct IH as [-> H]. split; [reflexivity | now right].
Qed.

Lemma split_colon_app (a b : string) :
  py_in ":" a = false -> split_colon (a ++ ":" ++ b) = Ok (a, b).
Proof.
  induction a as [|c a IH]; intros H; [reflexivity |].
  cbn [py_in] in H. apply orb_false_iff in H. destruct H as [Hp Hin].
  cbn [append split_colon].
  destruct (Ascii.eqb_spec c ":") as [-> | Hne].
  - exfalso. revert Hp. clear. destruct a; discriminate.
  - specialize (IH Hin). cbn [append] in IH. now rewrite IH.
Qed.

Lemma split_colon_none (key : string) :
  py_in ":" key = false ->
  split_colon key = Raise (ValueError "not enough values to unpack (expected 2, got 1)").
Proof.
  induction key as [|c key IH]; intros H; [reflexivity |].
  cbn [py_in] in H. apply orb_false_iff in H. destruct H as [Hp Hin].
  cbn [split_colon].
  destruct (Ascii.eqb_spec c ":") as [-> | Hne].
  - exfalso. revert Hp. clear. destruct key; discriminate.
  - now rewrite (IH Hin).
Qed.

End Classifiers.

(** X5: the two splitters divide the addresses between them: an address with
    a ward name is filed by the ward splitter under the very ward the region
    splitter skips it for; an address without one is left out by the ward
    splitter and either filed by the region splitter under a Tama city, a
    Nishitama town or an island, or left out by both. *)
Theorem splitters_divide_addresses (address : string) :
  let ward := SplitCsvByWard.extract_ward_from_address address in
  let area := SplitTamaData.extract_area_from_address address in
  (In ward SplitCsvByWard.TOKYO_WARDS /\ area = ("23ku", ward))
  \/ (ward = "その他"
      /\ exists dir areas,
          In (fst area, dir, areas) area_dirs /\ In (snd area) areas)
  \/ (ward = "その他" /\ area = ("other", "その他")).
Proof.
  cbv zeta.
  pose proof (scan_area_scan_wards SplitTamaData.WARDS_23 address) as H.
  pose proof (extract_area_listed address) as L. cbv zeta in L.
  unfold SplitCsvByWard.extract_ward_from_address.
  change SplitCsvByWard.TOKYO_WARDS with SplitTamaData.WARDS_23.
  unfold SplitTamaData.extract_area_from_address in *.
  destruct (SplitTamaData.scan_area "23ku" SplitTamaData.WARDS_23 address)
    as [r |] eqn:E.
  - destruct H as [-> Hin]. left. split; [exact Hin | reflexivity].
  - right. destruct L as [[L _] | [L | L]].
    + exfalso. revert L. clear.
      destruct (SplitTamaData.scan_area "tama_city" _ _) as [r |] eqn:E2;
        [apply scan_area_Some in E2; destruct E2 as [-> _]; discriminate |].
      destruct (SplitTamaData.scan_area "nishi_tama" _ _) as [r |] eqn:E3;
        [apply scan_area_Some in E3; destruct E3 as [-> _]; discriminate |].
      destruct (SplitTamaData.scan_area "island" _ _) as [r |] eqn:E4;
        [apply scan_area_Some in E4; destruct E4 as [-> _]; discriminate |].
      discriminate.
    + right. split; [exact H | exact L].
    + left. split; [exact H | exact L].
Qed.

(** X6: the keys of the region splitter's groups are taken apart again at
    their first colon: the category and name that were joined come back,
    whatever the name holds, and a key without a colon cannot be unpacked. *)
Theorem area_key_split_at_first_colon :
  (forall category name,
      py_in ":" category = false ->
      SplitTamaData.split_colon (category ++ ":" ++ name) = Ok (category, name))
  /\ (forall key,
         py_in ":" key = false ->
         SplitTamaData.split_colon key
         = Raise (ValueError "not enough values to unpack (expected 2, got 1)"))
  /\ (forall address,
         let area := SplitTamaData.extract_area_from_address address in
         SplitTamaData.split_colon (fst area ++ ":" ++ snd area) = Ok area).
Proof.
  split; [exact split_colon_app |]. split; [exact split_colon_none |].
  intros address area. rewrite split_colon_app.
  - now destruct area.
  - pose proof (extract_area_category address) as H. fold area in H.
    simpl in H.
    repeat (destruct H as [<- | H]; [reflexivity |]). destruct H.
Qed.

Section ReadErrors.

Lemma get_Some_keys (row : Row) (k v : string) :
  get row k = Some v -> In k (keys row).
Proof.
  induction row as [|[k0 v0] row IH]; simpl; [discriminate |].
  destruct (String.eqb_spec k0 k) as [-> | _]; [now left | right; now apply IH].
Qed.

(** Without the column in the header, no row read from the file has it. *)
Lemma DictReader_lacks (names : list string) (recs : list (list string))
  (k : string) :
  ~ In k names ->
  Forall (fun row => get row k = None) (DictReader (names :: recs)).
Proof.
  intros Hk. cbn [DictReader]. apply Forall_forall. intros row Hrow.
  apply in_map_iff in Hrow. destruct Hrow as [cells [<- _]].
  destruct (get (dict_zip names cells) k) as [v |] eqn:E; [| reflexivity].
  exfalso. apply Hk. apply (dict_zip_keys names cells). eapply get_Some_keys, E.
Qed.

Lemma item_lacks (row : Row) (k : string) :
  get row k = None -> item row k = Raise (KeyError k).
Proof. unfold item. now intros ->. Qed.

End ReadErrors.

(** X7: both splitters read the whole input before they write: without the
    input file they raise [FileNotFoundError], with a header that has no
    [address] column they raise [KeyError] at the first data row, and in
    both cases no file has been written; an input without data rows is
    accepted and nothing is written for it either. *)
Theorem splitters_fail_before_writing (input_file output_dir : string) (fs : FS) :
  (read_file fs input_file = None ->
   SplitCsvByWard.split_csv_by_ward input_file output_dir fs
   = (fs, Raise (FileNotFoundError input_file))
   /\ SplitTamaData.split_tama_data input_file output_dir fs
      = (fs, Raise (FileNotFoundError input_file)))
  /\ (forall names recs,
         read_file fs input_file = Some (names :: recs) ->
         ~ In "address" names ->
         DictReader (names :: recs) <> [] ->
         SplitCsvByWard.split_csv_by_ward input_file output_dir fs
         = (fs, Raise (KeyError "address"))
         /\ SplitTamaData.split_tama_data input_file output_dir fs
            = (fs, Raise (KeyError "address")))
  /\ (forall input,
         read_file fs input_file = Some input ->
         DictReader input = [] ->
         SplitCsvByWard.split_csv_by_ward input_file output_dir fs = (fs, Ok tt)
         /\ SplitTamaData.split_tama_data input_file output_dir fs = (fs, Ok tt)).
Proof.
  unfold SplitCsvByWard.split_csv_by_ward, SplitTamaData.split_tama_data,
    SplitTamaData.analyze_tama_data.
  split; [| split].
  - intros ->. split; reflexivity.
  - intros names recs -> Hk Hne.
    pose proof (DictReader_lacks names recs "address" Hk) as Hl.
    destruct (DictReader (names :: recs)) as [|row rows]; [congruence |].
    inversion Hl as [|? ? Hrow _]; subst.
    cbn [SplitCsvByWard.classify_rows SplitTamaData.analyze_rows].
    rewrite (item_lacks _ _ Hrow). split; reflexivity.
  - intros input -> ->. cbn. split; [| reflexivity].
    now destruct (fieldnames input).
Qed.

(* ================================================================== *)
(** * Writing a table and reading it back *)
(* ================================================================== *)

Section RoundTrip.

Lemma cells_of_combine (names cells : list string) :
  NoDup names -> length cells = length names ->
  map (fun n => get_default (combine names cells) n "") names = cells.
Proof.
  intros Hnd. revert cells.
  induction Hnd as [|n names Hn Hnd IH]; intros [|c cells] Hl;
    try discriminate; [reflexivity |].
  cbn [combine map]. unfold get_default at 1. cbn [get].
  rewrite String.eqb_refl. apply (f_equal (cons c)).
  transitivity (map (fun n' => get_default (combine names cells) n' "") names);
    [| apply IH; now inversion Hl].
  apply map_ext_in. intros n' Hn'. unfold get_default. cbn [get].
  destruct (String.eqb_spec n n') as [-> | _]; [contradiction | reflexivity].
Qed.

Lemma DictReader_row_of (names : list string) (recs : list (list string)) :
  NoDup names -> rectangular names recs ->
  Forall (row_of names) (DictReader (names :: recs)).
Proof.
  intros Hnd Hrect. cbn [DictReader]. apply Forall_forall. intros row Hrow.
  apply in_map_iff in Hrow. destruct Hrow as [cells [<- Hc]].
  apply filter_In in Hc. destruct Hc as [Hc Hnb].
  unfold rectangular in Hrect. rewrite Forall_forall in Hrect.
  exists cells. destruct (Hrect cells Hc) as [-> | Hl]; [discriminate |].
  split; [now destruct cells | split; [exact Hl | now apply dict_zip_combine]].
Qed.

(** Rows of the file that are written under its header read back as they
    were. *)
Lemma DictReader_table (names : list string) (rows : list Row) :
  NoDup names -> Forall (row_of names) rows ->
  DictReader (table names rows) = rows.
Proof.
  intros Hnd Hrows. unfold table. cbn [DictReader].
  induction Hrows as [|row rows [cells [Hne [Hl ->]]] Hrows IH]; [reflexivity |].
  cbn [map filter]. rewrite (cells_of_combine names cells Hnd Hl).
  destruct cells as [|c cells]; [congruence |]. cbn [is_blank negb map].
  rewrite IH. now rewrite dict_zip_combine.
Qed.

Lemma row_of_fields_known (names : list string) (row : Row) :
  row_of names row -> fields_known names row.
Proof.
  intros [cells [_ [_ ->]]]. apply incl_fields_known.
  intros k Hk. unfold keys in Hk. apply in_map_iff in Hk.
  destruct Hk as [[k' v] [<- Hin]]. now apply in_combine_l in Hin.
Qed.

Lemma row_of_has (names : list string) (row : Row) (k : string) :
  row_of names row -> In k names -> exists v, get row k = Some v.
Proof.
  intros [cells [_ [Hl ->]]] Hk. revert cells Hl.
  induction names as [|n names IH]; intros [|c cells] Hl; try discriminate;
    [destruct Hk |].
  cbn [combine get]. destruct (String.eqb_spec n k) as [-> | Hne]; [eauto |].
  destruct Hk as [-> | Hk]; [contradiction |].
  apply IH; [exact Hk | now inversion Hl].
Qed.

End RoundTrip.

(* ================================================================== *)
(** * The ward filter *)
(* ================================================================== *)

Section WardFilter.
Import CreateLightweightCsv.

Lemma find_ward_find (target_wards : list string) (row : Row) (address : string) :
  get row "address" = Some address ->
  find_ward target_wards row
  = Ok (find (fun w => py_in w address) target_wards).
Proof.
  intros Ha. induction target_wards as [|w ws IH]; [reflexivity |].
  cbn [find_ward find]. unfold item. rewrite Ha. cbn [bind].
  destruct (py_in w address); [reflexivity | exact IH].
Qed.

Lemma extract_rows_filter (target_wards : list string) (rows : list Row) :
  Forall (fun row => exists v, get row "address" = Some v) rows ->
  forall extracted_data,
    extract_rows target_wards rows extracted_data
    = Ok (extracted_data ++ filter (in_target_ward target_wards) rows).
Proof.
  induction 1 as [|row rows [v Hv] H IH]; intros extracted_data.
  - cbn. now rewrite app_nil_r.
  - cbn [extract_rows filter]. rewrite (find_ward_find _ _ _ Hv). cbn [bind].
    rewrite IH. unfold in_target_ward, get_default. rewrite Hv.
    unfold ward_truthy.
    destruct (find (fun w => py_in w v) target_wards) as [w |];
      [destruct (truthy w) |]; now rewrite <- ?app_assoc.
Qed.

Lemma create_lightweight_csv_kept (input_file output_file : string)
  (target_wards : list string) (fs : FS)
  (names : list string) (recs : list (list string)) :
  read_file fs input_file = Some (names :: recs) ->
  In "address" names ->
  rectangular names recs ->
  let kept := filter (in_target_ward target_wards) (DictReader (names :: recs)) in
  create_lightweight_csv input_file output_file target_wards fs
  = (write_file fs output_file (table names kept), Ok (length kept)).
Proof.
  intros Hread Ha Hrect kept. unfold create_lightweight_csv. rewrite Hread.
  rewrite extract_rows_filter by (now apply DictReader_has).
  cbn [app fieldnames hd_error write_csv]. fold kept.
  rewrite write_table_known by apply filter_fields_known. reflexivity.
Qed.

Lemma in_target_ward_any (target_wards : list string) (row : Row) :
  Forall (fun w => truthy w = true) target_wards ->
  in_target_ward target_wards row
  = any_in target_wards (get_default row "address" "").
Proof.
  unfold in_target_ward, any_in.
  induction 1 as [|w ws Hw H IH]; [reflexivity |]. cbn [find existsb].
  destruct (py_in w (get_default row "address" "")); [exact Hw | exact IH].
Qed.

End WardFilter.

(** X8: the ward filter writes the header of the input and exactly the rows
    whose address holds one of the target wards, in input order, and returns
    their number.  The ward that counts is the first target ward found, and
    it must be a non-empty name: an empty name in the list is found in every
    address and selects nothing. *)
Theorem ward_filter_keeps_target_rows (input_file output_file : string)
  (target_wards : list string) (fs : FS)
  (names : list string) (recs : list (list string)) :
  read_file fs input_file = Some (names :: recs) ->
  In "address" names ->
  rectangular names recs ->
  let kept := filter (in_target_ward target_wards) (DictReader (names :: recs)) in
  CreateLightweightCsv.create_lightweight_csv input_file output_file target_wards fs
  = (write_file fs output_file (table names kept), Ok (length kept))
  /\ (Forall (fun w => truthy w = true) target_wards ->
      forall row,
        in_target_ward target_wards row
        = CreateLightweightCsv.any_in target_wards (get_default row "address" ""))
  /\ (forall row,
         in_target_ward CreateLightweightCsv.YAMANOTE_INNER_WARDS row
         = CreateLightweightCsv.any_in CreateLightweightCsv.YAMANOTE_INNER_WARDS
             (get_default row "address" ""))
  /\ (forall rest row, in_target_ward ("" :: rest) row = false).
Proof.
  intros Hread Ha Hrect kept. split; [| split; [| split]].
  - now apply create_lightweight_csv_kept.
  - intros Hw row. now apply in_target_ward_any.
  - intros row. apply in_target_ward_any.
    repeat (constructor; [reflexivity |]). constructor.
  - intros rest row. unfold in_target_ward. cbn [find py_in].
    now destruct (get_default row "address" "").
Qed.

Lemma ward_filter_keeps_target_rows_witness :
  CreateLightweightCsv.create_lightweight_csv "data/barrier_free_toilets.csv"
    "data/lightweight/yamanote_inner_public.csv"
    CreateLightweightCsv.YAMANOTE_INNER_WARDS SplitterExamples.fs_city
  = (write_file SplitterExamples.fs_city "data/lightweight/yamanote_inner_public.csv"
       [SplitterExamples.header; SplitterExamples.ward_office],
     Ok 1).
Proof.
  refine (proj1 (ward_filter_keeps_target_rows "data/barrier_free_toilets.csv"
                   "data/lightweight/yamanote_inner_public.csv"
                   CreateLightweightCsv.YAMANOTE_INNER_WARDS SplitterExamples.fs_city
                   SplitterExamples.header
                   [SplitterExamples.city_hall; SplitterExamples.ward_office]
                   eq_refl _ _)).
  - simpl. tauto.
  - repeat (constructor; [right; reflexivity |]). constructor.
Defined.

Section FilterErrors.
Import CreateLightweightCsv.

Lemma extract_rows_no_wards (rows : list Row) :
  forall extracted_data, extract_rows [] rows extracted_data = Ok extracted_data.
Proof. induction rows as [|row rows IH]; intros acc; [reflexivity | apply IH]. Qed.

Lemma priority_score_lacks_address (row : Row) (name : string) :
  get row "name" = Some name -> get row "address" = None ->
  priority_score row = Raise (KeyError "address").
Proof.
  intros Hn Ha. unfold priority_score, item. rewrite Hn. cbn [bind].
  cbn [YAMANOTE_INNER_WARDS add_ward_score]. unfold item. now rewrite Ha.
Qed.

End FilterErrors.

(** X9: the two filters of the lightweight script read the whole input before
    they open the output.  Without the input file they raise
    [FileNotFoundError]; with data rows under a header that lacks a column
    they read they raise [KeyError] for that column ([address] for the ward
    filter, [name] and then [address] for the priority filter); in these
    cases nothing is written.  For an input without any line the output file
    is created and left empty, and the writer fails for want of field names.
    A ward filter without target wards never reads the address and writes the
    header alone. *)
Theorem lightweight_filters_read_errors (input_file output_file : string)
  (target_wards : list string) (max_items : Z) (fs : FS) :
  (read_file fs input_file = None ->
   CreateLightweightCsv.create_lightweight_csv input_file output_file target_wards fs
   = (fs, Raise (FileNotFoundError input_file))
   /\ CreateLightweightCsv.create_priority_csv input_file output_file max_items fs
      = (fs, Raise (FileNotFoundError input_file)))
  /\ (forall names recs,
         read_file fs input_file = Some (names :: recs) ->
         DictReader (names :: recs) <> [] ->
         (~ In "address" names -> target_wards <> [] ->
          CreateLightweightCsv.create_lightweight_csv input_file output_file
            target_wards fs
          = (fs, Raise (KeyError "address")))
         /\ (~ In "name" names ->
             CreateLightweightCsv.create_priority_csv input_file output_file
               max_items fs
             = (fs, Raise (KeyError "name")))
         /\ (In "name" names -> rectangular names recs -> ~ In "address" names ->
             CreateLightweightCsv.create_priority_csv input_file output_file
               max_items fs
             = (fs, Raise (KeyError "address"))))
  /\ (read_file fs input_file = Some [] ->
      CreateLightweightCsv.create_lightweight_csv input_file output_file
        target_wards fs
      = (write_file fs output_file [],
         Raise (TypeError "'NoneType' object is not iterable"))
      /\ CreateLightweightCsv.create_priority_csv input_file output_file max_items fs
         = (write_file fs output_file [],
            Raise (TypeError "'NoneType' object is not iterable")))
  /\ (forall names recs,
         read_file fs input_file = Some (names :: recs) ->
         CreateLightweightCsv.create_lightweight_csv input_file output_file [] fs
         = (write_file fs output_file [names], Ok 0)).
Proof.
  unfold CreateLightweightCsv.create_lightweight_csv,
    CreateLightweightCsv.create_priority_csv.
  split; [| split; [| split]].
  - intros ->. split; reflexivity.
  - intros names recs -> Hne. split; [| split].
    + intros Hk Hw.
      pose proof (DictReader_lacks names recs "address" Hk) as Hl.
      destruct (DictReader (names :: recs)) as [|row rows]; [congruence |].
      inversion Hl as [|? ? Hrow _]; subst.
      destruct target_wards as [|w ws]; [congruence |].
      cbn [CreateLightweightCsv.extract_rows CreateLightweightCsv.find_ward].
      now rewrite (item_lacks _ _ Hrow).
    + intros Hk.
      pose proof (DictReader_lacks names recs "name" Hk) as Hl.
      destruct (DictReader (names :: recs)) as [|row rows]; [congruence |].
      inversion Hl as [|? ? Hrow _]; subst.
      cbn [CreateLightweightCsv.score_rows].
      unfold CreateLightweightCsv.priority_score.
      now rewrite (item_lacks _ _ Hrow).
    + intros Hn Hrect Hk.
      pose proof (DictReader_lacks names recs "address" Hk) as Hl.
      pose proof (DictReader_has names recs "name" Hn Hrect) as Hh.
      destruct (DictReader (names :: recs)) as [|row rows]; [congruence |].
      inversion Hl as [|? ? Hrow _]; subst.
      inversion Hh as [|? ? [name Hname] _]; subst.
      cbn [CreateLightweightCsv.score_rows].
      now rewrite (priority_score_lacks_address _ _ Hname Hrow).
  - intros ->. split; reflexivity.
  - intros names recs ->. rewrite extract_rows_no_wards. reflexivity.
Qed.

(** X10: the ward filter is idempotent: run again on the file it wrote, with
    the same target wards, it writes the same file and returns the same
    count. *)
Theorem ward_filter_idempotent (input_file output_file again : string)
  (target_wards : list string) (fs : FS)
  (names : list string) (recs : list (list string)) :
  read_file fs input_file = Some (names :: recs) ->
  In "address" names ->
  NoDup names ->
  rectangular names recs ->
  let first :=
    CreateLightweightCsv.create_lightweight_csv input_file output_file
      target_wards fs in
  exists f,
    read_file (fst first) output_file = Some f
    /\ CreateLightweightCsv.create_lightweight_csv output_file again target_wards
         (fst first)
       = (write_file (fst first) again f, snd first).
Proof.
  intros Hread Ha Hnd Hrect first.
  pose proof (create_lightweight_csv_kept input_file output_file target_wards fs
                names recs Hread Ha Hrect) as E. cbv zeta in E.
  set (kept := filter (in_target_ward target_wards) (DictReader (names :: recs))) in *.
  unfold first. rewrite E. cbn [fst snd].
  exists (table names kept). split; [apply read_write_same |].
  assert (Hrows : Forall (row_of names) kept).
  { apply Forall_forall. intros row Hrow. apply filter_In in Hrow.
    pose proof (DictReader_row_of names recs Hnd Hrect) as H.
    rewrite Forall_forall in H. apply H. tauto. }
  unfold CreateLightweightCsv.create_lightweight_csv.
  rewrite read_write_same, (DictReader_table names kept Hnd Hrows).
  rewrite extract_rows_filter
    by (eapply Forall_impl; [| exact Hrows]; intros row Hrow;
        now apply (row_of_has names)).
  cbn [app]. unfold table at 1. cbn [fieldnames hd_error].
  assert (Hk : filter (in_target_ward target_wards) kept = kept).
  { apply filter_all. apply Forall_forall. intros row Hrow.
    apply filter_In in Hrow. tauto. }
  rewrite Hk. cbn [CreateLightweightCsv.write_csv].
  rewrite write_table_known
    by (eapply Forall_impl; [| exact Hrows]; apply row_of_fields_known).
  reflexivity.
Qed.

Lemma ward_filter_idempotent_witness :
  exists f,
    read_file
      (fst (CreateLightweightCsv.create_lightweight_csv
              "data/barrier_free_toilets.csv"
              "data/lightweight/yamanote_inner_public.csv"
              CreateLightweightCsv.YAMANOTE_INNER_WARDS SplitterExamples.fs_city))
      "data/lightweight/yamanote_inner_public.csv" = Some f
    /\ CreateLightweightCsv.create_lightweight_csv
         "data/lightweight/yamanote_inner_public.csv" "again.csv"
         CreateLightweightCsv.YAMANOTE_INNER_WARDS
         (fst (CreateLightweightCsv.create_lightweight_csv
                 "data/barrier_free_toilets.csv"
                 "data/lightweight/yamanote_inner_public.csv"
                 CreateLightweightCsv.YAMANOTE_INNER_WARDS SplitterExamples.fs_city))
       = (write_file
            (fst (CreateLightweightCsv.create_lightweight_csv
                    "data/barrier_free_toilets.csv"
                    "data/lightweight/yamanote_inner_public.csv"
                    CreateLightweightCsv.YAMANOTE_INNER_WARDS
                    SplitterExamples.fs_city))
            "again.csv" f,
          snd (CreateLightweightCsv.create_lightweight_csv
                 "data/barrier_free_toilets.csv"
                 "data/lightweight/yamanote_inner_public.csv"
                 CreateLightweightCsv.YAMANOTE_INNER_WARDS SplitterExamples.fs_city)).
Proof.
  apply (ward_filter_idempotent "data/barrier_free_toilets.csv"
           "data/lightweight/yamanote_inner_public.csv" "again.csv"
           CreateLightweightCsv.YAMANOTE_INNER_WARDS SplitterExamples.fs_city
           SplitterExamples.header
           [SplitterExamples.city_hall; SplitterExamples.ward_office]).
  - reflexivity.
  - simpl. tauto.
  - repeat (constructor; [simpl; intuition discriminate |]). constructor.
  - repeat (constructor; [right; reflexivity |]). constructor.
Defined.

(* ================================================================== *)
(** * The priority filter *)
(* ================================================================== *)

Section PriorityFilter.
Import CreateLightweightCsv.

Lemma rule_sum_range (name address : string) :
  (0 <= rule_sum name address <= 200)%Z
  /\ (if any_in ["駅"; "Station"] name
      then (100 <= rule_sum name address)%Z
      else (rule_sum name address <= 100)%Z)
  /\ (any_in YAMANOTE_INNER_WARDS address = true -> (50 <= rule_sum name address)%Z).
Proof.
  unfold rule_sum.
  destruct (any_in ["駅"; "Station"] name);
    destruct (any_in YAMANOTE_INNER_WARDS address);
    destruct (any_in ["庁舎"; "図書館"; "病院"; "公園"; "文化"] name);
    destruct (any_in ["東京"; "新宿"; "渋谷"; "池袋"; "上野"; "品川"] name);
    repeat split; try lia; discriminate.
Qed.

Lemma sort_desc_sorted_same (l : list (Z * Row)) :
  StronglySorted by_score_desc l -> sort_desc l = l.
Proof.
  induction 1 as [|x l Hl IH Hx]; [reflexivity |].
  cbn [sort_desc]. rewrite IH. destruct l as [|y l]; [reflexivity |].
  cbn [insert_desc]. inversion Hx as [|? ? Hy _]; subst.
  unfold by_score_desc in Hy. apply Z.leb_le in Hy. now rewrite Hy.
Qed.

Lemma firstn_sorted (n : nat) (l : list (Z * Row)) :
  StronglySorted by_score_desc l -> StronglySorted by_score_desc (firstn n l).
Proof.
  intros H. revert n. induction H as [|x l Hl IH Hx]; intros [|n]; cbn [firstn];
    try constructor.
  - apply IH.
  - apply Forall_forall. intros y Hy. apply firstn_incl in Hy.
    rewrite Forall_forall in Hx. now apply Hx.
Qed.

Lemma qualifying_scored (l : list (Z * Row)) :
  Forall (fun x => priority_score (snd x) = Ok (fst x) /\ (0 < fst x)%Z) l ->
  qualifying (map snd l) = l.
Proof.
  induction 1 as [|[score row] l [Hs Hp] H IH]; [reflexivity |].
  cbn [map snd fst] in *. unfold qualifying in *. cbn [flat_map].
  rewrite Hs, IH. apply Z.gtb_lt in Hp. now rewrite Hp.
Qed.

Lemma qualifying_Forall (rows : list Row) :
  Forall (fun x => priority_score (snd x) = Ok (fst x) /\ (0 < fst x)%Z)
    (qualifying rows).
Proof.
  apply Forall_forall. intros [score row] Hin. apply qualifying_In in Hin.
  cbn [fst snd]. tauto.
Qed.

Lemma score_rows_all (rows : list Row) :
  Forall (fun row => exists name address,
              get row "name" = Some name /\ get row "address" = Some address) rows ->
  score_rows rows [] = Ok (qualifying rows).
Proof.
  intros H. destruct (score_rows_total rows [] H) as [priority_data E].
  rewrite E. f_equal. now apply score_rows_qualifying in E.
Qed.

Lemma rows_have_name_address (names : list string) (rows : list Row) :
  In "name" names -> In "address" names ->
  Forall (row_of names) rows ->
  Forall (fun row => exists name address,
              get row "name" = Some name /\ get row "address" = Some address) rows.
Proof.
  intros Hn Ha H. eapply Forall_impl; [| exact H]. intros row Hrow.
  destruct (row_of_has names row "name" Hrow Hn) as [name E1].
  destruct (row_of_has names row "address" Hrow Ha) as [address E2].
  eauto.
Qed.

(** The priority filter on the rows of a file it can read. *)
Lemma create_priority_csv_selected (input_file output_file : string) (n : nat)
  (fs : FS) (names : list string) (rows : list Row) :
  read_file fs input_file = Some (table names rows) ->
  In "name" names -> In "address" names -> NoDup names ->
  Forall (row_of names) rows ->
  let selected := select_rows (qualifying rows) (Z.of_nat n) in
  create_priority_csv input_file output_file (Z.of_nat n) fs
  = (write_file fs output_file (table names selected), Ok (length selected)).
Proof.
  intros Hread Hn Ha Hnd Hrows selected. unfold table in Hread.
  apply (create_priority_csv_writes fs input_file output_file names _ _ _ Hread).
  fold (table names rows). rewrite (DictReader_table names rows Hnd Hrows).
  apply score_rows_all. now apply (rows_have_name_address names).
Qed.

Lemma table_rect (names : list string) (recs : list (list string)) :
  NoDup names -> rectangular names recs ->
  table names (DictReader (names :: recs))
  = names :: filter (fun r => negb (is_blank r)) recs.
Proof.
  intros Hnd Hrect. unfold table. cbn [DictReader]. f_equal.
  rewrite map_map.
  induction Hrect as [|r recs Hr Hrect IH]; [reflexivity |].
  cbn [filter]. destruct Hr as [-> | Hl]; [exact IH |].
  destruct r as [|c r]; [exact IH |]. cbn [is_blank negb map]. rewrite IH.
  f_equal. rewrite dict_zip_combine by exact Hnd.
  now apply cells_of_combine.
Qed.

Lemma select_rows_row_of (names : list string) (rows : list Row) (max_items : Z) :
  Forall (row_of names) rows ->
  Forall (row_of names) (select_rows (qualifying rows) max_items).
Proof.
  intros H. apply Forall_forall. intros row Hrow.
  apply select_rows_In in Hrow. destruct Hrow as [score [Hin _]].
  rewrite Forall_forall in H. now apply H.
Qed.

Lemma select_rows_again (rows : list Row) (n : nat) :
  select_rows (qualifying (select_rows (qualifying rows) (Z.of_nat n))) (Z.of_nat n)
  = select_rows (qualifying rows) (Z.of_nat n).
Proof.
  unfold select_rows. rewrite !slice_to_count.
  set (top := firstn n (sort_desc (qualifying rows))).
  assert (Hq : qualifying (map snd top) = top).
  { apply qualifying_scored. apply Forall_forall. intros x Hx.
    apply firstn_incl in Hx.
    apply (Permutation_in _ (sort_desc_perm (qualifying rows))) in Hx.
    pose proof (qualifying_Forall rows) as H. rewrite Forall_forall in H.
    now apply H. }
  rewrite Hq. rewrite sort_desc_sorted_same
    by (apply firstn_sorted, sort_desc_sorted).
  unfold top. rewrite firstn_firstn. now rewrite Nat.min_id.
Qed.

End PriorityFilter.

(** X11: a score lies between 0 and 200; a row whose name holds 駅 or Station
    scores at least 100 and every other row at most 100, so that no row
    without the station keyword is ranked strictly above a row with it; and a
    row of an inner ward scores at least 50, so every row the ward filter
    keeps for the inner wards also qualifies for the priority filter. *)
Theorem priority_score_range (row : Row) (score : Z) :
  CreateLightweightCsv.priority_score row = Ok score ->
  (0 <= score <= 200)%Z
  /\ (forall name,
         get row "name" = Some name ->
         if CreateLightweightCsv.any_in ["駅"; "Station"] name
         then (100 <= score)%Z else (score <= 100)%Z)
  /\ (in_target_ward CreateLightweightCsv.YAMANOTE_INNER_WARDS row = true ->
      (50 <= score)%Z)
  /\ (forall other other_score other_name name,
         CreateLightweightCsv.priority_score other = Ok other_score ->
         get row "name" = Some name ->
         get other "name" = Some other_name ->
         CreateLightweightCsv.any_in ["駅"; "Station"] name = true ->
         CreateLightweightCsv.any_in ["駅"; "Station"] other_name = false ->
         (other_score <= score)%Z).
Proof.
  intros Hs.
  assert (Hsum : forall r s,
             CreateLightweightCsv.priority_score r = Ok s ->
             exists name address,
               get r "name" = Some name /\ get r "address" = Some address
               /\ s = rule_sum name address).
  { intros r s H. destruct (priority_score_Ok r s H) as [name [address [Hn Ha]]].
    exists name, address. rewrite (priority_score_sum r name address Hn Ha) in H.
    inversion H. auto. }
  destruct (Hsum row score Hs) as [name [address [Hn [Ha ->]]]].
  destruct (rule_sum_range name address) as [Hr [Hst Hw]].
  split; [exact Hr |]. split; [| split].
  - intros name' Hn'. rewrite Hn in Hn'. inversion Hn'; subst. exact Hst.
  - intros Hin. apply Hw.
    rewrite in_target_ward_any in Hin
      by (repeat (constructor; [reflexivity |]); constructor).
    unfold get_default in Hin. now rewrite Ha in Hin.
  - intros other other_score other_name name' Hos Hn' Hon Hst1 Hst2.
    rewrite Hn in Hn'. inversion Hn'; subst name'.
    destruct (Hsum other other_score Hos) as [oname [oaddress [Hon' [_ ->]]]].
    rewrite Hon in Hon'. inversion Hon'; subst oname.
    destruct (rule_sum_range other_name oaddress) as [_ [Host _]].
    rewrite Hst1 in Hst. rewrite Hst2 in Host. lia.
Qed.

Lemma priority_score_range_witness :
  (0 <= 170 <= 200)%Z
  /\ (forall name,
         get [("name", "東京駅"); ("address", "東京都千代田区丸の内一丁目")] "name"
         = Some name ->
         if CreateLightweightCsv.any_in ["駅"; "Station"] name
         then (100 <= 170)%Z else (170 <= 100)%Z)
  /\ (in_target_ward CreateLightweightCsv.YAMANOTE_INNER_WARDS
        [("name", "東京駅"); ("address", "東京都千代田区丸の内一丁目")] = true ->
      (50 <= 170)%Z)
  /\ (forall other other_score other_name name,
         CreateLightweightCsv.priority_score other = Ok other_score ->
         get [("name", "東京駅"); ("address", "東京都千代田区丸の内一丁目")] "name"
         = Some name ->
         get other "name" = Some other_name ->
         CreateLightweightCsv.any_in ["駅"; "Station"] name = true ->
         CreateLightweightCsv.any_in ["駅"; "Station"] other_name = false ->
         (other_score <= 170)%Z).
Proof.
  apply (priority_score_range
           [("name", "東京駅"); ("address", "東京都千代田区丸の内一丁目")] 170%Z).
  reflexivity.
Defined.

(** X12: for a count that is not negative the priority filter is idempotent:
    run again on the file it wrote, with the same count, it writes the same
    file and returns the same number of rows. *)
Theorem priority_filter_idempotent (input_file output_file again : string)
  (n : nat) (fs : FS) (names : list string) (recs : list (list string)) :
  read_file fs input_file = Some (names :: recs) ->
  In "name" names -> In "address" names ->
  NoDup names ->
  rectangular names recs ->
  let first :=
    CreateLightweightCsv.create_priority_csv input_file output_file (Z.of_nat n) fs in
  exists f,
    read_file (fst first) output_file = Some f
    /\ CreateLightweightCsv.create_priority_csv output_file again (Z.of_nat n)
         (fst first)
       = (write_file (fst first) again f, snd first).
Proof.
  intros Hread Hn Ha Hnd Hrect first.
  pose proof (DictReader_row_of names recs Hnd Hrect) as Hrows.
  set (rows := DictReader (names :: recs)) in *.
  set (selected := CreateLightweightCsv.select_rows (qualifying rows) (Z.of_nat n)).
  assert (E : first = (write_file fs output_file (table names selected),
                       Ok (length selected))).
  { unfold first.
    apply (create_priority_csv_writes fs input_file output_file names recs _ _ Hread).
    apply score_rows_all. now apply (rows_have_name_address names). }
  rewrite E. cbn [fst snd]. exists (table names selected).
  split; [apply read_write_same |].
  rewrite (create_priority_csv_selected output_file again n _ names selected
             (read_write_same _ _ _) Hn Ha Hnd
             (select_rows_row_of names rows _ Hrows)).
  unfold selected. now rewrite select_rows_again.
Qed.

Lemma priority_filter_idempotent_witness :
  exists f,
    read_file
      (fst (CreateLightweightCsv.create_priority_csv "data/barrier_free_toilets.csv"
              "data/lightweight/priority_public.csv" (Z.of_nat 1)
              SplitterExamples.fs_city))
      "data/lightweight/priority_public.csv" = Some f
    /\ CreateLightweightCsv.create_priority_csv "data/lightweight/priority_public.csv"
         "again.csv" (Z.of_nat 1)
         (fst (CreateLightweightCsv.create_priority_csv
                 "data/barrier_free_toilets.csv"
                 "data/lightweight/priority_public.csv" (Z.of_nat 1)
                 SplitterExamples.fs_city))
       = (write_file
            (fst (CreateLightweightCsv.create_priority_csv
                    "data/barrier_free_toilets.csv"
                    "data/lightweight/priority_public.csv" (Z.of_nat 1)
                    SplitterExamples.fs_city))
            "again.csv" f,
          snd (CreateLightweightCsv.create_priority_csv
                 "data/barrier_free_toilets.csv"
                 "data/lightweight/priority_public.csv" (Z.of_nat 1)
                 SplitterExamples.fs_city)).
Proof.
  apply (priority_filter_idempotent "data/barrier_free_toilets.csv"
           "data/lightweight/priority_public.csv" "again.csv" 1
           SplitterExamples.fs_city SplitterExamples.header
           [SplitterExamples.city_hall; SplitterExamples.ward_office]).
  - reflexivity.
  - simpl. tauto.
  - simpl. tauto.
  - repeat (constructor; [simpl; intuition discriminate |]). constructor.
  - repeat (constructor; [right; reflexivity |]). constructor.
Defined.

(* ================================================================== *)
(** * Invariants of the merge *)
(* ================================================================== *)

Section MergeInvariants.
Import CreateLightweightCsv.

Lemma has_coords_false (row : Row) : has_coords row = false -> coords row = None.
Proof. unfold has_coords. now destruct (coords row). Qed.

Lemma close_false_near (existing_row row : Row) :
  close existing_row row = Ok false -> near existing_row row = false.
Proof.
  intros H.
  destruct (has_coords existing_row) eqn:E1; destruct (has_coords row) eqn:E2;
    try (rewrite (close_near _ _ E1 E2) in H; now inversion H);
    unfold near;
    try rewrite (has_coords_false _ E1); try rewrite (has_coords_false _ E2);
    try reflexivity.
  now destruct (coords existing_row) as [[? ?] |].
Qed.

Lemma is_duplicate_false (target_list : list Row) (row : Row) :
  is_duplicate target_list row = Ok false <->
  Forall (fun existing_row => close existing_row row = Ok false) target_list.
Proof.
  induction target_list as [|e target_list IH]; cbn [is_duplicate].
  - split; [constructor | reflexivity].
  - destruct (close e row) as [[|] | err] eqn:E; cbn [bind].
    + split; [discriminate | intros H; inversion H; congruence].
    + rewrite IH. split; [now constructor | intros H; now inversion H].
    + split; [discriminate | intros H; inversion H; congruence].
Qed.

Lemma pairs_snoc {A : Type} (R : A -> A -> Prop) (l : list A) (x : A) :
  ForallOrdPairs R l -> Forall (fun a => R a x) l -> ForallOrdPairs R (l ++ [x]).
Proof.
  induction 1 as [|a l Ha H IH]; intros Hx; cbn [app].
  - constructor; constructor.
  - inversion Hx as [|? ? Hax Hx']; subst. constructor; [| now apply IH].
    apply Forall_app. split; [exact Ha | now constructor].
Qed.

Lemma pairs_app_head {A : Type} (R : A -> A -> Prop) (l1 l2 : list A) (x : A) :
  ForallOrdPairs R (l1 ++ x :: l2) -> Forall (fun a => R a x) l1.
Proof.
  induction l1 as [|a l1 IH]; cbn [app]; intros H; [constructor |].
  inversion H as [|? ? Ha H']; subst. constructor; [| now apply IH].
  rewrite Forall_forall in Ha. apply Ha. apply in_or_app. right. now left.
Qed.

(** Every row that is kept was compared with all the rows kept before it. *)
Lemma merge_rows_apart (rows : list Row) :
  forall target_list out,
    merge_rows target_list rows = Ok out ->
    ForallOrdPairs (fun a b => close a b = Ok false) target_list ->
    ForallOrdPairs (fun a b => close a b = Ok false) out.
Proof.
  induction rows as [|row rows IH]; intros target_list out H Hp;
    cbn [merge_rows] in H.
  - inversion H; subst. exact Hp.
  - destruct (is_duplicate target_list row) as [[|] | e] eqn:E; cbn [bind] in H;
      try discriminate.
    + now apply (IH target_list).
    + apply (IH (target_list ++ [row])); [exact H |].
      apply pairs_snoc; [exact Hp | now apply is_duplicate_false].
Qed.

Lemma merge_rows_kept (rows : list Row) :
  forall target_list,
    ForallOrdPairs (fun a b => close a b = Ok false) (target_list ++ rows) ->
    merge_rows target_list rows = Ok (target_list ++ rows).
Proof.
  induction rows as [|row rows IH]; intros target_list Hp; cbn [merge_rows].
  - now rewrite app_nil_r.
  - apply pairs_app_head in Hp as Hrow. apply is_duplicate_false in Hrow.
    rewrite Hrow. cbn [bind].
    rewrite IH; rewrite <- app_assoc; [reflexivity | exact Hp].
Qed.

Lemma pairs_impl {A : Type} (R R' : A -> A -> Prop) (l : list A) :
  (forall a b, R a b -> R' a b) -> ForallOrdPairs R l -> ForallOrdPairs R' l.
Proof.
  intros HR. induction 1 as [|a l Ha H IH]; constructor; [| exact IH].
  eapply Forall_impl; [| exact Ha]. intros b. apply HR.
Qed.

End MergeInvariants.

(** X13: no two rows of a merged list are duplicates of each other: of any two
    rows kept, the later one was compared with the earlier one and found not
    to be within the tolerance in both coordinates.  This holds for each of
    the two lists that [main] merges from the four files. *)
Theorem merged_rows_pairwise_apart :
  (forall rows out,
      CreateLightweightCsv.merge_rows [] rows = Ok out ->
      ForallOrdPairs (fun kept later => near kept later = false) out)
  /\ (forall fs integrated_public integrated_station,
         CreateLightweightCsv.merge_files fs CreateLightweightCsv.merge_inputs [] []
         = Ok (integrated_public, integrated_station) ->
         ForallOrdPairs (fun kept later => near kept later = false)
           integrated_public
         /\ ForallOrdPairs (fun kept later => near kept later = false)
              integrated_station).
Proof.
  assert (Hnear : forall l,
             ForallOrdPairs (fun a b => CreateLightweightCsv.close a b = Ok false) l ->
             ForallOrdPairs (fun kept later => near kept later = false) l).
  { intros l. apply pairs_impl. exact close_false_near. }
  split.
  - intros rows out H. apply Hnear.
    apply (merge_rows_apart rows [] out H). constructor.
  - intros fs pub sta H. unfold CreateLightweightCsv.merge_inputs in H.
    cbn [CreateLightweightCsv.merge_files] in H.
    destruct (read_file fs "data/lightweight/yamanote_inner_public.csv") as [f1 |];
      [| discriminate].
    destruct (CreateLightweightCsv.merge_rows [] (DictReader f1)) as [p1 | e] eqn:E1;
      [| discriminate]. cbn [bind] in H.
    destruct (read_file fs "data/lightweight/yamanote_inner_station.csv") as [f2 |];
      [| discriminate].
    destruct (CreateLightweightCsv.merge_rows [] (DictReader f2)) as [s1 | e] eqn:E2;
      [| discriminate]. cbn [bind] in H.
    destruct (read_file fs "data/lightweight/priority_public.csv") as [f3 |];
      [| discriminate].
    destruct (CreateLightweightCsv.merge_rows p1 (DictReader f3)) as [p2 | e] eqn:E3;
      [| discriminate]. cbn [bind] in H.
    destruct (read_file fs "data/lightweight/priority_station.csv") as [f4 |];
      [| discriminate].
    destruct (CreateLightweightCsv.merge_rows s1 (DictReader f4)) as [s2 | e] eqn:E4;
      [| discriminate]. cbn [bind] in H.
    inversion H; subst. split; apply Hnear.
    + apply (merge_rows_apart _ _ _ E3), (merge_rows_apart _ _ _ E1). constructor.
    + apply (merge_rows_apart _ _ _ E4), (merge_rows_apart _ _ _ E2). constructor.
Qed.

(** X14: the merge is idempotent: a merged list merged again from nothing comes
    back as it is, no row dropped and none reordered. *)
Theorem merge_idempotent (rows out : list Row) :
  CreateLightweightCsv.merge_rows [] rows = Ok out ->
  CreateLightweightCsv.merge_rows [] out = Ok out.
Proof.
  intros H. apply (merge_rows_kept out []). cbn [app].
  apply (merge_rows_apart rows [] out H). constructor.
Qed.

Lemma merge_idempotent_witness :
  CreateLightweightCsv.merge_rows [] [Examples.row_a; Examples.row_far]
  = Ok [Examples.row_a; Examples.row_far].
Proof.
  apply (merge_idempotent [Examples.row_a; Examples.row_same; Examples.row_far]).
  vm_compute. reflexivity.
Defined.

(** X15: [float] reads nan, inf and infinity as numbers, so such a
    coordinate does not fail the merge.  The duplicate check between two
    rows whose coordinates parse is false whenever one of the four numbers is
    not finite: a row with such a coordinate is never dropped as a duplicate,
    whatever the rows kept before it, and never makes a later row one, not
    even a row with the same text.  Both of two equal rows of that kind are
    kept. *)
Theorem non_finite_coordinates_never_duplicate :
  (py_float "nan" = Ok nan /\ py_float " NaN " = Ok nan
   /\ py_float "inf" = Ok infinity /\ py_float "-Infinity" = Ok neg_infinity)
  /\ (forall existing_row row elat elng rlat rlng,
         coords existing_row = Some (elat, elng) ->
         coords row = Some (rlat, rlng) ->
         is_finite elat = false \/ is_finite elng = false
         \/ is_finite rlat = false \/ is_finite rlng = false ->
         CreateLightweightCsv.close existing_row row = Ok false)
  /\ (forall target_list row lat lng rest,
         Forall (fun r => has_coords r = true) target_list ->
         coords row = Some (lat, lng) ->
         is_finite lat = false \/ is_finite lng = false ->
         CreateLightweightCsv.is_duplicate target_list row = Ok false
         /\ CreateLightweightCsv.merge_rows target_list (row :: rest)
            = CreateLightweightCsv.merge_rows (target_list ++ [row]) rest)
  /\ CreateLightweightCsv.merge_rows [] [MergeExamples.row_nan; MergeExamples.row_nan]
     = Ok [MergeExamples.row_nan; MergeExamples.row_nan]
  /\ CreateLightweightCsv.merge_rows [] [MergeExamples.row_inf; MergeExamples.row_inf]
     = Ok [MergeExamples.row_inf; MergeExamples.row_inf].
Proof.
  assert (Hclose : forall existing_row row elat elng rlat rlng,
             coords existing_row = Some (elat, elng) ->
             coords row = Some (rlat, rlng) ->
             is_finite elat = false \/ is_finite elng = false
             \/ is_finite rlat = false \/ is_finite rlng = false ->
             CreateLightweightCsv.close existing_row row = Ok false).
  { intros existing_row row elat elng rlat rlng He Hr Hf.
    rewrite close_near by (unfold has_coords; now rewrite ?He, ?Hr).
    apply f_equal. unfold near. rewrite He, Hr.
    destruct Hf as [Hf | [Hf | [Hf | Hf]]].
    - now rewrite (proj2 (within_non_finite rlat elat Hf)).
    - rewrite (proj2 (within_non_finite rlng elng Hf)). apply andb_false_r.
    - now rewrite (proj1 (within_non_finite elat rlat Hf)).
    - rewrite (proj1 (within_non_finite elng rlng Hf)). apply andb_false_r. }
  split; [repeat split; vm_compute; reflexivity |].
  split; [exact Hclose |].
  split; [| split; vm_compute; reflexivity].
  intros target_list row lat lng rest Ht Hr Hf.
  assert (Hd : CreateLightweightCsv.is_duplicate target_list row = Ok false).
  { apply is_duplicate_false. eapply Forall_impl; [| exact Ht].
    intros e He. unfold has_coords in He.
    destruct (coords e) as [[elat elng] |] eqn:Ee; [| discriminate].
    apply (Hclose e row elat elng lat lng Ee Hr). tauto. }
  split; [exact Hd |].
  cbn [CreateLightweightCsv.merge_rows]. now rewrite Hd.
Qed.

(* ================================================================== *)
(** * [main] of the lightweight script, end to end *)
(* ================================================================== *)

Section LightweightMain.
Import CreateLightweightCsv.

Lemma keys_combine (names cells : list string) :
  length cells = length names -> keys (combine names cells) = names.
Proof.
  revert cells. induction names as [|n names IH]; intros [|c cells] Hl;
    try discriminate; [reflexivity |].
  cbn. f_equal. apply IH. now inversion Hl.
Qed.

Lemma row_of_keys (names : list string) (row : Row) :
  row_of names row -> keys row = names.
Proof. intros [cells [_ [Hl ->]]]. now apply keys_combine. Qed.

Lemma integrated_content_table (names : list string) (rows : list Row) :
  Forall (row_of names) rows ->
  integrated_content rows = match rows with
                            | [] => []
                            | _ :: _ => table names rows
                            end.
Proof.
  intros H. destruct rows as [|row rows]; [reflexivity |].
  unfold integrated_content. inversion H; subst.
  now rewrite (row_of_keys names row).
Qed.

Lemma row_of_uniform (names : list string) (rows : list Row) :
  Forall (row_of names) rows -> uniform rows.
Proof.
  intros H. apply (same_keys_uniform names). intros row Hrow.
  rewrite Forall_forall in H. now apply row_of_keys, H.
Qed.

Lemma Forall_incl {A : Type} (P : A -> Prop) (l l' : list A) :
  incl l l' -> Forall P l' -> Forall P l.
Proof.
  intros Hi H. apply Forall_forall. intros x Hx. rewrite Forall_forall in H.
  now apply H, Hi.
Qed.

Lemma inner_incl (rows : list Row) : incl (inner rows) rows.
Proof. intros row H. unfold inner in H. apply filter_In in H. tauto. Qed.

Lemma top_incl (max_items : Z) (rows : list Row) : incl (top max_items rows) rows.
Proof.
  intros row H. unfold top in H. apply select_rows_In in H.
  destruct H as [score [Hin _]]. exact Hin.
Qed.

Lemma merged_incl (max_items : Z) (rows : list Row) :
  incl (merged max_items rows) rows.
Proof.
  unfold merged. destruct (dedup_extends (inner rows ++ top max_items rows) [])
    as [kept [-> Hk]]. cbn [app].
  intros row H. apply Hk, in_app_iff in H.
  destruct H as [H | H]; [now apply inner_incl in H | now apply top_incl in H].
Qed.

Lemma main_outputs (fs : FS)
  (public_names : list string) (public_recs : list (list string))
  (station_names : list string) (station_recs : list (list string)) :
  read_file fs "data/barrier_free_toilets.csv" = Some (public_names :: public_recs) ->
  read_file fs "data/station_barrier_free_toilets.csv"
  = Some (station_names :: station_recs) ->
  readable public_names public_recs ->
  readable station_names station_recs ->
  main fs
  = (write_files
       (outputs public_names (DictReader (public_names :: public_recs))
          station_names (DictReader (station_names :: station_recs)))
       fs,
     Ok tt).
Proof.
  intros Hp Hs [Hpd [Hpr [Hpn [Hpa Hpc]]]] [Hsd [Hsr [Hsn [Hsa Hsc]]]].
  set (rows_p := DictReader (public_names :: public_recs)) in *.
  set (rows_s := DictReader (station_names :: station_recs)) in *.
  pose proof (DictReader_row_of _ _ Hpd Hpr) as Rp. fold rows_p in Rp.
  pose proof (DictReader_row_of _ _ Hsd Hsr) as Rs. fold rows_s in Rs.
  unfold main, outputs, write_files. cbn [fold_left fst snd].
  rewrite (create_lightweight_csv_kept _ _ _ fs _ _ Hp Hpa Hpr). cbv zeta.
  fold rows_p. fold (inner rows_p).
  set (fs1 := write_file fs _ (table public_names (inner rows_p))).
  assert (Hs1 : read_file fs1 "data/station_barrier_free_toilets.csv"
                = Some (station_names :: station_recs))
    by (unfold fs1; rewrite read_write_other by discriminate; exact Hs).
  rewrite (create_lightweight_csv_kept _ _ _ fs1 _ _ Hs1 Hsa Hsr). cbv zeta.
  fold rows_s. fold (inner rows_s).
  set (fs2 := write_file fs1 _ (table station_names (inner rows_s))).
  assert (Hp2 : read_file fs2 "data/barrier_free_toilets.csv"
                = Some (public_names :: public_recs))
    by (unfold fs2, fs1; rewrite !read_write_other by discriminate; exact Hp).
  rewrite (create_priority_csv_writes fs2 _ _ _ _ (qualifying rows_p) 1000 Hp2)
    by (apply score_rows_all; now apply (rows_have_name_address public_names)).
  fold (top 1000 rows_p).
  set (fs3 := write_file fs2 _ (table public_names (top 1000 rows_p))).
  assert (Hs3 : read_file fs3 "data/station_barrier_free_toilets.csv"
                = Some (station_names :: station_recs))
    by (unfold fs3, fs2; rewrite !read_write_other by discriminate; exact Hs1).
  rewrite (create_priority_csv_writes fs3 _ _ _ _ (qualifying rows_s) 500 Hs3)
    by (apply score_rows_all; now apply (rows_have_name_address station_names)).
  fold (top 500 rows_s).
  set (fs4 := write_file fs3 _ (table station_names (top 500 rows_s))).
  assert (Ri : forall names rows, Forall (row_of names) rows ->
                                  Forall (row_of names) (inner rows))
    by (intros names rows; apply Forall_incl, inner_incl).
  assert (Rt : forall names n rows, Forall (row_of names) rows ->
                                    Forall (row_of names) (top n rows))
    by (intros names n rows; apply Forall_incl, top_incl).
  unfold integrate.
  rewrite (merge_files_dedup fs4
             (table public_names (inner rows_p)) (table station_names (inner rows_s))
             (table public_names (top 1000 rows_p))
             (table station_names (top 500 rows_s))).
  - rewrite !DictReader_table by auto.
    fold (merged 1000 rows_p). fold (merged 500 rows_s).
    unfold write_outputs.
    rewrite write_integrated_uniform
      by (apply (row_of_uniform public_names);
          eapply Forall_incl; [apply merged_incl | exact Rp]).
    rewrite write_integrated_uniform
      by (apply (row_of_uniform station_names);
          eapply Forall_incl; [apply merged_incl | exact Rs]).
    reflexivity.
  - unfold fs4, fs3, fs2, fs1. rewrite !read_write_other by discriminate.
    apply read_write_same.
  - unfold fs4, fs3, fs2. rewrite !read_write_other by discriminate.
    apply read_write_same.
  - unfold fs4, fs3. rewrite !read_write_other by discriminate.
    apply read_write_same.
  - unfold fs4. apply read_write_same.
  - rewrite !DictReader_table by auto.
    repeat (apply Forall_app; split);
      (eapply Forall_incl; [first [apply inner_incl | apply top_incl] |]);
      assumption.
Qed.

End LightweightMain.

(** X16: on inputs that every step can read, [main] of the lightweight script
    succeeds and is exactly six writes: the inner-ward rows and the top 1000
    and top 500 rows of each input under their headers, and for each input
    the integrated file, which holds the inner-ward rows followed by the top
    rows with later duplicates dropped, under the header of the input, or
    nothing at all when there is no such row. *)
Theorem lightweight_main_end_to_end (fs : FS)
  (public_names : list string) (public_recs : list (list string))
  (station_names : list string) (station_recs : list (list string)) :
  read_file fs "data/barrier_free_toilets.csv" = Some (public_names :: public_recs) ->
  read_file fs "data/station_barrier_free_toilets.csv"
  = Some (station_names :: station_recs) ->
  readable public_names public_recs ->
  readable station_names station_recs ->
  let public_rows := DictReader (public_names :: public_recs) in
  let station_rows := DictReader (station_names :: station_recs) in
  CreateLightweightCsv.main fs
  = (write_files (outputs public_names public_rows station_names station_rows) fs,
     Ok tt)
  /\ integrated_content (merged 1000 public_rows)
     = match merged 1000 public_rows with
       | [] => []
       | _ :: _ => table public_names (merged 1000 public_rows)
       end
  /\ integrated_content (merged 500 station_rows)
     = match merged 500 station_rows with
       | [] => []
       | _ :: _ => table station_names (merged 500 station_rows)
       end
  /\ (forall path file,
         In (path, file)
            (outputs public_names public_rows station_names station_rows) ->
         read_file (fst (CreateLightweightCsv.main fs)) path = Some file)
  /\ (forall path,
         ~ In path
             (map fst (outputs public_names public_rows station_names station_rows)) ->
         read_file (fst (CreateLightweightCsv.main fs)) path = read_file fs path).
Proof.
  intros Hp Hs Rp Rs public_rows station_rows.
  pose proof (main_outputs fs _ _ _ _ Hp Hs Rp Rs) as E.
  fold public_rows station_rows in E.
  destruct Rp as [Hpd [Hpr _]]. destruct Rs as [Hsd [Hsr _]].
  split; [exact E |]. split; [| split; [| split]].
  - apply integrated_content_table.
    eapply Forall_incl; [apply merged_incl | now apply DictReader_row_of].
  - apply integrated_content_table.
    eapply Forall_incl; [apply merged_incl | now apply DictReader_row_of].
  - intros path file Hin. rewrite E.
    unfold outputs, write_files in *. cbn [fold_left fst snd].
    cbn [In] in Hin.
    repeat (destruct Hin as [Hin | Hin];
            [inversion Hin; subst; rewrite ?read_write_other by discriminate;
             apply read_write_same |]).
    destruct Hin.
  - intros path Hpath. rewrite E.
    unfold outputs, write_files in *. cbn [fold_left fst snd map In] in *.
    rewrite !read_write_other; [reflexivity | | | | | |]; intros <-; tauto.
Qed.

(** The six files for a public input with a city hall outside the inner
    wards and a ward office inside them, and a station input with one
    station. *)
Lemma lightweight_main_end_to_end_witness :
  CreateLightweightCsv.main SplitterExamples.fs_city
  = (write_files
       [ ("data/lightweight/yamanote_inner_public.csv",
          [SplitterExamples.header; SplitterExamples.ward_office]);
         ("data/lightweight/yamanote_inner_station.csv", [SplitterExamples.header]);
         ("data/lightweight/priority_public.csv",
          [SplitterExamples.header; SplitterExamples.ward_office]);
         ("data/lightweight/priority_station.csv",
          [SplitterExamples.header; SplitterExamples.station]);
         ("data/lightweight/integrated_public.csv",
          [SplitterExamples.header; SplitterExamples.ward_office]);
         ("data/lightweight/integrated_station.csv",
          [SplitterExamples.header; SplitterExamples.station]) ]
       SplitterExamples.fs_city,
     Ok tt).
Proof.
  refine (proj1 (lightweight_main_end_to_end SplitterExamples.fs_city
                   SplitterExamples.header
                   [SplitterExamples.city_hall; SplitterExamples.ward_office]
                   SplitterExamples.header [SplitterExamples.station]
                   eq_refl eq_refl _ _)).
  - unfold readable. repeat split.
    + repeat (constructor; [simpl; intuition discriminate |]). constructor.
    + repeat (constructor; [right; reflexivity |]). constructor.
    + simpl. tauto.
    + simpl. tauto.
    + repeat (constructor; [vm_compute; reflexivity |]). constructor.
  - unfold readable. repeat split.
    + repeat (constructor; [simpl; intuition discriminate |]). constructor.
    + repeat (constructor; [right; reflexivity |]). constructor.
    + simpl. tauto.
    + simpl. tauto.
    + repeat (constructor; [vm_compute; reflexivity |]). constructor.
Defined.

(* ================================================================== *)
(** * [str.strip] *)
(* ================================================================== *)

Section Strip.

Lemma string_rev_app (a b : string) :
  string_rev (a ++ b) = (string_rev b ++ string_rev a)%string.
Proof.
  induction a as [|x a IH]; simpl.
  - now rewrite append_nil_r.
  - now rewrite IH, append_assoc.
Qed.

Lemma string_rev_involutive (s : string) : string_rev (string_rev s) = s.
Proof.
  induction s as [|x s IH]; simpl; [reflexivity |].
  now rewrite string_rev_app, IH.
Qed.

Lemma string_rev_length (s : string) : String.length (string_rev s) = String.length s.
Proof.
  induction s as [|x s IH]; simpl; [reflexivity |].
  rewrite length_append, IH. simpl. lia.
Qed.

Lemma drop_suffix (n : nat) (s : string) :
  exists a, s = (a ++ drop n s)%string.
Proof.
  revert s. induction n as [|n IH]; intros s; [now exists "" |].
  destruct s as [|x s]; [now exists "" |].
  destruct (IH s) as [a Ha]. exists (String x a). simpl. now rewrite <- Ha.
Qed.

Lemma drop_length (n : nat) (s : string) :
  String.length (drop n s) = String.length s - n.
Proof.
  revert s. induction n as [|n IH]; intros [|x s]; simpl; auto.
Qed.

Lemma prefix_length (w s : string) :
  String.prefix w s = true -> String.length w <= String.length s.
Proof.
  intros H. apply prefix_app_iff in H. destruct H as [rest ->].
  rewrite length_append. lia.
Qed.

Lemma prefix_app_l (w a b : string) :
  String.prefix w a = true -> String.prefix w (a ++ b) = true.
Proof.
  intros H. apply prefix_app_iff in H. destruct H as [rest ->].
  apply prefix_app_iff. exists (rest ++ b)%string. now rewrite append_assoc.
Qed.

(** A pattern that starts [a ++ c] starts [a], or goes on after [a] with a
    non-empty start of [c]. *)
Lemma prefix_app_cases (w a c : string) :
  String.prefix w (a ++ c) = true ->
  String.prefix w a = true
  \/ exists w2, truthy w2 = true /\ w = (a ++ w2)%string /\ String.prefix w2 c = true.
Proof.
  revert w. induction a as [|x a IH]; intros w H.
  - destruct w as [|y w]; [left; reflexivity |].
    right. exists (String y w). auto.
  - destruct w as [|y w]; [left; reflexivity |].
    cbn [append] in H. apply prefix_app_iff in H. destruct H as [rest H].
    inversion H; subst y.
    assert (Hw : String.prefix w (a ++ c) = true)
      by (apply prefix_app_iff; now exists rest).
    destruct (IH w Hw) as [Hp | [w2 [Ht [-> Hp]]]].
    + left. apply prefix_app_iff in Hp. destruct Hp as [r ->].
      apply prefix_app_iff. now exists r.
    + right. exists w2. auto.
Qed.

Section Patterns.
Variable ws : list string.
Hypothesis ws_truthy : Forall (fun w => truthy w = true) ws.

Lemma ws_len_zero (s : string) :
  ws_len ws s = 0 <-> forall w, In w ws -> String.prefix w s = false.
Proof.
  unfold ws_len. destruct (find (fun w => String.prefix w s) ws) as [w |] eqn:E.
  - apply find_some in E. destruct E as [Hin Hp].
    rewrite Forall_forall in ws_truthy. specialize (ws_truthy w Hin).
    split.
    + intros H. destruct w; [discriminate | discriminate].
    + intros H. rewrite (H w Hin) in Hp. discriminate.
  - split; [intros _ | reflexivity]. now apply find_none_iff.
Qed.

Lemma ws_len_le (s : string) : ws_len ws s <= String.length s.
Proof.
  unfold ws_len. destruct (find (fun w => String.prefix w s) ws) as [w |] eqn:E;
    [| lia].
  apply find_some in E. now apply prefix_length.
Qed.

Lemma lstrip_with_clean (s : string) :
  ws_len ws s = 0 -> forall fuel, lstrip_with ws fuel s = s.
Proof. intros H [|fuel]; cbn [lstrip_with]; [reflexivity | now rewrite H]. Qed.

(** With fuel for every character, what is left starts with no pattern and
    closes the string. *)
Lemma lstrip_with_spec (fuel : nat) :
  forall s,
    String.length s <= fuel ->
    ws_len ws (lstrip_with ws fuel s) = 0
    /\ exists a, s = (a ++ lstrip_with ws fuel s)%string.
Proof.
  induction fuel as [|fuel IH]; intros s Hl; cbn [lstrip_with].
  - destruct s; [| simpl in Hl; lia]. split; [| now exists ""].
    apply ws_len_zero. intros w Hw. rewrite Forall_forall in ws_truthy.
    specialize (ws_truthy w Hw). now destruct w.
  - destruct (ws_len ws s) as [|n] eqn:E.
    + split; [exact E | now exists ""].
    + pose proof (ws_len_le s) as Hle. rewrite E in Hle.
      destruct (IH (drop (S n) s)) as [Hc [a Ha]].
      { rewrite drop_length. lia. }
      split; [exact Hc |].
      destruct (drop_suffix (S n) s) as [b Hb]. exists (b ++ a)%string.
      now rewrite append_assoc, <- Ha.
Qed.

End Patterns.

Lemma whitespace_truthy : Forall (fun w => truthy w = true) whitespace.
Proof. apply Forall_forall, forallb_forall. vm_compute. reflexivity. Qed.

Lemma whitespace_rev_truthy :
  Forall (fun w => truthy w = true) (map string_rev whitespace).
Proof. apply Forall_forall, forallb_forall. vm_compute. reflexivity. Qed.

(** A string without white space at either end is left as it is. *)
Lemma strip_fixed (s : string) : leading s = 0 -> trailing s = 0 -> strip s = s.
Proof.
  unfold leading, trailing, strip, lstrip, rstrip. intros Hl Ht.
  rewrite (lstrip_with_clean whitespace s Hl).
  rewrite (lstrip_with_clean _ _ Ht). apply string_rev_involutive.
Qed.

(** What [strip] returns has no white space at either end. *)
Lemma strip_clean (s : string) : leading (strip s) = 0 /\ trailing (strip s) = 0.
Proof.
  unfold leading, trailing, strip.
  destruct (lstrip_with_spec whitespace whitespace_truthy (String.length s) s
              (le_n _)) as [Hu _].
  fold (lstrip s) in Hu. set (u := lstrip s) in *.
  unfold rstrip.
  destruct (lstrip_with_spec _ whitespace_rev_truthy (String.length u)
              (string_rev u)) as [Ht [a Ha]].
  { rewrite string_rev_length. lia. }
  set (t := lstrip_with (map string_rev whitespace) (String.length u) (string_rev u))
    in *.
  split.
  - apply (ws_len_zero whitespace whitespace_truthy). intros w Hw.
    destruct (String.prefix w (string_rev t)) eqn:E; [| reflexivity].
    assert (Eu : u = (string_rev t ++ string_rev a)%string).
    { rewrite <- string_rev_app, <- Ha. symmetry. apply string_rev_involutive. }
    apply (prefix_app_l w _ (string_rev a)) in E. rewrite <- Eu in E.
    pose proof (proj1 (ws_len_zero whitespace whitespace_truthy u) Hu w Hw) as Hf.
    congruence.
  - now rewrite string_rev_involutive.
Qed.

Lemma strip_idempotent (s : string) : strip (strip s) = strip s.
Proof. destruct (strip_clean s). now apply strip_fixed. Qed.

(** No white-space character has a space after its first byte. *)
Lemma whitespace_space :
  Forall (fun w => py_in " " (drop 1 w) = false) whitespace
  /\ Forall (fun w => py_in " " (drop 1 w) = false) (map string_rev whitespace).
Proof.
  assert (H : forall l,
             forallb (fun w => negb (py_in " " (drop 1 w))) l = true ->
             Forall (fun w => py_in " " (drop 1 w) = false) l).
  { intros l Hl. apply Forall_forall. intros w Hw.
    rewrite forallb_forall in Hl. apply negb_true_iff. now apply Hl. }
  split; apply H; vm_compute; reflexivity.
Qed.

Section Join.
Variable ws : list string.
Hypothesis ws_truthy : Forall (fun w => truthy w = true) ws.
Hypothesis ws_space : Forall (fun w => py_in " " (drop 1 w) = false) ws.

(** Joining with a space after a clean, non-empty start leaves the start
    clean. *)
Lemma ws_len_join (a b : string) :
  ws_len ws a = 0 -> truthy a = true -> ws_len ws (a ++ " " ++ b) = 0.
Proof.
  intros Ha Ht. apply (ws_len_zero ws ws_truthy). intros w Hw.
  destruct (String.prefix w (a ++ " " ++ b)) eqn:E; [exfalso | reflexivity].
  apply prefix_app_cases in E. destruct E as [E | [w2 [Ht2 [-> Hp]]]].
  - pose proof (proj1 (ws_len_zero ws ws_truthy a) Ha w Hw). congruence.
  - rewrite Forall_forall in ws_space. specialize (ws_space _ Hw).
    destruct w2 as [|y w3]; [discriminate |].
    cbn [append] in Hp. apply prefix_app_iff in Hp. destruct Hp as [rest Hp].
    inversion Hp; subst y.
    destruct a as [|x a]; [discriminate |]. cbn [append drop] in ws_space.
    assert (Hin : py_in " " (a ++ String " " w3) = true)
      by (apply py_in_iff; exists a, w3; reflexivity).
    congruence.
Qed.

End Join.

Lemma ws_len_space_rev (s : string) :
  ws_len (map string_rev whitespace) (String " " s) = 1.
Proof. destruct s; reflexivity. Qed.

Lemma truthy_rev (s : string) : truthy s = true -> truthy (string_rev s) = true.
Proof. destruct s as [|x s]; [discriminate |]. intros _. now apply truthy_app_r. Qed.

Lemma strip_space_l (b : string) :
  leading b = 0 -> trailing b = 0 -> strip (" " ++ b) = b.
Proof.
  intros Hl Ht. unfold strip.
  assert (E : lstrip (" " ++ b) = b).
  { unfold lstrip. cbn [append String.length lstrip_with].
    rewrite ws_len_blank by reflexivity. cbn [drop].
    now apply lstrip_with_clean. }
  rewrite E. unfold rstrip. rewrite (lstrip_with_clean _ _ Ht).
  apply string_rev_involutive.
Qed.

Lemma strip_space_r (a : string) :
  leading a = 0 -> trailing a = 0 -> truthy a = true -> strip (a ++ " ") = a.
Proof.
  intros Hl Ht Ha. unfold strip.
  destruct whitespace_space as [Hs Hsr].
  assert (E : lstrip (a ++ " ") = (a ++ " ")%string).
  { unfold lstrip. apply lstrip_with_clean.
    exact (ws_len_join whitespace whitespace_truthy Hs a "" Hl Ha). }
  rewrite E. unfold rstrip.
  rewrite string_rev_app, length_append. cbn [string_rev append String.length].
  rewrite Nat.add_1_r. cbn [lstrip_with]. rewrite ws_len_space_rev. cbn [drop].
  rewrite (lstrip_with_clean _ _ Ht). apply string_rev_involutive.
Qed.

Lemma strip_join (a b : string) :
  leading a = 0 -> truthy a = true -> trailing b = 0 -> truthy b = true ->
  strip (a ++ " " ++ b) = (a ++ " " ++ b)%string.
Proof.
  intros Hl Ha Ht Hb. destruct whitespace_space as [Hs Hsr].
  apply strip_fixed.
  - exact (ws_len_join whitespace whitespace_truthy Hs a b Hl Ha).
  - unfold trailing. rewrite string_rev_app. cbn [string_rev append].
    rewrite append_assoc. cbn [append].
    apply (ws_len_join _ whitespace_rev_truthy Hsr (string_rev b) (string_rev a));
      [exact Ht | now apply truthy_rev].
Qed.

End Strip.

(* ================================================================== *)
(** * The pin formatter *)
(* ================================================================== *)

Section PinFormat.
Import CsvToPinFormat.

Lemma pin_data_known (row : Row) : fields_known pin_fieldnames (pin_data row).
Proof. reflexivity. Qed.

Lemma pin_data_cells (row : Row) :
  map (fun n => get_default (pin_data row) n "") pin_fieldnames
  = map snd (pin_data row).
Proof. reflexivity. Qed.

Lemma transform_to_pin_format_pins (input : File) :
  transform_to_pin_format input
  = (pin_fieldnames
     :: map (fun row => map snd (pin_data row))
          (filter (fun row => truthy (strip (get_default row "施設名" "")))
             (DictReader input)),
     Ok tt).
Proof.
  unfold transform_to_pin_format. rewrite write_table_known.
  - unfold table. rewrite map_map. f_equal.
  - apply Forall_forall. intros row Hrow. apply in_map_iff in Hrow.
    destruct Hrow as [src [<- _]]. apply pin_data_known.
Qed.

End PinFormat.

(** X17: on an input without a record shorter than its header the pin formatter
    cannot fail: it writes the eight field names and then one line of eight
    cells for every row whose facility name is not blank, in input order; the
    first cell of a line, the name, is never empty and the sixth is the fixed
    colour. *)
Theorem pin_formatter_writes_a_pin_per_named_row (input : File) :
  complete input ->
  let named :=
    filter (fun row => truthy (strip (get_default row "施設名" "")))
      (DictReader input) in
  let lines := map (fun row => map snd (CsvToPinFormat.pin_data row)) named in
  CsvToPinFormat.transform_to_pin_format input
  = (["name"; "address"; "floor"; "toilet_name"; "note"; "color"; "lng"; "lat"]
     :: lines, Ok tt)
  /\ length lines = length named
  /\ Forall (fun line =>
               length line = 8
               /\ truthy (nth 0 line "") = true
               /\ nth 5 line "" = "#00cc00")
            lines.
Proof.
  intros _ named lines. split; [apply transform_to_pin_format_pins |].
  split; [apply length_map |].
  apply Forall_forall. intros line Hline. apply in_map_iff in Hline.
  destruct Hline as [row [<- Hrow]]. apply filter_In in Hrow.
  destruct Hrow as [_ Hname]. repeat split. exact Hname.
Qed.

Lemma pin_formatter_writes_a_pin_per_named_row_witness :
  complete ScriptExamples.source
  /\ CsvToPinFormat.transform_to_pin_format ScriptExamples.source
     = ([ ["name"; "address"; "floor"; "toilet_name"; "note"; "color"; "lng"; "lat"];
          ["都庁"; "東京都 新宿区西新宿二丁目"; ""; ""; ""; "#00cc00"; ""; ""] ],
        Ok tt).
Proof.
  assert (H : complete ScriptExamples.source).
  { repeat constructor; right; simpl; lia. }
  split; [exact H |].
  exact (proj1 (pin_formatter_writes_a_pin_per_named_row ScriptExamples.source H)).
Defined.

(** X18: the name, address, floor, toilet name, longitude and latitude of a pin
    have no white space at either end: trimming any of them again changes
    nothing. *)
Theorem pin_cells_are_trimmed (row : Row) :
  Forall (fun field =>
            strip (get_default (CsvToPinFormat.pin_data row) field "")
            = get_default (CsvToPinFormat.pin_data row) field "")
         ["name"; "address"; "floor"; "toilet_name"; "lng"; "lat"].
Proof.
  repeat (constructor; [apply strip_idempotent |]). constructor.
Qed.

(** X19: the address of a pin is the trimmed prefecture and the trimmed
    municipality joined by one space; when one of the two is blank or
    missing it is the other one alone, with no space left over, and when
    both are it is empty. *)
Theorem pin_address_joins_trimmed_parts (row : Row) :
  let prefecture := strip (get_default row "都道府県" "") in
  let municipality := strip (get_default row "市区町村・番地" "") in
  get_default (CsvToPinFormat.pin_data row) "address" ""
  = match prefecture, municipality with
    | EmptyString, _ => municipality
    | _, EmptyString => prefecture
    | _, _ => (prefecture ++ " " ++ municipality)%string
    end.
Proof.
  cbv zeta.
  change (get_default (CsvToPinFormat.pin_data row) "address" "")
    with (strip (strip (get_default row "都道府県" "") ++ " "
                 ++ strip (get_default row "市区町村・番地" ""))).
  destruct (strip_clean (get_default row "都道府県" "")) as [Hpl Hpt].
  destruct (strip_clean (get_default row "市区町村・番地" "")) as [Hml Hmt].
  destruct (strip (get_default row "都道府県" "")) as [|x p] eqn:Ep;
    destruct (strip (get_default row "市区町村・番地" "")) as [|y m] eqn:Em.
  - vm_compute. reflexivity.
  - now apply strip_space_l.
  - change (String x p ++ " " ++ "")%string with (String x p ++ " ")%string.
    now apply strip_space_r.
  - now apply strip_join.
Qed.

(* ================================================================== *)
(** * The builtin transformer and what reads its output *)
(* ================================================================== *)

Section BuiltinOutput.
Import CsvTransformerBuiltin.

Lemma target_columns_NoDup : NoDup target_columns.
Proof.
  assert (E : nodup string_dec target_columns = target_columns)
    by (vm_compute; reflexivity).
  rewrite <- E. apply NoDup_nodup.
Qed.

Lemma combine_map_self {A B : Type} (f : A -> B) (l : list A) :
  combine l (map f l) = map (fun x => (x, f x)) l.
Proof. induction l as [|x l IH]; simpl; [reflexivity | now rewrite IH]. Qed.

Lemma columns_row_of (f : string -> string) :
  row_of target_columns (map (fun col => (col, f col)) target_columns).
Proof.
  exists (map f target_columns). split; [discriminate |].
  split; [apply length_map | symmetry; apply combine_map_self].
Qed.

Lemma written_rows_row_of (rows : list Row) :
  Forall (row_of target_columns) (written_rows rows).
Proof.
  unfold written_rows. constructor; [apply columns_row_of |].
  apply Forall_forall. intros row Hrow. apply in_map_iff in Hrow.
  destruct Hrow as [src [<- _]]. apply columns_row_of.
Qed.

Lemma transform_csv_table (input : File) :
  transform_csv input
  = (table target_columns (written_rows (DictReader input)), Ok tt).
Proof.
  unfold transform_csv. apply write_table_known.
  eapply Forall_impl; [| apply written_rows_row_of].
  intros row. apply row_of_fields_known.
Qed.

Lemma DictReader_transformed (input : File) :
  DictReader (fst (transform_csv input)) = written_rows (DictReader input).
Proof.
  rewrite transform_csv_table. cbn [fst].
  apply DictReader_table; [apply target_columns_NoDup | apply written_rows_row_of].
Qed.

Lemma target_row_get (row : Row) (col : string) :
  In col target_columns ->
  get_default (target_row row) col ""
  = if existsb (String.eqb col) boolean_columns
    then convert_boolean_value (get_default row col "")
    else get_default row col "".
Proof.
  intros Hin. unfold get_default at 1, target_row.
  now rewrite (get_map_self
                 (fun col =>
                    if existsb (String.eqb col) boolean_columns
                    then convert_boolean_value (get_default row col "")
                    else get_default row col "") _ col Hin).
Qed.

Lemma convert_boolean_value_cases (value : string) :
  convert_boolean_value value = "TRUE" \/ convert_boolean_value value = "FALSE".
Proof.
  unfold convert_boolean_value.
  destruct (String.eqb value "○"); [now left |].
  destruct (String.eqb value "×"); now right.
Qed.

Lemma convert_boolean_value_twice (value : string) :
  convert_boolean_value (convert_boolean_value value) = "FALSE".
Proof.
  destruct (convert_boolean_value_cases value) as [-> | ->]; reflexivity.
Qed.

(** The named rows of the output are the target rows of the named rows of
    the input: the empty row is not one, and a target row keeps the name. *)
Lemma named_written_rows (rows : list Row) :
  filter named (written_rows rows) = map target_row (filter named rows).
Proof.
  unfold written_rows. cbn [filter].
  change (named empty_row) with false.
  rewrite filter_map_comm.
  rewrite (filter_ext _ named)
    by (intros row; unfold named; rewrite target_row_get by (now left);
        reflexivity).
  f_equal. apply filter_all. apply Forall_forall. intros row Hrow.
  apply filter_In in Hrow. tauto.
Qed.

End BuiltinOutput.

Section BuiltinLines.
Import CsvTransformerBuiltin.

Lemma columns_cells (f : string -> string) :
  map (fun n => get_default (map (fun col => (col, f col)) target_columns) n "")
    target_columns
  = map f target_columns.
Proof.
  apply map_ext_in. intros n Hn. unfold get_default.
  now rewrite (get_map_self f _ n Hn).
Qed.

Lemma transform_csv_lines (input : File) :
  transform_csv input
  = (target_columns
     :: map (fun _ => "") target_columns
     :: map (fun row => map snd (target_row row)) (filter named (DictReader input)),
     Ok tt).
Proof.
  rewrite transform_csv_table. unfold table, written_rows. cbn [map].
  apply (f_equal (fun x => (x, Ok tt))). apply (f_equal (cons _)).
  apply f_equal2.
  - apply (columns_cells (fun _ => "")).
  - rewrite map_map. apply map_ext. intros row. unfold target_row.
    rewrite columns_cells, map_map. reflexivity.
Qed.

Lemma boolean_cells (row : Row) (i : nat) :
  9 <= i < 18 ->
  nth i (map snd (target_row row)) "" = "TRUE"
  \/ nth i (map snd (target_row row)) "" = "FALSE".
Proof.
  intros Hi. unfold target_row. rewrite map_map. cbn [snd].
  do 9 (destruct i as [|i]; [lia |]).
  do 9 (destruct i as [|i]; [apply convert_boolean_value_cases |]).
  lia.
Qed.

Lemma second_pass_line (row : Row) :
  map snd (target_row (target_row row)) = second_pass row.
Proof.
  unfold second_pass. unfold target_row at 1. rewrite map_map. cbn [snd].
  apply map_ext_in. intros col Hcol. rewrite target_row_get by exact Hcol.
  destruct (existsb (String.eqb col) boolean_columns); [| reflexivity].
  apply convert_boolean_value_twice.
Qed.

Lemma is_TRUE_target_row (row : Row) (col : string) :
  In col boolean_columns ->
  CsvToPinFormat.is_TRUE (get (target_row row) col)
  = String.eqb (get_default row col "") "○".
Proof.
  intros Hb.
  assert (Hin : In col target_columns).
  { revert Hb. unfold boolean_columns, target_columns. cbn [In]. tauto. }
  assert (Hex : existsb (String.eqb col) boolean_columns = true)
    by (apply existsb_exists; exists col; split; [exact Hb | apply String.eqb_refl]).
  pose proof (target_row_get row col Hin) as E. rewrite Hex in E.
  unfold get_default at 1 in E.
  destruct (get (target_row row) col) as [v |] eqn:G.
  - cbn [CsvToPinFormat.is_TRUE]. rewrite E. unfold convert_boolean_value.
    destruct (String.eqb (get_default row col "") "○"); [reflexivity |].
    now destruct (String.eqb (get_default row col "") "×").
  - exfalso. unfold target_row in G.
    rewrite (get_map_self _ _ col Hin) in G. discriminate.
Qed.

End BuiltinLines.

(** X20: on an input without a record shorter than its header the builtin
    transformer cannot fail, whatever the columns: it writes the 31 column
    names, a line of 31 empty cells and one line of 31 cells for every row
    whose facility name is not blank, in input order; the cells of the nine
    boolean columns are TRUE or FALSE and every other cell is the cell of the
    source column, empty without one. *)
Theorem builtin_transformer_output_shape (input : File) :
  complete input ->
  let kept := filter named (DictReader input) in
  let lines :=
    map (fun row => map snd (CsvTransformerBuiltin.target_row row)) kept in
  CsvTransformerBuiltin.transform_csv input
  = (CsvTransformerBuiltin.target_columns :: repeat "" 31 :: lines, Ok tt)
  /\ length lines = length kept
  /\ Forall (fun line =>
               length line = 31
               /\ forall i, 9 <= i < 18 ->
                            nth i line "" = "TRUE" \/ nth i line "" = "FALSE")
            lines
  /\ (forall row col,
         In col CsvTransformerBuiltin.target_columns ->
         get_default (CsvTransformerBuiltin.target_row row) col ""
         = if existsb (String.eqb col) CsvTransformerBuiltin.boolean_columns
           then CsvTransformerBuiltin.convert_boolean_value (get_default row col "")
           else get_default row col "").
Proof.
  intros _ kept lines. split; [apply transform_csv_lines |].
  split; [apply length_map |]. split; [| exact target_row_get].
  apply Forall_forall. intros line Hline. apply in_map_iff in Hline.
  destruct Hline as [row [<- _]]. split; [reflexivity |].
  intros i Hi. now apply boolean_cells.
Qed.

Lemma builtin_transformer_output_shape_witness :
  complete ScriptExamples.source
  /\ CsvTransformerBuiltin.transform_csv ScriptExamples.source
     = (CsvTransformerBuiltin.target_columns
        :: repeat "" 31
        :: map (fun row => map snd (CsvTransformerBuiltin.target_row row))
             (filter named (DictReader ScriptExamples.source)),
        Ok tt).
Proof.
  assert (H : complete ScriptExamples.source).
  { repeat constructor; right; simpl; lia. }
  split; [exact H |].
  exact (proj1 (builtin_transformer_output_shape ScriptExamples.source H)).
Defined.

(** X21: the builtin transformer is not idempotent: fed its own output for an
    input without a record shorter than its header, it keeps the same rows
    and every cell outside the nine boolean columns, and turns every cell of
    the boolean columns into FALSE, the TRUE cells included. *)
Theorem builtin_transformer_twice_clears_booleans (input : File) :
  complete input ->
  CsvTransformerBuiltin.transform_csv
    (fst (CsvTransformerBuiltin.transform_csv input))
  = (CsvTransformerBuiltin.target_columns
     :: repeat "" 31
     :: map second_pass (filter named (DictReader input)),
     Ok tt).
Proof.
  intros _.
  rewrite (transform_csv_lines (fst (CsvTransformerBuiltin.transform_csv input))).
  rewrite DictReader_transformed, named_written_rows, map_map.
  apply (f_equal (fun x => (x, Ok tt))). do 2 apply (f_equal (cons _)).
  apply map_ext. intros row. apply second_pass_line.
Qed.

Lemma builtin_transformer_twice_clears_booleans_witness :
  complete ScriptExamples.source
  /\ nth 9 (nth 2 (fst (CsvTransformerBuiltin.transform_csv ScriptExamples.source))
              []) "" = "TRUE"
  /\ CsvTransformerBuiltin.transform_csv
       (fst (CsvTransformerBuiltin.transform_csv ScriptExamples.source))
     = (CsvTransformerBuiltin.target_columns
        :: repeat "" 31
        :: map second_pass (filter named (DictReader ScriptExamples.source)),
        Ok tt)
  /\ nth 9 (nth 2 (fst (CsvTransformerBuiltin.transform_csv
                          (fst (CsvTransformerBuiltin.transform_csv
                                  ScriptExamples.source)))) []) "" = "FALSE".
Proof.
  assert (H : complete ScriptExamples.source).
  { repeat constructor; right; simpl; lia. }
  split; [exact H |]. split; [reflexivity |].
  split; [| reflexivity].
  exact (builtin_transformer_twice_clears_booleans ScriptExamples.source H).
Defined.

Lemma transform_to_pin_format_transformed (input : File) :
  CsvToPinFormat.transform_to_pin_format
    (fst (CsvTransformerBuiltin.transform_csv input))
  = (CsvToPinFormat.pin_fieldnames
     :: map (fun row =>
               map snd (CsvToPinFormat.pin_data (CsvTransformerBuiltin.target_row row)))
          (filter named (DictReader input)),
     Ok tt).
Proof.
  rewrite transform_to_pin_format_pins, DictReader_transformed.
  fold named. rewrite named_written_rows, map_map. reflexivity.
Qed.

(** X22: the pin formatter run on the output of the builtin transformer, for a
    source without a record shorter than its header, writes one pin for every
    row of the source whose facility name is not blank: a feature is in the
    note of a pin exactly when the source cell is ○, and every text the pin
    formatter reads is the text of the source. *)
Theorem pin_formatter_after_builtin_transformer (input : File) :
  complete input ->
  CsvToPinFormat.transform_to_pin_format
    (fst (CsvTransformerBuiltin.transform_csv input))
  = (CsvToPinFormat.pin_fieldnames
     :: map (fun row =>
               map snd (CsvToPinFormat.pin_data (CsvTransformerBuiltin.target_row row)))
          (filter named (DictReader input)),
     Ok tt)
  /\ (forall row,
         features_of (CsvTransformerBuiltin.target_row row)
         = map snd
             (filter (fun cl => String.eqb (get_default row (fst cl) "") "○")
                feature_labels))
  /\ (forall row col,
         In col pin_text_columns ->
         get_default (CsvTransformerBuiltin.target_row row) col ""
         = get_default row col "").
Proof.
  intros _. split; [| split].
  - apply transform_to_pin_format_transformed.
  - intros row. unfold features_of. f_equal. apply filter_ext_in.
    intros cl Hcl. apply is_TRUE_target_row.
    revert Hcl. unfold feature_labels. cbn [In].
    intros H. repeat (destruct H as [<- | H]; [cbn; tauto |]). destruct H.
  - intros row col Hcol.
    revert Hcol. unfold pin_text_columns. cbn [In]. intros H.
    repeat (destruct H as [<- | H];
            [rewrite target_row_get by (cbn; tauto); reflexivity |]).
    destruct H.
Qed.

Lemma pin_formatter_after_builtin_transformer_witness :
  complete ScriptExamples.source
  /\ CsvToPinFormat.transform_to_pin_format
       (fst (CsvTransformerBuiltin.transform_csv ScriptExamples.source))
     = ([ CsvToPinFormat.pin_fieldnames;
          ["都庁"; "東京都 新宿区西新宿二丁目"; ""; ""; "設備: 車椅子対応"; "#00cc00";
           ""; ""] ],
        Ok tt).
Proof.
  assert (H : complete ScriptExamples.source).
  { repeat constructor; right; simpl; lia. }
  split; [exact H |].
  exact (proj1 (pin_formatter_after_builtin_transformer ScriptExamples.source H)).
Defined.

(* ================================================================== *)
(** * The pandas transformer and what reads its output *)
(* ================================================================== *)

Section PandasOutput.
Import CsvTransformer.

Lemma lacking_named (rows : list Row) :
  Forall (fun row => get row "施設名" = None) rows -> filter named rows = [].
Proof.
  induction 1 as [|row rows Hrow H IH]; [reflexivity |]. cbn [filter].
  unfold named, get_default. rewrite Hrow.
  change (truthy (strip "")) with false. exact IH.
Qed.

(** The header of the output is the 31 English names, whatever was read. *)
Lemma transform_csv_header (input f : File) :
  transform_csv input = Ok f -> exists lines, f = map snd column_mapping :: lines.
Proof.
  unfold transform_csv. intros H.
  destruct (read_csv input) as [df | e]; [| discriminate]. cbn [bind] in H.
  destruct (filter_named df) as [df' | e]; [| discriminate]. cbn [bind] in H.
  assert (E : f = to_csv (prepend_empty_row
                            (fillna "" (convert_columns (map_columns df')))))
    by congruence.
  rewrite E. unfold to_csv. eexists.
  apply (f_equal (fun h => h :: _)).
  unfold prepend_empty_row, fillna. rewrite !map_map. cbn [fst].
  unfold map_columns. rewrite mapped_columns, converted_columns.
  rewrite map_map. reflexivity.
Qed.

Lemma english_header_lacks_name : ~ In "施設名" (map snd column_mapping).
Proof.
  intros H.
  assert (E : existsb (String.eqb "施設名") (map snd column_mapping) = true)
    by (apply existsb_exists; exists "施設名"; split;
        [exact H | apply String.eqb_refl]).
  vm_compute in E. discriminate.
Qed.


End PandasOutput.



(* ================================================================== *)
(** * The scripts in sequence *)
(* ================================================================== *)

Section Pipelines.
Import Sys.

Lemma builtin_main_source (fs : FS) (source : File) :
  read_file fs CsvTransformerBuiltinScript.input_file = Some source ->
  CsvTransformerBuiltinScript.main fs
  = (write_file fs CsvTransformerBuiltinScript.output_file
       (fst (CsvTransformerBuiltin.transform_csv source)),
     Returned).
Proof.
  intros H. unfold CsvTransformerBuiltinScript.main,
    CsvTransformerBuiltinScript.transform_csv.
  rewrite H. now rewrite transform_csv_table.
Qed.

Lemma pin_main_transformed (fs : FS) (transformed : File) :
  read_file fs CsvToPinFormatScript.input_file = Some transformed ->
  CsvToPinFormatScript.main fs
  = (write_file fs CsvToPinFormatScript.output_file
       (fst (CsvToPinFormat.transform_to_pin_format transformed)),
     Returned).
Proof.
  intros H. unfold CsvToPinFormatScript.main,
    CsvToPinFormatScript.transform_to_pin_format.
  rewrite H. now rewrite transform_to_pin_format_pins.
Qed.

Lemma pins_of_pandas_output (input f : File) :
  CsvTransformer.transform_csv input = Ok f ->
  hd_error f = Some (map snd CsvTransformer.column_mapping)
  /\ CsvToPinFormat.transform_to_pin_format f
     = ([CsvToPinFormat.pin_fieldnames], Ok tt).
Proof.
  intros H. destruct (transform_csv_header input f H) as [lines ->].
  split; [reflexivity |].
  rewrite transform_to_pin_format_pins. fold named.
  rewrite lacking_named; [reflexivity |].
  apply DictReader_lacks, english_header_lacks_name.
Qed.

End Pipelines.

(** X24: with a source file in place that has no record shorter than its
    header, the builtin transformer and then the pin formatter both run to
    their end, and leave the transformed file and the file of pins, one pin
    for every named row of the source; without the source file the
    transformer exits with status 1 and writes nothing, and so does the pin
    formatter without a transformed file. *)
Theorem builtin_transformer_then_pin_formatter (fs : FS) :
  (forall source,
      read_file fs CsvTransformerBuiltinScript.input_file = Some source ->
      complete source ->
      let transformed := fst (CsvTransformerBuiltin.transform_csv source) in
      let fs1 :=
        write_file fs CsvTransformerBuiltinScript.output_file transformed in
      CsvTransformerBuiltinScript.main fs = (fs1, Sys.Returned)
      /\ CsvToPinFormatScript.main fs1
         = (write_file fs1 CsvToPinFormatScript.output_file
              (CsvToPinFormat.pin_fieldnames
               :: map (fun row =>
                         map snd (CsvToPinFormat.pin_data
                                    (CsvTransformerBuiltin.target_row row)))
                    (filter named (DictReader source))),
            Sys.Returned))
  /\ (read_file fs CsvTransformerBuiltinScript.input_file = None ->
      CsvTransformerBuiltinScript.main fs = (fs, Sys.Exited 1))
  /\ (read_file fs CsvToPinFormatScript.input_file = None ->
      CsvToPinFormatScript.main fs = (fs, Sys.Exited 1)).
Proof.
  split; [| split].
  - intros source H _ transformed fs1.
    split; [now apply builtin_main_source |].
    rewrite (pin_main_transformed fs1 transformed) by apply read_write_same.
    unfold transformed.
    now rewrite transform_to_pin_format_transformed.
  - intros H. unfold CsvTransformerBuiltinScript.main. now rewrite H.
  - intros H. unfold CsvToPinFormatScript.main. now rewrite H.
Qed.

(** X25: the pin formatter run on the output of the pandas transformer writes
    no pin at all: that output is headed by the 31 English column names, the
    facility name is not among them, and every row is skipped for want of a
    name, the header of the pins being all that is written.  The pandas
    transformer itself writes its output last: when it exits with status 1,
    for want of the source file or for a source it cannot transform, nothing
    has been written.  The source is one whose first line pandas reads as the
    header and whose records are no longer than it. *)
Theorem pandas_transformer_then_pin_formatter :
  (forall input f,
      CsvTransformer.transform_csv input = Ok f ->
      hd_error f = Some (map snd CsvTransformer.column_mapping)
      /\ CsvToPinFormat.transform_to_pin_format f
         = ([CsvToPinFormat.pin_fieldnames], Ok tt))
  /\ ~ In "施設名" (map snd CsvTransformer.column_mapping)
  /\ (forall fs names recs,
         read_file fs CsvTransformerScript.input_file = Some (names :: recs) ->
         negb (is_blank names || CsvTransformer.whitespace_line names) = true ->
         Forall (fun r => length r <= length names) recs ->
         match CsvTransformer.transform_csv (names :: recs) with
         | Ok f =>
             let fs1 := write_file fs CsvTransformerScript.output_file f in
             CsvTransformerScript.main fs = (fs1, Sys.Returned)
             /\ CsvToPinFormatScript.main fs1
                = (write_file fs1 CsvToPinFormatScript.output_file
                     [CsvToPinFormat.pin_fieldnames],
                   Sys.Returned)
         | Raise _ => CsvTransformerScript.main fs = (fs, Sys.Exited 1)
         end)
  /\ (forall fs,
         read_file fs CsvTransformerScript.input_file = None ->
         CsvTransformerScript.main fs = (fs, Sys.Exited 1))
  /\ (exists f, CsvTransformer.transform_csv ScriptExamples.source = Ok f).
Proof.
  split; [exact pins_of_pandas_output |].
  split; [exact english_header_lacks_name |].
  split; [| split].
  - intros fs names recs H _ _.
    unfold CsvTransformerScript.main, CsvTransformerScript.transform_csv.
    rewrite H.
    destruct (CsvTransformer.transform_csv (names :: recs)) as [f | e] eqn:E;
      [| reflexivity].
    cbv zeta. split; [reflexivity |].
    rewrite (pin_main_transformed _ f) by apply read_write_same.
    now rewrite (proj2 (pins_of_pandas_output (names :: recs) f E)).
  - intros fs H. unfold CsvTransformerScript.main. now rewrite H.
  - eexists. vm_compute. reflexivity.
Qed.

(* ================================================================== *)
(** * Running the integration of the Tama files again *)
(* ================================================================== *)

Section IntegrateAgain.
Import SplitTamaData.

Lemma write_file_same (fs : FS) (p : string) (f : File) :
  read_file fs p = Some f -> write_file fs p f = fs.
Proof.
  induction fs as [|[q g] fs IH]; cbn [read_file write_file]; [discriminate |].
  destruct (String.eqb q p); intros H; [now inversion H | now rewrite IH].
Qed.

(** Writing the same files once more changes nothing. *)
Lemma write_all_again (files : list (string * (File * result unit))) :
  NoDup (map fst files) ->
  forall fs, write_all files (fst (write_all files fs)) = write_all files fs.
Proof.
  induction files as [|[p [f r]] files IH]; intros Hnd fs; [reflexivity |].
  inversion Hnd as [|? ? Hp Hnd']; subst. cbn [write_all].
  destruct r as [u | e]; cbn [fst].
  - rewrite (write_file_same _ p f)
      by (rewrite write_all_other by exact Hp; apply read_write_same).
    now apply IH.
  - now rewrite (write_file_same _ p f) by apply read_write_same.
Qed.

Lemma same_dir_write_all (dir : string)
  (files : list (string * (File * result unit))) :
  Forall (fun x => String.prefix (dir ++ "/") (fst x) = false) files ->
  forall fs, same_dir dir fs (fst (write_all files fs)).
Proof.
  induction 1 as [|[p [f r]] files Hp H IH]; intros fs; [apply same_dir_refl |].
  cbn [fst] in Hp. cbn [write_all].
  assert (S1 : same_dir dir fs (write_file fs p f)).
  { split; [now apply listdir_write_outside |].
    intros name. apply read_write_other. intros ->.
    assert (Ht : String.prefix (dir ++ "/") (dir ++ "/" ++ name) = true).
    { apply prefix_app_iff. exists name. now rewrite append_assoc. }
    congruence. }
  destruct r as [u | e]; cbn [fst]; [| exact S1].
  eapply same_dir_trans; [exact S1 | apply IH].
Qed.

Lemma integrated_files_paths (F1 F2 F3 : list File)
  (h1 h2 h3 : option (list string)) :
  let files :=
    integrated "data/lightweight/tama_major_cities.csv" F1 h1
    ++ integrated "data/lightweight/islands_integrated.csv" F2 h2
    ++ integrated "data/lightweight/nishi_tama_integrated.csv" F3 h3 in
  NoDup (map fst files)
  /\ Forall (fun x => In (fst x) [ "data/lightweight/tama_major_cities.csv";
                                   "data/lightweight/islands_integrated.csv";
                                   "data/lightweight/nishi_tama_integrated.csv" ])
       files.
Proof.
  cbv zeta. unfold integrated.
  destruct (rows_of F1); destruct (rows_of F2); destruct (rows_of F3);
    destruct (headers_truthy h1); destruct (headers_truthy h2);
    destruct (headers_truthy h3); cbn [app map fst];
    (split;
     [repeat (constructor; [simpl; intuition discriminate |]); constructor
     | repeat (constructor; [simpl; tauto |]); constructor]).
Qed.

Lemma major_files_same (fs fs' : FS) :
  (forall path,
      ~ In path [ "data/lightweight/tama_major_cities.csv";
                  "data/lightweight/islands_integrated.csv";
                  "data/lightweight/nishi_tama_integrated.csv" ] ->
      read_file fs' path = read_file fs path) ->
  major_files fs' "data/tama_cities" = major_files fs "data/tama_cities".
Proof.
  intros H. unfold major_files, major_cities. cbn [flat_map].
  repeat (rewrite H by (simpl; intuition discriminate)). reflexivity.
Qed.

Lemma create_tama_integrated_files_again (fs : FS) :
  create_tama_integrated_files "data" (fst (create_tama_integrated_files "data" fs))
  = create_tama_integrated_files "data" fs.
Proof.
  set (fs' := fst (create_tama_integrated_files "data" fs)).
  assert (Hframe : forall path,
             ~ In path [ "data/lightweight/tama_major_cities.csv";
                         "data/lightweight/islands_integrated.csv";
                         "data/lightweight/nishi_tama_integrated.csv" ] ->
             read_file fs' path = read_file fs path)
    by (intros path; apply create_tama_integrated_files_frame).
  pose proof (create_tama_integrated_files_spec fs) as E. cbv zeta in E.
  set (F1 := major_files fs "data/tama_cities") in *.
  set (F2 := listed_files fs "data/islands") in *.
  set (F3 := listed_files fs "data/nishi_tama") in *.
  destruct (integrated_files_paths F1 F2 F3 (first_fieldnames F1)
              (first_fieldnames (F1 ++ F2)) (first_fieldnames (F1 ++ F2 ++ F3)))
    as [Hnd Hpaths].
  set (files :=
         integrated "data/lightweight/tama_major_cities.csv" F1 (first_fieldnames F1)
         ++ integrated "data/lightweight/islands_integrated.csv" F2
              (first_fieldnames (F1 ++ F2))
         ++ integrated "data/lightweight/nishi_tama_integrated.csv" F3
              (first_fieldnames (F1 ++ F2 ++ F3))) in *.
  assert (Hsame : forall dir,
             In dir ["data/islands"; "data/nishi_tama"] -> same_dir dir fs fs').
  { intros dir Hdir. unfold fs'. rewrite E. apply same_dir_write_all.
    eapply Forall_impl; [| exact Hpaths]. intros x Hx.
    destruct Hdir as [<- | [<- | []]];
      repeat (destruct Hx as [<- | Hx]; [reflexivity |]); destruct Hx. }
  rewrite (create_tama_integrated_files_spec fs'). cbv zeta.
  rewrite (major_files_same fs fs' Hframe). fold F1.
  rewrite (proj1 (listed_files_same "data/islands" fs fs' eq_refl
                    (Hsame _ (or_introl eq_refl)))). fold F2.
  rewrite (proj1 (listed_files_same "data/nishi_tama" fs fs' eq_refl
                    (Hsame _ (or_intror (or_introl eq_refl))))). fold F3.
  fold files. unfold fs'. rewrite E. now apply write_all_again.
Qed.

End IntegrateAgain.

(** X26: the integration of the Tama files is idempotent: it reads the area
    files and writes under [data/lightweight] only, so run a second time it
    reads what the first run read, writes the same files again, and ends
    as the first run did. *)
Theorem tama_integration_idempotent (fs : FS) :
  SplitTamaData.create_tama_integrated_files "data"
    (fst (SplitTamaData.create_tama_integrated_files "data" fs))
  = SplitTamaData.create_tama_integrated_files "data" fs.
Proof. exact (create_tama_integrated_files_again fs). Qed.

(* ================================================================== *)
(** * What the priority rows add to the integrated file *)
(* ================================================================== *)

Section Added.
Import CreateLightweightCsv.

Lemma near_self (row : Row) : located row -> near row row = true.
Proof.
  intros [lat [lng [Hc [Hlat Hlng]]]]. unfold near. rewrite Hc.
  now rewrite (within_self lat Hlat), (within_self lng Hlng).
Qed.

Lemma dedup_step_covered (acc : list Row) (row : Row) :
  covered acc row -> dedup_step acc row = acc.
Proof.
  intros [kept [Hin Hn]]. unfold dedup_step.
  replace (existsb (fun existing_row => near existing_row row) acc) with true;
    [reflexivity |].
  symmetry. apply existsb_exists. now exists kept.
Qed.

Lemma covered_step (acc : list Row) (row x : Row) :
  covered acc x -> covered (dedup_step acc row) x.
Proof.
  intros [kept [Hin Hn]]. exists kept. split; [| exact Hn].
  unfold dedup_step. destruct (existsb _ acc); [exact Hin |].
  apply in_or_app. now left.
Qed.

(** Rows that are covered already can be left out of what is merged. *)
Lemma dedup_skip (p : Row -> bool) (rows : list Row) :
  forall acc,
    (forall row, In row rows -> p row = false -> covered acc row) ->
    dedup acc rows = dedup acc (filter p rows).
Proof.
  unfold dedup.
  induction rows as [|row rows IH]; intros acc H; [reflexivity |].
  cbn [fold_left filter].
  assert (Hnext : forall acc',
             (forall x, covered acc x -> covered acc' x) ->
             forall x, In x rows -> p x = false -> covered acc' x)
    by (intros acc' Hc x Hx Hp; apply Hc, H; [now right | exact Hp]).
  destruct (p row) eqn:E.
  - cbn [fold_left]. apply IH. apply Hnext. intros x. apply covered_step.
  - rewrite dedup_step_covered by (apply H; [now left | exact E]).
    apply IH. apply Hnext. auto.
Qed.

Lemma dedup_covered (rows : list Row) (row : Row) :
  Forall located rows -> In row rows -> covered (dedup [] rows) row.
Proof.
  intros Hl Hin. destruct (dedup_covers rows [] row Hin) as [H | [kept H]].
  - exists row. split; [exact H |]. apply near_self.
    rewrite Forall_forall in Hl. now apply Hl.
  - now exists kept.
Qed.

Lemma merged_outer (max_items : Z) (rows : list Row) :
  Forall located rows ->
  merged max_items rows
  = dedup (dedup [] (inner rows))
      (filter (fun row => negb (in_target_ward YAMANOTE_INNER_WARDS row))
         (top max_items rows)).
Proof.
  intros Hl. unfold merged. rewrite dedup_app. apply dedup_skip.
  intros row Hin Hp. apply negb_false_iff in Hp.
  apply dedup_covered.
  - eapply Forall_incl; [apply inner_incl | exact Hl].
  - unfold inner. apply filter_In. split; [| exact Hp].
    now apply top_incl in Hin.
Qed.

End Added.

Lemma main_integrated (fs : FS)
  (public_names : list string) (public_recs : list (list string))
  (station_names : list string) (station_recs : list (list string)) :
  read_file fs "data/barrier_free_toilets.csv" = Some (public_names :: public_recs) ->
  read_file fs "data/station_barrier_free_toilets.csv"
  = Some (station_names :: station_recs) ->
  readable public_names public_recs ->
  readable station_names station_recs ->
  read_file (fst (CreateLightweightCsv.main fs))
    "data/lightweight/integrated_public.csv"
  = Some (integrated_content
            (merged 1000 (DictReader (public_names :: public_recs))))
  /\ read_file (fst (CreateLightweightCsv.main fs))
       "data/lightweight/integrated_station.csv"
     = Some (integrated_content
               (merged 500 (DictReader (station_names :: station_recs)))).
Proof.
  intros Hp Hs Rp Rs. rewrite (main_outputs fs _ _ _ _ Hp Hs Rp Rs).
  unfold outputs, write_files. cbn [fold_left fst snd].
  split; rewrite ?read_write_other by discriminate; apply read_write_same.
Qed.

Lemma merged_added (max_items : Z) (rows : list Row) :
  Forall located rows ->
  exists added,
    merged max_items rows = dedup [] (inner rows) ++ added
    /\ incl added (top max_items rows)
    /\ Forall (fun row =>
                 in_target_ward CreateLightweightCsv.YAMANOTE_INNER_WARDS row
                 = false) added.
Proof.
  intros Hl. rewrite (merged_outer max_items rows Hl).
  destruct (dedup_extends
              (filter (fun row =>
                         negb (in_target_ward
                                 CreateLightweightCsv.YAMANOTE_INNER_WARDS row))
                 (top max_items rows))
              (dedup [] (inner rows))) as [added [-> Hincl]].
  exists added. split; [reflexivity |]. split.
  - intros row Hrow. apply Hincl, filter_In in Hrow. tauto.
  - apply Forall_forall. intros row Hrow. apply Hincl, filter_In in Hrow.
    now apply negb_true_iff.
Qed.

(** X27: on inputs that every step of [main] can read and whose rows all have
    finite coordinates, the priority rows add to the integrated files that
    [main] writes only rows from outside the inner wards: an inner-ward row
    among them is there already or is a duplicate of a row that is.  Each
    integrated file holds the inner-ward rows without duplicates, in their
    order, followed by rows of the priority file none of which lies in an
    inner ward. *)
Theorem priority_rows_add_only_outer_rows (fs : FS)
  (public_names : list string) (public_recs : list (list string))
  (station_names : list string) (station_recs : list (list string)) :
  read_file fs "data/barrier_free_toilets.csv" = Some (public_names :: public_recs) ->
  read_file fs "data/station_barrier_free_toilets.csv"
  = Some (station_names :: station_recs) ->
  readable public_names public_recs ->
  readable station_names station_recs ->
  Forall located (DictReader (public_names :: public_recs)) ->
  Forall located (DictReader (station_names :: station_recs)) ->
  let public_rows := DictReader (public_names :: public_recs) in
  let station_rows := DictReader (station_names :: station_recs) in
  snd (CreateLightweightCsv.main fs) = Ok tt
  /\ exists added_public added_station,
      read_file (fst (CreateLightweightCsv.main fs))
        "data/lightweight/integrated_public.csv"
      = Some (integrated_content (dedup [] (inner public_rows) ++ added_public))
      /\ read_file (fst (CreateLightweightCsv.main fs))
           "data/lightweight/integrated_station.csv"
         = Some (integrated_content
                   (dedup [] (inner station_rows) ++ added_station))
      /\ incl added_public (top 1000 public_rows)
      /\ incl added_station (top 500 station_rows)
      /\ Forall (fun row =>
                   in_target_ward CreateLightweightCsv.YAMANOTE_INNER_WARDS row
                   = false) (added_public ++ added_station).
Proof.
  intros Hp Hs Rp Rs Lp Ls public_rows station_rows.
  destruct (main_integrated fs _ _ _ _ Hp Hs Rp Rs) as [Ep Es].
  fold public_rows in Ep, Lp. fold station_rows in Es, Ls.
  destruct (merged_added 1000 public_rows Lp) as [ap [Mp [Ip Fp]]].
  destruct (merged_added 500 station_rows Ls) as [a_s [Ms [Is Fs]]].
  split; [now rewrite (main_outputs fs _ _ _ _ Hp Hs Rp Rs) |].
  exists ap, a_s. rewrite <- Mp, <- Ms.
  repeat split; try assumption. apply Forall_app. now split.
Qed.

(** The public input of a city hall outside the inner wards and a ward office
    inside them: the ward office is in the priority file too, and is added
    only once. *)
Lemma priority_rows_add_only_outer_rows_witness :
  snd (CreateLightweightCsv.main SplitterExamples.fs_city) = Ok tt
  /\ exists added_public added_station,
      read_file (fst (CreateLightweightCsv.main SplitterExamples.fs_city))
        "data/lightweight/integrated_public.csv"
      = Some (integrated_content
                (dedup []
                   (inner (DictReader [SplitterExamples.header;
                                       SplitterExamples.city_hall;
                                       SplitterExamples.ward_office]))
                 ++ added_public))
      /\ read_file (fst (CreateLightweightCsv.main SplitterExamples.fs_city))
           "data/lightweight/integrated_station.csv"
         = Some (integrated_content
                   (dedup []
                      (inner (DictReader [SplitterExamples.header;
                                          SplitterExamples.station]))
                    ++ added_station))
      /\ incl added_public
           (top 1000 (DictReader [SplitterExamples.header;
                                  SplitterExamples.city_hall;
                                  SplitterExamples.ward_office]))
      /\ incl added_station
           (top 500 (DictReader [SplitterExamples.header;
                                 SplitterExamples.station]))
      /\ Forall (fun row =>
                   in_target_ward CreateLightweightCsv.YAMANOTE_INNER_WARDS row
                   = false) (added_public ++ added_station).
Proof.
  refine (priority_rows_add_only_outer_rows SplitterExamples.fs_city
            SplitterExamples.header
            [SplitterExamples.city_hall; SplitterExamples.ward_office]
            SplitterExamples.header [SplitterExamples.station]
            eq_refl eq_refl _ _ _ _).
  - unfold readable. repeat split.
    + repeat (constructor; [simpl; intuition discriminate |]). constructor.
    + repeat (constructor; [right; reflexivity |]). constructor.
    + simpl. tauto.
    + simpl. tauto.
    + repeat (constructor; [vm_compute; reflexivity |]). constructor.
  - unfold readable. repeat split.
    + repeat (constructor; [simpl; intuition discriminate |]). constructor.
    + repeat (constructor; [right; reflexivity |]). constructor.
    + simpl. tauto.
    + simpl. tauto.
    + repeat (constructor; [vm_compute; reflexivity |]). constructor.
  - repeat (constructor;
            [eexists; eexists; split; [vm_compute; reflexivity |];
             split; vm_compute; reflexivity |]).
    constructor.
  - repeat (constructor;
            [eexists; eexists; split; [vm_compute; reflexivity |];
             split; vm_compute; reflexivity |]).
    constructor.
Defined.

